(** * Gastenhuis auto-rooster: model construction and compliance validation

    A shallow embedding of [app/preprocessing.py] (function
    [preprocess_data]), [app/validate.py] (function
    [validate_auto_rooster]) and the validation gate of [web/app.py]
    (function [generate_schedule]).

    Data frames are lists of records, one record per row, in row order.
    A missing cell (NaN, NaT, None, pd.NA) is [None].  Calendar dates are
    proleptic Gregorian ordinals as returned by [date.toordinal()], so
    that [date + timedelta(days=n)] is integer addition; times of day
    are minutes after midnight.  Python exceptions are the [Raise] case
    of the result type [res]. *)

From Stdlib Require Import ZArith List String Ascii Bool Lia QArith Qround.
From Stdlib Require Import DecimalString Permutation Sorted.
Import ListNotations.

#[local] Open Scope string_scope.
#[local] Open Scope list_scope.
#[local] Open Scope Z_scope.

(** ** Python and pandas primitives *)

Module Py.

(** Exceptions the modelled code can raise. *)
Inductive exn : Type :=
| IndexError (what : string)
| KeyError (what : string)
| ValueError (what : string)
| TypeError (what : string).

Inductive res (A : Type) : Type :=
| Ok (a : A)
| Raise (e : exn).
Arguments Ok {A} a.
Arguments Raise {A} e.

Definition bind {A B} (m : res A) (k : A -> res B) : res B :=
  match m with
  | Ok a => k a
  | Raise e => Raise e
  end.

Notation "x <- m ;; k" := (bind m (fun x => k))
  (at level 61, m at next level, right associativity).

(** [for x in xs: errors += body(x)], where the body may raise. *)
Fixpoint for_each {A B} (body : A -> res (list B)) (xs : list A)
  : res (list B) :=
  match xs with
  | [] => Ok []
  | x :: xs' =>
      here <- body x ;;
      rest <- for_each body xs' ;;
      Ok (here ++ rest)
  end.

(** What a Python call hands back to its caller. *)
Inductive value (A : Type) : Type :=
| PyNone
| PyList (items : list A).
Arguments PyNone {A}.
Arguments PyList {A} items.

(** Truth value of [if v:]. *)
Definition truthy {A} (v : value A) : bool :=
  match v with
  | PyNone => false
  | PyList [] => false
  | PyList (_ :: _) => true
  end.

(** [range(a, b)]. *)
Definition range (a b : Z) : list Z :=
  map (fun i => a + Z.of_nat i) (seq 0 (Z.to_nat (b - a))).

Definition enumerate {A} (xs : list A) : list (Z * A) :=
  combine (range 0 (Z.of_nat (List.length xs))) xs.

Definition sum (xs : list Z) : Z := fold_right Z.add 0 xs.

Definition len {A} (xs : list A) : Z := Z.of_nat (List.length xs).

Definition is_some {A} (o : option A) : bool :=
  match o with Some _ => true | None => false end.

(** [x in xs] for integers and for strings. *)
Definition memZ (x : Z) (xs : list Z) : bool := existsb (Z.eqb x) xs.
Definition memS (x : string) (xs : list string) : bool :=
  existsb (String.eqb x) xs.

(** Order-preserving removal of duplicates ([Series.unique()]). *)
Fixpoint unique {A} (eqb : A -> A -> bool) (xs : list A) : list A :=
  match xs with
  | [] => []
  | x :: xs' => x :: filter (fun y => negb (eqb x y)) (unique eqb xs')
  end.

Definition nunique {A} (eqb : A -> A -> bool) (xs : list A) : Z :=
  len (unique eqb xs).

(** Stable insertion sort ([sorted], [sort_values]). *)
Fixpoint insert {A} (leb : A -> A -> bool) (x : A) (xs : list A) : list A :=
  match xs with
  | [] => [x]
  | y :: ys => if leb x y then x :: y :: ys else y :: insert leb x ys
  end.

Definition sort {A} (leb : A -> A -> bool) (xs : list A) : list A :=
  fold_right (insert leb) [] xs.

(** [DataFrame.groupby(key)]: groups in ascending key order, the rows
    of a group in frame order. *)
Definition groupby {R K} (leb eqb : K -> K -> bool) (key : R -> K)
    (rows : list R) : list (K * list R) :=
  map (fun k => (k, filter (fun r => eqb (key r) k) rows))
      (sort leb (unique eqb (map key rows))).

(** [Series.min()] and [Series.max()]; [None] is the NaN of an empty
    column. *)
Definition minimum (xs : list Z) : option Z :=
  match xs with
  | [] => None
  | x :: xs' => Some (fold_right Z.min x xs')
  end.

Definition maximum (xs : list Z) : option Z :=
  match xs with
  | [] => None
  | x :: xs' => Some (fold_right Z.max x xs')
  end.

(** [reset_index(drop=True)] followed by [col = index]. *)
Definition with_index {A} (set : Z -> A -> A) (xs : list A) : list A :=
  map (fun p => set (fst p) (snd p)) (enumerate xs).

(** [numpy.round] on an exact rational: half to even. *)
Definition round_half_even (q : Q) : Z :=
  let f := Qfloor q in
  match Qcompare (q - inject_Z f) (1 # 2) with
  | Lt => f
  | Gt => f + 1
  | Eq => if Z.even f then f else f + 1
  end.

(** [str(n)] for an integer. *)
Definition str (n : Z) : string := NilZero.string_of_int (Z.to_int n).

(** [s.lower()] on ASCII text. *)
Definition lower_ascii (c : ascii) : ascii :=
  let n := nat_of_ascii c in
  if (Nat.leb 65 n && Nat.leb n 90)%bool then ascii_of_nat (n + 32) else c.

Fixpoint lower (s : string) : string :=
  match s with
  | EmptyString => EmptyString
  | String c s' => String (lower_ascii c) (lower s')
  end.

(** [s.lstrip('0')]. *)
Fixpoint lstrip0 (s : string) : string :=
  match s with
  | String "0"%char s' => lstrip0 s'
  | _ => s
  end.

(** [s.split(sep)[0]]: the text before the first separator. *)
Fixpoint before (sep : ascii) (s : string) : string :=
  match s with
  | EmptyString => EmptyString
  | String c s' =>
      if Ascii.eqb c sep then EmptyString else String c (before sep s')
  end.

(** [sub in s] for a one-character [sub]. *)
Fixpoint contains (c : ascii) (s : string) : bool :=
  match s with
  | EmptyString => false
  | String c' s' => (Ascii.eqb c c' || contains c s')%bool
  end.

End Py.

(** ** Calendar *)

Module Calendar.

(** [date.toordinal()]: day 1 is Monday 0001-01-01. *)
Definition date := Z.

(** [date.weekday()], 0 = Monday. *)
Definition weekday (d : date) : Z := (d - 1) mod 7.

(** Minutes after midnight of a [datetime.time]. *)
Definition time := Z.
Definition hm (h m : Z) : time := h * 60 + m.

Record ymd := { year : Z; month : Z; day : Z }.

End Calendar.

(** ** [app/preprocessing.py] *)

Module Preprocessing.
Import Py Calendar.

(** *** Shifts *)

(** The columns of [info_shifts], as the dictionary literal lists them. *)
Definition Shifts : list string :=
  ["D1"; "D2"; "D3"; "D4"; "FM"; "GD"; "KOK"; "A1"; "A2"; "A3"; "GA"; "N"].
Definition Begintijd : list time :=
  [hm 7 0; hm 7 30; hm 7 30; hm 8 45; hm 8 0; hm 8 0; hm 15 0; hm 15 0;
   hm 15 30; hm 18 30; hm 16 0; hm 22 45].
Definition Eindtijd : list time :=
  [hm 15 0; hm 15 0; hm 14 0; hm 12 45; hm 12 30; hm 14 0; hm 19 30;
   hm 23 0; hm 22 30; hm 22 30; hm 22 0; hm 7 0].
Definition Duur : list Q :=
  [8 # 1; 15 # 2; 13 # 2; 4 # 1; 9 # 2; 6 # 1; 9 # 2; 8 # 1; 7 # 1; 4 # 1;
   6 # 1; 33 # 4]%Q.
Definition Maandag : list Z := [1;1;1;1;1;1;1;1;1;1;1;1].
Definition Dinsdag : list Z := [1;1;1;1;1;1;1;1;1;1;1;1].
Definition Woensdag : list Z := [1;1;1;1;1;1;1;1;1;1;1;1].
Definition Donderdag : list Z := [1;1;1;0;1;1;1;1;1;1;1;1].
Definition Vrijdag : list Z := [1;1;1;1;0;1;1;1;1;1;1;1].
Definition Zaterdag : list Z := [1;1;1;0;0;1;1;1;1;1;1;1].
Definition Zondag : list Z := [1;1;1;1;0;1;1;1;1;0;1;1].
Definition Deskundigheden : list (list Z) :=
  [[1;2]; [2]; [3]; [3]; [6]; [4]; [5]; [2]; [3]; [3]; [4]; [2]].

(** [days], each with its index in [day_map]. *)
Definition days : list (Z * list Z) :=
  enumerate [Maandag; Dinsdag; Woensdag; Donderdag; Vrijdag; Zaterdag; Zondag].

Record requirement := {
  r_shift_name : string;
  r_day_of_week : Z;
  r_start_time : time;
  r_end_time : time;
  r_qualification : list Z;
  r_duration : Q
}.

(** One entry per template row and active weekday, rows outermost. *)
Definition shift_requirements : list requirement :=
  flat_map
    (fun i =>
       flat_map
         (fun d =>
            if nth i (snd d) 0 =? 1 then
              [ {| r_shift_name := nth i Shifts "";
                   r_day_of_week := fst d;
                   r_start_time := nth i Begintijd 0;
                   r_end_time := nth i Eindtijd 0;
                   r_qualification := nth i Deskundigheden [];
                   r_duration := nth i Duur 0%Q |} ]
            else [])
         days)
    (seq 0 (List.length Shifts)).

Record shift := {
  shift_id : Z;
  shift_name : string;
  shift_date : date;
  week : Z;
  global_week : Z;
  day_of_week : Z;
  absolute_day : Z;
  start_time : time;
  end_time : time;
  duration_min : Z;
  qualification : list Z;
  is_night : bool;
  day_key : Z * Z
}.

Definition set_shift_id (i : Z) (s : shift) : shift :=
  {| shift_id := i; shift_name := shift_name s; shift_date := shift_date s;
     week := week s; global_week := global_week s;
     day_of_week := day_of_week s; absolute_day := absolute_day s;
     start_time := start_time s; end_time := end_time s;
     duration_min := duration_min s; qualification := qualification s;
     is_night := is_night s; day_key := day_key s |}.

Definition set_global_week (g : Z) (s : shift) : shift :=
  {| shift_id := shift_id s; shift_name := shift_name s;
     shift_date := shift_date s; week := week s; global_week := g;
     day_of_week := day_of_week s; absolute_day := absolute_day s;
     start_time := start_time s; end_time := end_time s;
     duration_min := duration_min s; qualification := qualification s;
     is_night := is_night s; day_key := day_key s |}.

(** The body of the loop over [range(num_weeks)] and
    [shift_requirements], with the column conversions that follow it
    ([duration_min], [day_key], [is_night]) applied to the row. *)
Definition shift_instance (start_date global_start_date : date)
    (wk : Z) (row : requirement) : shift :=
  let d := start_date + (wk * 7 + r_day_of_week row) in
  {| shift_id := 0;
     shift_name := r_shift_name row;
     shift_date := d;
     week := wk + 1;
     global_week := (d - global_start_date) / 7 + 1;
     day_of_week := r_day_of_week row;
     absolute_day := wk * 7 + r_day_of_week row;
     start_time := r_start_time row;
     end_time := r_end_time row;
     duration_min := round_half_even (r_duration row * 60);
     qualification := r_qualification row;
     is_night := String.eqb (r_shift_name row) "N";
     day_key := (wk + 1, r_day_of_week row) |}.

Definition all_shift_instances (start_date global_start_date : date)
    (num_weeks : Z) : list shift :=
  with_index set_shift_id
    (flat_map
       (fun wk => map (shift_instance start_date global_start_date wk)
                      shift_requirements)
       (range 0 num_weeks)).

Definition administrative (s : shift) : bool :=
  memS (shift_name s) ["KOK"; "FM"].

(** [shifts_constant]: the KOK and FM rows, renumbered. *)
Definition shifts_constant_of (all : list shift) : list shift :=
  with_index set_shift_id (filter administrative all).

(** [shifts]: every other row, renumbered. *)
Definition shifts_of (all : list shift) : list shift :=
  with_index set_shift_id (filter (fun s => negb (administrative s)) all).

(** *** Previous assignments *)

(** A row of the uploaded prior-period table: [employee_id] after
    [astype(str)], and the shift columns ([global_week] is overwritten). *)
Record raw_prev := {
  rp_employee_id : string;
  rp_shift : shift
}.

Record prev_assignment := {
  pa_employee_id : option string;
  pa_shift : shift
}.

Definition prev_supplied (prev : option (list raw_prev)) : list raw_prev :=
  match prev with
  | Some rows => rows
  | None => []
  end.

Definition prev_dates (rows : list raw_prev) : list date :=
  map (fun r => shift_date (rp_shift r)) rows.

(** [start_date]: the day after the latest prior date, or the next
    Monday from today (today itself on a Monday) when no prior table is
    supplied. *)
Definition start_date_of (today : date) (prev : option (list raw_prev))
  : date :=
  match maximum (prev_dates (prev_supplied prev)) with
  | Some latest => latest + 1
  | None => today + (7 - weekday today) mod 7
  end.

(** [global_start_date]: the Monday on or before the earliest prior
    date, or [start_date] when no prior table is supplied. *)
Definition global_start_date_of (today : date)
    (prev : option (list raw_prev)) : date :=
  match minimum (prev_dates (prev_supplied prev)) with
  | Some earliest => earliest - weekday earliest
  | None => start_date_of today prev
  end.

Definition prev_employee_id (x : string) : string :=
  if contains "."%char x then before "."%char x else x.

(** The prior table with [employee_id] cleaned and [global_week] added. *)
Definition real_prev (global_start_date : date) (rows : list raw_prev)
  : list prev_assignment :=
  map (fun r =>
         {| pa_employee_id := Some (prev_employee_id (rp_employee_id r));
            pa_shift :=
              set_global_week
                ((shift_date (rp_shift r) - global_start_date) / 7)
                (rp_shift r) |})
      rows.

(** The look-back built when no prior table is supplied: the rows of
    [shifts] dated in the 28 days before [start_date]. *)
Definition synthesized_prev (start_date : date) (shifts : list shift)
  : list prev_assignment :=
  map (fun s =>
         {| pa_employee_id := None;
            pa_shift := set_global_week (global_week s - 4) s |})
      (filter (fun s => start_date - 28 <=? shift_date s)
         (filter (fun s => shift_date s <? start_date) shifts)).

Definition prev_assignments_of (today : date)
    (prev : option (list raw_prev)) (shifts : list shift)
  : list prev_assignment :=
  match prev_supplied prev with
  | [] => synthesized_prev (start_date_of today prev) shifts
  | rows => real_prev (global_start_date_of today prev) rows
  end.

(** The calendar half of the returned dictionary. *)
Record calendar_model := {
  cm_start_date : date;
  cm_shifts : list shift;
  cm_shifts_constant : list shift;
  cm_prev_assignments : list prev_assignment
}.

Definition preprocess_calendar (today : date)
    (prev : option (list raw_prev)) (num_weeks : Z) : calendar_model :=
  let start_date := start_date_of today prev in
  let all :=
    all_shift_instances start_date (global_start_date_of today prev)
      num_weeks in
  {| cm_start_date := start_date;
     cm_shifts := shifts_of all;
     cm_shifts_constant := shifts_constant_of all;
     cm_prev_assignments := prev_assignments_of today prev (shifts_of all) |}.

(** *** Workers *)

(** A row of the worker sheet.  [medewerker_id] is the cell after
    [astype(str)]; [deskundigheid] is the column the sheet calls
    [deskundigheid.1]. *)
Record raw_worker := {
  rw_medewerker_id : string;
  rw_wensen : option string;
  rw_deskundigheid : option Z;
  rw_contract_soort : option string;
  rw_contracturen : option Q;
  rw_max_werkdgn_pw : option Z;
  rw_geboortedatum : ymd
}.

Record worker := {
  medewerker_id : string;
  deskundigheid : list Z;
  max_days_per_week : Z;
  contract_hours : Q;
  contract_minutes : Z;
  leeftijd : Z
}.

Definition set_contract_minutes (m : Z) (w : worker) : worker :=
  {| medewerker_id := medewerker_id w; deskundigheid := deskundigheid w;
     max_days_per_week := max_days_per_week w;
     contract_hours := contract_hours w; contract_minutes := m;
     leeftijd := leeftijd w |}.

(** [x.lstrip('0').split('-')[0]]. *)
Definition clean_id (x : string) : string := before "-"%char (lstrip0 x).

Definition option_eqb (o : option string) (s : string) : bool :=
  match o with
  | Some x => String.eqb x s
  | None => false
  end.

(** [workers['wensen'] != 'niet plannen']. *)
Definition planned (r : raw_worker) : bool :=
  negb (option_eqb (rw_wensen r) "niet plannen").

(** [[int(x) for x in str(int(v))]]. *)
Definition digits (v : Z) : list Z :=
  map (fun c => Z.of_nat (nat_of_ascii c) - 48)
      (list_ascii_of_string (str v)).

(** The loop that turns a packed code into a list; a missing code
    makes [int()] raise. *)
Definition unpack (code : option Z) : res (list Z) :=
  match code with
  | Some v => if v <? 10 then Ok [v] else Ok (digits v)
  | None => Raise (ValueError "cannot convert float NaN to integer")
  end.

Definition excluded (quals : list Z) : bool :=
  (memZ 5 quals || memZ 6 quals)%bool.

Definition imply_3 (quals : list Z) : list Z :=
  if (memZ 7 quals && negb (memZ 3 quals))%bool then quals ++ [3]
  else quals.

Definition fillna {A} (default : A) (o : option A) : A :=
  match o with
  | Some a => a
  | None => default
  end.

(** [contracturen] once on-call contracts are set to 0. *)
Definition contracturen (r : raw_worker) : option Q :=
  if option_eqb (rw_contract_soort r) "oproep" then Some 0%Q
  else rw_contracturen r.

Definition max_days_of (r : raw_worker) : Z :=
  fillna 0 (rw_max_werkdgn_pw r).

Definition contract_hours_of (r : raw_worker) : Q :=
  let h := fillna 0%Q (contracturen r) in
  if Qeq_bool h 0 then inject_Z (max_days_of r * 9) else h.

Definition contract_minutes_of (r : raw_worker) : Z :=
  round_half_even (contract_hours_of r * 60).

Definition before_birthday (current_date birth : ymd) : bool :=
  ((month current_date <? month birth)
   || ((month current_date =? month birth)
       && (day current_date <? day birth)))%bool.

Definition leeftijd_of (current_date birth : ymd) : Z :=
  year current_date - year birth
  - (if before_birthday current_date birth then 1 else 0).

Definition worker_of (current_date : ymd) (r : raw_worker)
    (quals : list Z) : worker :=
  {| medewerker_id := clean_id (rw_medewerker_id r);
     deskundigheid := imply_3 quals;
     max_days_per_week := max_days_of r;
     contract_hours := contract_hours_of r;
     contract_minutes := contract_minutes_of r;
     leeftijd := leeftijd_of current_date (rw_geboortedatum r) |}.

(** The worker table before the fixed roster is taken into account. *)
Definition normalize_workers (current_date : ymd)
    (df_werknemers : list raw_worker) : res (list worker) :=
  rows <- for_each
            (fun r => quals <- unpack (rw_deskundigheid r) ;; Ok [(r, quals)])
            (filter planned df_werknemers) ;;
  Ok (map (fun p => worker_of current_date (fst p) (snd p))
          (filter (fun p => negb (excluded (snd p))) rows)).

(** *** Fixed roster and unavailability *)

Record raw_vast := {
  v_medewerker_id : string;
  v_dag : string;
  v_dienst : string;
  v_weekvolgnr : Z
}.

Definition day_map_const (dag : string) : option Z :=
  if String.eqb dag "maandag" then Some 0
  else if String.eqb dag "dinsdag" then Some 1
  else if String.eqb dag "woensdag" then Some 2
  else if String.eqb dag "donderdag" then Some 3
  else if String.eqb dag "vrijdag" then Some 4
  else if String.eqb dag "zaterdag" then Some 5
  else if String.eqb dag "zondag" then Some 6
  else None.

Definition find_shift_id (shifts_constant : list shift) (v : raw_vast)
  : option Z :=
  match day_map_const (v_dag v) with
  | Some dow =>
      match
        filter (fun s => (String.eqb (shift_name s) (v_dienst v)
                          && (day_of_week s =? dow))%bool)
               shifts_constant
      with
      | first :: _ => Some (shift_id first)
      | [] => None
      end
  | None => None
  end.

(** A row of [df_const_unavail]. *)
Record const_unavail := {
  cu_medewerker_id : string;
  cu_shift_date : option date;
  cu_shift_id : option Z
}.

Definition const_unavail_of (start_date : date)
    (shifts_constant : list shift) (v : raw_vast) : const_unavail :=
  {| cu_medewerker_id := clean_id (v_medewerker_id v);
     cu_shift_date :=
       match day_map_const (v_dag v) with
       | Some dow => Some (start_date + ((v_weekvolgnr v - 1) * 7 + dow))
       | None => None
       end;
     cu_shift_id := find_shift_id shifts_constant v |}.

(** A row of the unavailability upload; the columns read after the
    fixed roster has been appended to it. *)
Record raw_onb := {
  ro_medewerker_id : string;
  ro_datum_beschikbaarheid : option date;
  ro_beschikbaarheid : option string;
  ro_tijd_vanaf : option time;
  ro_tijd_tm : option time
}.

(** A fixed-roster row once concatenated to [df_onb]: the upload's
    own columns are empty in it. *)
Definition appended_onb (c : const_unavail) : raw_onb :=
  {| ro_medewerker_id := cu_medewerker_id c;
     ro_datum_beschikbaarheid := None;
     ro_beschikbaarheid := Some "Niet beschikbaar (constant schedule)";
     ro_tijd_vanaf := None;
     ro_tijd_tm := None |}.

Record onb_record := {
  Medewerker_id : string;
  Datum : option date;
  Beschikbaarheid : string;
  Beschikbaarheid_tijd_vanaf : option time;
  Beschikbaarheid_tijd_tm : option time
}.

Definition onb_of (r : raw_onb) : onb_record :=
  {| Medewerker_id := ro_medewerker_id r;
     Datum := ro_datum_beschikbaarheid r;
     Beschikbaarheid := fillna "Onbekend" (ro_beschikbaarheid r);
     Beschikbaarheid_tijd_vanaf := ro_tijd_vanaf r;
     Beschikbaarheid_tijd_tm := ro_tijd_tm r |}.

(** [hours_to_subtract] for one employee of the fixed roster. *)
Definition hours_to_subtract (shifts_constant : list shift)
    (consts : list const_unavail) (emp : string) : Z :=
  let shift_ids :=
    flat_map (fun c => match cu_shift_id c with
                       | Some i => [i]
                       | None => []
                       end)
      (filter (fun c => String.eqb (cu_medewerker_id c) emp) consts) in
  sum (map duration_min
         (filter (fun s => memZ (shift_id s) shift_ids) shifts_constant)).

Definition subtract_for (shifts_constant : list shift)
    (consts : list const_unavail) (workers : list worker) (emp : string)
  : list worker :=
  map (fun w =>
         if String.eqb (medewerker_id w) emp
         then set_contract_minutes
                (contract_minutes w
                 - hours_to_subtract shifts_constant consts emp) w
         else w)
      workers.

(** The loop over [df_const_unavail['Medewerker id'].unique()]. *)
Definition subtract_constant (shifts_constant : list shift)
    (consts : list const_unavail) (workers : list worker) : list worker :=
  fold_left (subtract_for shifts_constant consts)
    (unique String.eqb (map cu_medewerker_id consts)) workers.

Definition vast_supplied (df_vastrooster : option (list raw_vast))
  : list raw_vast :=
  match df_vastrooster with
  | Some rows => rows
  | None => []
  end.

(** *** The returned model *)

(** The entries of the returned dictionary that the validator and the
    continuity rules read, and the reference set of administrative
    shifts.  An empty horizon leaves the shift frame without columns,
    and reading its [duration] column raises. *)
Record model := {
  shifts : list shift;
  workers : list worker;
  onb : list onb_record;
  emp_ids : list string;
  prev_assignments : list prev_assignment;
  shifts_constant : list shift
}.

Definition preprocess_data (today : date) (current_date : ymd)
    (df_werknemers : list raw_worker) (df_onb : list raw_onb)
    (prev : option (list raw_prev))
    (df_vastrooster : option (list raw_vast)) (num_weeks : Z)
  : res model :=
  if num_weeks <=? 0 then Raise (KeyError "duration")
  else
    let cal := preprocess_calendar today prev num_weeks in
    normalized <- normalize_workers current_date df_werknemers ;;
    let consts :=
      map (const_unavail_of (cm_start_date cal) (cm_shifts_constant cal))
          (vast_supplied df_vastrooster) in
    Ok {| shifts := cm_shifts cal;
          workers := subtract_constant (cm_shifts_constant cal) consts
                       normalized;
          onb := map onb_of (df_onb ++ map appended_onb consts);
          emp_ids := map medewerker_id normalized;
          prev_assignments := cm_prev_assignments cal;
          shifts_constant := cm_shifts_constant cal |}.

End Preprocessing.

(** ** [app/validate.py] *)

Module Validate.
Import Py Calendar Preprocessing.

(** A row of [result['assignments_df']]; an unfilled shift has no
    [employee_id]. *)
Record assignment := {
  a_shift_id : Z;
  a_employee_id : option string;
  a_shift_date : date;
  a_week : Z;
  a_duration_min : Z;
  a_is_night : bool;
  a_start_time : time;
  a_end_time : time;
  a_shift_name : string
}.

(** One constructor per message appended to [errors], carrying the
    values the message interpolates. *)
Inductive violation : Type :=
| MultipleEmployees (sid : Z) (emps : list string)
| MultipleShifts (emp : string) (n : Z) (d : date) (sids : list Z)
| DayAfterNight (emp : string) (next_day night : date)
| MaxWorkDays (emp : string) (wk worked_days max_days : Z)
| ContractHours (emp : string) (total_minutes allowed_total num_weeks : Z)
| FullyUnavailable (emp : string) (d : date) (sid : Z)
| UnavailableTime (emp : string) (d : date) (sid : Z)
    (s_start s_end u_start u_end : time)
| ConsecutiveNights (emp : string) (max_consec : Z) (window : list date)
| RestAfterNights (emp : string) (sids : list Z) (d0 d1 d2 : date)
| NightsIn13Weeks (emp : string) (n start_week end_week : Z)
| AgeNight (emp : string) (age : Z) (sids : list Z)
| LacksQualification (emp : string) (required : list Z) (sid : Z)
| HennieNonNight (sid : Z) (d : date)
| RomyWeekday (sid : Z) (d : date)
| JasmijnDisallowed (sid : Z) (d : date)
| MaikeDisallowed (sid : Z) (d : date)
| MarliesInARow (b : list date)
| MarliesNoRest (b : list date)
| TeunaBlockLength (n : Z) (b : list date)
| TeunaNoRest (b : list date)
| MariaShifts (n wk : Z)
| CarolienShifts (n wk : Z)
| CarolienNonLate (sid : Z) (name : string).

(** The text of the contract-hours message. *)
Definition render_contract_hours (emp : string)
    (total_minutes allowed_total num_weeks : Z) : string :=
  ("Employee " ++ emp ++ " exceeds average contract hours: "
   ++ str total_minutes ++ " min worked > " ++ str allowed_total
   ++ " min allowed over " ++ str num_weeks ++ " weeks")%string.

(** [assignments_df.dropna(subset=['employee_id'])]. *)
Definition dropna (rows : list assignment) : list assignment :=
  filter (fun a => is_some (a_employee_id a)) rows.

(** The group key of a row that has an employee. *)
Definition employee_id (a : assignment) : string :=
  fillna "" (a_employee_id a).

(** [assignments_df['employee_id'] == emp]. *)
Definition of_employee (emp : string) (a : assignment) : bool :=
  option_eqb (a_employee_id a) emp.

Definition by_employee (df : list assignment)
  : list (string * list assignment) :=
  groupby String.leb String.eqb employee_id df.

Definition by_week (group : list assignment) : list (Z * list assignment) :=
  groupby Z.leb Z.eqb a_week group.

Definition pair_leb (p q : string * date) : bool :=
  (String.ltb (fst p) (fst q)
   || (String.eqb (fst p) (fst q) && (snd p <=? snd q)))%bool.

Definition pair_eqb (p q : string * date) : bool :=
  (String.eqb (fst p) (fst q) && (snd p =? snd q))%bool.

(** [workers.loc[workers['medewerker_id'] == emp, col].iloc[0]]. *)
Definition worker_cell {A} (workers : list worker) (emp : string)
    (col : worker -> A) : res A :=
  match filter (fun w => String.eqb (medewerker_id w) emp) workers with
  | w :: _ => Ok (col w)
  | [] => Raise (IndexError "single positional indexer is out-of-bounds")
  end.

(** [shifts_lookup.loc[sid]]. *)
Definition shifts_lookup (shifts : list shift) (sid : Z) : res shift :=
  match filter (fun s => shift_id s =? sid) shifts with
  | s :: _ => Ok s
  | [] => Raise (KeyError (str sid))
  end.

Definition COA_7_1_exempt : list string := ["602859"].
Definition CAO_7_4_exempt : list string := ["2097"; "602859"].

(** 1) Coverage: each shift has at most one assigned employee. *)
Definition rule1 (df : list assignment) : list violation :=
  flat_map
    (fun g =>
       if 1 <? len (snd g)
       then [MultipleEmployees (fst g) (map employee_id (snd g))]
       else [])
    (groupby Z.leb Z.eqb a_shift_id df).

(** 2) At most one shift per employee per day. *)
Definition rule2 (df : list assignment) : list violation :=
  flat_map
    (fun g =>
       if 1 <? len (snd g)
       then [MultipleShifts (fst (fst g)) (len (snd g)) (snd (fst g))
               (map a_shift_id (snd g))]
       else [])
    (groupby pair_leb pair_eqb
       (fun a => (employee_id a, a_shift_date a)) df).

(** 3) After a night shift, no day or evening shift the next day. *)
Definition rule3 (df : list assignment) : list violation :=
  flat_map
    (fun g =>
       flat_map
         (fun ns =>
            let next_day := a_shift_date ns + 1 in
            let next_day_shifts :=
              filter (fun a => negb (a_is_night a))
                (filter (fun a => a_shift_date a =? next_day) (snd g)) in
            if 0 <? len next_day_shifts
            then [DayAfterNight (fst g) next_day (a_shift_date ns)]
            else [])
         (filter a_is_night (snd g)))
    (by_employee df).

(** 4) Max work days per week. *)
Definition rule4 (workers : list worker) (df : list assignment)
  : res (list violation) :=
  for_each
    (fun g =>
       max_days <- worker_cell workers (fst g) max_days_per_week ;;
       Ok (flat_map
             (fun wg =>
                let worked_days :=
                  nunique Z.eqb (map a_shift_date (snd wg)) in
                if max_days <? worked_days
                then [MaxWorkDays (fst g) (fst wg) worked_days max_days]
                else [])
             (by_week (snd g))))
    (by_employee df).

(** 5) Contract hours on average across all weeks. *)
Definition num_weeks_of (df : list assignment) : Z :=
  nunique Z.eqb (map a_week df).

Definition rule5 (workers : list worker) (df : list assignment)
  : res (list violation) :=
  let num_weeks := num_weeks_of df in
  for_each
    (fun g =>
       cap_minutes <- worker_cell workers (fst g) contract_minutes ;;
       let total_minutes := sum (map a_duration_min (snd g)) in
       let allowed_total := cap_minutes * num_weeks in
       Ok (if allowed_total <? total_minutes
           then [ContractHours (fst g) total_minutes allowed_total
                   num_weeks]
           else []))
    (by_employee df).

(** 6) No shifts overlapping with unavailable times: the inner loop
    over the employee's shifts. *)
Definition same_date (a : assignment) (date_unb : option date) : bool :=
  match date_unb with
  | Some d => a_shift_date a =? d
  | None => false
  end.

Definition check_shift (emp : string) (date_unb : option date)
    (start_unb end_unb : option time) (sr : assignment) : list violation :=
  if negb (same_date sr date_unb) then []
  else
    match start_unb, end_unb with
    | Some su, Some eu =>
        let overlap :=
          negb ((a_end_time sr <=? su) || (eu <=? a_start_time sr)) in
        if overlap
        then [UnavailableTime emp (a_shift_date sr) (a_shift_id sr)
                (a_start_time sr) (a_end_time sr) su eu]
        else []
    | _, _ => [FullyUnavailable emp (a_shift_date sr) (a_shift_id sr)]
    end.

Definition check_record (df : list assignment) (r : onb_record)
  : list violation :=
  flat_map
    (check_shift (Medewerker_id r) (Datum r)
       (Beschikbaarheid_tijd_vanaf r) (Beschikbaarheid_tijd_tm r))
    (filter (of_employee (Medewerker_id r)) df).

Definition rule6_record (workers : list worker) (df : list assignment)
    (r : onb_record) : list violation :=
  if negb (memS (Medewerker_id r) (map medewerker_id workers)) then []
  else if String.eqb (lower (Beschikbaarheid r)) "beschikbaar" then []
  else check_record df r.

Definition rule6 (workers : list worker) (onb : list onb_record)
    (df : list assignment) : list violation :=
  flat_map (rule6_record workers df) onb.

(** The sorted night dates of a group. *)
Definition night_dates_of (group : list assignment) : list date :=
  sort Z.leb (map a_shift_date (filter a_is_night group)).

(** [xs[i:i+n]]. *)
Definition slice {A} (xs : list A) (i n : Z) : list A :=
  firstn (Z.to_nat n) (skipn (Z.to_nat i) xs).

(** 7.1) Max 5 consecutive nights. *)
Definition rule7_1 (df : list assignment) : list violation :=
  flat_map
    (fun g =>
       let dates := night_dates_of (snd g) in
       let max_consec := if memS (fst g) COA_7_1_exempt then 7 else 5 in
       flat_map
         (fun i =>
            let window := slice dates i (max_consec + 1) in
            if last window 0 - hd 0 window =? max_consec
            then [ConsecutiveNights (fst g) max_consec window]
            else [])
         (range 0 (len dates - max_consec)))
    (by_employee df).

(** 7.2) After three or more consecutive nights, the next two days off. *)
Definition rule7_2 (df : list assignment) : list violation :=
  flat_map
    (fun g =>
       let night_dates := night_dates_of (snd g) in
       flat_map
         (fun i =>
            match slice night_dates i 3 with
            | [d0; d1; d2] =>
                if ((d1 =? d0 + 1) && (d2 =? d1 + 1))%bool then
                  let next_day := d2 + 1 in
                  if memZ next_day night_dates then []
                  else
                    let blocked_days := [next_day; next_day + 1] in
                    let next_shifts :=
                      filter (fun a => memZ (a_shift_date a) blocked_days)
                        (snd g) in
                    if 0 <? len next_shifts
                    then [RestAfterNights (fst g)
                            (map a_shift_id next_shifts) d0 d1 d2]
                    else []
                else []
            | _ => []
            end)
         (range 0 (len night_dates - 2)))
    (by_employee df).

(** 7.3) Max 35 nights per 13 weeks. *)
Definition nights_in_window (emp_nights : list assignment) (start_week : Z)
  : list assignment :=
  filter (fun a => ((start_week <=? a_week a)
                    && (a_week a <? start_week + 13))%bool)
         emp_nights.

(** [range(shifts['week'].min(), shifts['week'].max() - 12)]. *)
Definition start_weeks (shifts : list shift) : res (list Z) :=
  match minimum (map week shifts), maximum (map week shifts) with
  | Some lo, Some hi => Ok (range lo (hi - 12))
  | _, _ => Raise (TypeError "'float' object cannot be interpreted as an integer")
  end.

Definition rule7_3 (shifts : list shift) (df : list assignment)
  : res (list violation) :=
  for_each
    (fun g =>
       let emp_nights := filter a_is_night (snd g) in
       weeks <- start_weeks shifts ;;
       Ok (flat_map
             (fun start_week =>
                let window := nights_in_window emp_nights start_week in
                if 35 <? len window
                then [NightsIn13Weeks (fst g) (len window) start_week
                        (start_week + 12)]
                else [])
             weeks))
    (by_employee df).

(** 7.4) Age above 55: no night shifts. *)
Definition rule7_4 (workers : list worker) (df : list assignment)
  : res (list violation) :=
  for_each
    (fun g =>
       if memS (fst g) CAO_7_4_exempt then Ok []
       else
         age <- worker_cell workers (fst g) leeftijd ;;
         Ok (if ((55 <? age) && existsb a_is_night (snd g))%bool
             then [AgeNight (fst g) age
                     (map a_shift_id (filter a_is_night (snd g)))]
             else []))
    (by_employee df).

(** 8) Qualification match. *)
Definition rule8 (shifts : list shift) (workers : list worker)
    (df : list assignment) : res (list violation) :=
  for_each
    (fun row =>
       s <- shifts_lookup shifts (a_shift_id row) ;;
       let required_quals := qualification s in
       emp_quals <- worker_cell workers (employee_id row) deskundigheid ;;
       Ok (if negb (existsb (fun q => memZ q emp_quals) required_quals)
           then [LacksQualification (employee_id row) required_quals
                   (a_shift_id row)]
           else []))
    df.

(** The block detection written out in rules 9.5 and 9.6: maximal runs
    of consecutive dates in a sorted list. *)
Definition blocks_step (st : list (list date) * list date) (d : date)
  : list (list date) * list date :=
  match snd st with
  | [] => (fst st, [d])
  | _ :: _ =>
      if d =? last (snd st) 0 + 1 then (fst st, snd st ++ [d])
      else (fst st ++ [snd st], [d])
  end.

Definition blocks_of (ds : list date) : list (list date) :=
  let st := fold_left blocks_step ds ([], []) in
  match snd st with
  | [] => fst st
  | _ :: _ => fst st ++ [snd st]
  end.

(** 9.5) Marlies: at most 2 days in a row, then 2 days off. *)
Definition rule9_5 (df : list assignment) (emp : string) : list violation :=
  let mine := filter (of_employee emp) df in
  let days := sort Z.leb (map a_shift_date mine) in
  flat_map
    (fun b =>
       (if 2 <? len b then [MarliesInARow b] else [])
       ++ (let next_two_days := [last b 0 + 1; last b 0 + 2] in
           let next_shifts :=
             filter (fun a => memZ (a_shift_date a) next_two_days) mine in
           if 0 <? len next_shifts then [MarliesNoRest b] else []))
    (blocks_of days).

(** 9.6) Teuna: seven nights on, seven off. *)
Definition rule9_6 (df : list assignment) (emp : string) : list violation :=
  let mine := filter (of_employee emp) df in
  let nights := sort Z.leb (map a_shift_date (filter a_is_night mine)) in
  let blocks := blocks_of nights in
  flat_map
    (fun ib =>
       let i := fst ib in
       let b := snd ib in
       (if (negb (memZ i [0; len blocks - 1]) && negb (len b =? 7))%bool
        then [TeunaBlockLength (len b) b] else [])
       ++ (let following :=
             filter (fun d => memZ d (map a_shift_date df))
               (map (fun k => last b 0 + (k + 1)) (range 0 7)) in
           let next_shifts :=
             filter (fun a => memZ (a_shift_date a) following) mine in
           if 0 <? len next_shifts then [TeunaNoRest b] else []))
    (enumerate blocks).

(** 9.7) Maria: at most 3 shifts per week. *)
Definition rule9_7 (df : list assignment) (emp : string) : list violation :=
  flat_map
    (fun wg => if 3 <? len (snd wg)
               then [MariaShifts (len (snd wg)) (fst wg)] else [])
    (by_week (filter (of_employee emp) df)).

(** 9.8) Carolien: at most 3 shifts per week, late or night only. *)
Definition rule9_8 (shifts : list shift) (df : list assignment)
    (emp : string) : res (list violation) :=
  for_each
    (fun wg =>
       late <- for_each
                 (fun shift_row =>
                    s <- shifts_lookup shifts (a_shift_id shift_row) ;;
                    Ok (if (negb (contains "A"%char (shift_name s))
                            && negb (a_is_night shift_row))%bool
                        then [CarolienNonLate (a_shift_id shift_row)
                                (shift_name s)]
                        else []))
                 (snd wg) ;;
       Ok ((if 3 <? len (snd wg)
            then [CarolienShifts (len (snd wg)) (fst wg)] else [])
           ++ late))
    (by_week (filter (of_employee emp) df)).

(** 9) Employee-specific constraints, for one row. *)
Definition rule9_row (shifts : list shift) (df : list assignment)
    (row : assignment) : res (list violation) :=
  let emp := employee_id row in
  let sid := a_shift_id row in
  let date := a_shift_date row in
  s <- shifts_lookup shifts sid ;;
  let dow := day_of_week s in
  let night := is_night s in
  carolien <- (if String.eqb emp "602056" then rule9_8 shifts df emp
               else Ok []) ;;
  Ok ((if (String.eqb emp "2097" && negb night)%bool
       then [HennieNonNight sid date] else [])
      ++ (if (String.eqb emp "2653" && negb (memZ dow [5; 6]))%bool
          then [RomyWeekday sid date] else [])
      ++ (if String.eqb emp "3888" then
            let allowed :=
              (((dow =? 4) && contains "A"%char (a_shift_name row))
               || memZ dow [5; 6])%bool in
            if negb allowed then [JasmijnDisallowed sid date] else []
          else [])
      ++ (if (String.eqb emp "601011" && memZ dow [0; 1; 2])%bool
          then [MaikeDisallowed sid date] else [])
      ++ (if String.eqb emp "603722" then rule9_5 df emp else [])
      ++ (if String.eqb emp "602859" then rule9_6 df emp else [])
      ++ (if String.eqb emp "627311" then rule9_7 df emp else [])
      ++ carolien).

Definition rule9 (shifts : list shift) (df : list assignment)
  : res (list violation) :=
  for_each (rule9_row shifts df) df.

(** The list [errors] as it stands when the last rule has run. *)
Definition collected_errors (data : model) (result : list assignment)
  : res (list violation) :=
  let df := dropna result in
  let e1 := rule1 df in
  let e2 := rule2 df in
  let e3 := rule3 df in
  e4 <- rule4 (workers data) df ;;
  e5 <- rule5 (workers data) df ;;
  let e6 := rule6 (workers data) (onb data) df in
  let e7_1 := rule7_1 df in
  let e7_2 := rule7_2 df in
  e7_3 <- rule7_3 (shifts data) df ;;
  e7_4 <- rule7_4 (workers data) df ;;
  e8 <- rule8 (shifts data) (workers data) df ;;
  e9 <- rule9 (shifts data) df ;;
  Ok (e1 ++ e2 ++ e3 ++ e4 ++ e5 ++ e6 ++ e7_1 ++ e7_2 ++ e7_3 ++ e7_4
      ++ e8 ++ e9).

(** The function body ends after printing [errors]: control falls off
    the end, so the caller receives [None]. *)
Definition validate_auto_rooster (data : model) (result : list assignment)
  : res (value violation) :=
  errors <- collected_errors data result ;;
  Ok PyNone.

End Validate.

(** ** [web/app.py] *)

Module Web.
Import Py Preprocessing Validate.

Inductive response : Type :=
| ValidationFailed (validation_errors : value violation)
| Success
| ServerError (e : exn).

(** Step 3 of [generate_schedule] and what follows it, once the solver
    has produced [result]. *)
Definition generate_schedule (data : model) (result : list assignment)
  : response :=
  match validate_auto_rooster data result with
  | Raise e => ServerError e
  | Ok errors =>
      if truthy errors then ValidationFailed errors else Success
  end.

End Web.

(** ** The helper dictionaries of [preprocess_data] *)

Module Index.
Import Py Calendar Preprocessing.

(** A Python [dict]: its items in insertion order, one item per key. *)
Definition dict (K V : Type) : Type := list (K * V).

(** [d.get(k)]. *)
Fixpoint dict_get {K V} (eqb : K -> K -> bool) (d : dict K V) (k : K)
  : option V :=
  match d with
  | [] => None
  | (k', v) :: d' => if eqb k' k then Some v else dict_get eqb d' k
  end.

(** [d[k] = v]: an existing key keeps its place and takes the new value. *)
Fixpoint dict_set {K V} (eqb : K -> K -> bool) (d : dict K V) (k : K) (v : V)
  : dict K V :=
  match d with
  | [] => [(k, v)]
  | (k', v') :: d' =>
      if eqb k' k then (k', v) :: d' else (k', v') :: dict_set eqb d' k v
  end.

(** A dictionary built item by item ([to_dict()], a dict comprehension). *)
Definition dict_of {K V} (eqb : K -> K -> bool) (items : list (K * V))
  : dict K V :=
  fold_left (fun d kv => dict_set eqb d (fst kv) (snd kv)) items [].

(** [dur_min]. *)
Definition dur_min_of (shifts : list shift) : dict Z Z :=
  dict_of Z.eqb (map (fun s => (shift_id s, duration_min s)) shifts).

(** [shifts_by_week.setdefault(w, []).append(s)]. *)
Definition setdefault_append (d : dict Z (list Z)) (w s : Z)
  : dict Z (list Z) :=
  dict_set Z.eqb d w (fillna [] (dict_get Z.eqb d w) ++ [s]).

(** [shifts_by_week]. *)
Definition shifts_by_week_of (shifts : list shift) : dict Z (list Z) :=
  fold_left (fun d r => setdefault_append d (week r) (shift_id r)) shifts [].

(** [shifts_by_day]. *)
Definition shifts_by_day_of (shifts : list shift) : dict Z (list Z) :=
  dict_of Z.eqb
    (map (fun g => (fst g, map shift_id (snd g)))
         (groupby Z.leb Z.eqb absolute_day shifts)).

(** [weeks]. *)
Definition weeks_of (shifts : list shift) : list Z :=
  sort Z.leb (unique Z.eqb (map week shifts)).

(** [night_shifts]. *)
Definition night_shifts_of (shifts : list shift) : list Z :=
  map shift_id (filter is_night shifts).

(** [night_shifts_by_week]. *)
Definition night_shifts_by_week_of (shifts : list shift) : dict Z (list Z) :=
  dict_of Z.eqb
    (map (fun w =>
            (w, map shift_id
                  (filter (fun s => ((week s =? w) && is_night s)%bool)
                     shifts)))
         (weeks_of shifts)).

(** [emp_index]. *)
Definition emp_index_of (emp_ids : list string) : dict string Z :=
  dict_of String.eqb (map (fun p => (snd p, fst p)) (enumerate emp_ids)).

(** The index entries of the returned dictionary. *)
Record indices := {
  emp_index : dict string Z;
  dur_min : dict Z Z;
  shifts_by_week : dict Z (list Z);
  shifts_by_day : dict Z (list Z);
  weeks : list Z;
  night_shifts : list Z;
  night_shifts_by_week : dict Z (list Z)
}.

Definition build_indices (m : model) : indices :=
  {| emp_index := emp_index_of (emp_ids m);
     dur_min := dur_min_of (shifts m);
     shifts_by_week := shifts_by_week_of (shifts m);
     shifts_by_day := shifts_by_day_of (shifts m);
     weeks := weeks_of (shifts m);
     night_shifts := night_shifts_of (shifts m);
     night_shifts_by_week := night_shifts_by_week_of (shifts m) |}.

End Index.

(** ** The upload helpers of [web/app.py] *)

Module Upload.
Import Py.

Definition ALLOWED_EXT : list string := ["csv"; "xlsx"].

(** [s.rsplit(sep, 1)[1]] for a text that holds the separator: what
    follows its last occurrence. *)
Fixpoint after_last (sep : ascii) (s : string) : string :=
  match s with
  | EmptyString => EmptyString
  | String c s' =>
      if contains sep s' then after_last sep s'
      else if Ascii.eqb c sep then s' else EmptyString
  end.

Definition allowed_file (filename : string) : bool :=
  (contains "."%char filename
   && memS (lower (after_last "."%char filename)) ALLOWED_EXT)%bool.

(** The loop over [required_files]: the first one that was not sent. *)
Definition required_files : list string :=
  ["workers"; "onb"; "prev_assignments"].

Definition missing_file (sent : list string) : option string :=
  match filter (fun rf => negb (memS rf sent)) required_files with
  | rf :: _ => Some rf
  | [] => None
  end.

End Upload.

(** ** Concrete runs *)

Module Scenarios.
Import Py Calendar Preprocessing Validate.

(** Tuesday 2026-11-03; the horizon then starts on Monday 2026-11-09. *)
Definition today : date := 739923.
Definition current_date : ymd := {| year := 2026; month := 11; day := 3 |}.

Definition staff (id : string) (code : Z) (soort : string) (uren : Q)
    (max_days : Z) : raw_worker :=
  {| rw_medewerker_id := id;
     rw_wensen := None;
     rw_deskundigheid := Some code;
     rw_contract_soort := Some soort;
     rw_contracturen := Some uren;
     rw_max_werkdgn_pw := Some max_days;
     rw_geboortedatum := {| year := 1990; month := 5; day := 17 |} |}.

Definition empty_model : model :=
  {| shifts := []; workers := []; onb := []; emp_ids := [];
     prev_assignments := []; shifts_constant := [] |}.

Definition built (r : res model) : model :=
  match r with
  | Ok m => m
  | Raise _ => empty_model
  end.

(** The row the solver emits for shift [s] given to [emp]. *)
Definition assign (emp : string) (s : shift) : assignment :=
  {| a_shift_id := shift_id s;
     a_employee_id := Some emp;
     a_shift_date := shift_date s;
     a_week := week s;
     a_duration_min := duration_min s;
     a_is_night := is_night s;
     a_start_time := start_time s;
     a_end_time := end_time s;
     a_shift_name := shift_name s |}.

Definition unfilled (s : shift) : assignment :=
  {| a_shift_id := shift_id s;
     a_employee_id := None;
     a_shift_date := shift_date s;
     a_week := week s;
     a_duration_min := duration_min s;
     a_is_night := is_night s;
     a_start_time := start_time s;
     a_end_time := end_time s;
     a_shift_name := shift_name s |}.

(** Every shift of the model, filled by [pick] where it names someone. *)
Definition proposal (m : model) (pick : shift -> option string)
  : list assignment :=
  map (fun s => match pick s with
                | Some emp => assign emp s
                | None => unfilled s
                end)
      (shifts m).

Definition named (name : string) (wk dow : Z) (s : shift) : bool :=
  (String.eqb (shift_name s) name && (week s =? wk)
   && (day_of_week s =? dow))%bool.

(** *** One week, two workers, one shift given to both *)

Definition two_workers : list raw_worker :=
  [staff "100" 2 "vast" (32 # 1) 5; staff "200" 2 "vast" (32 # 1) 5].

Definition week_model : model :=
  built (preprocess_data today current_date two_workers [] None None 1).

Definition double_booked : list assignment :=
  map (assign "200") (filter (named "D1" 1 0) (shifts week_model))
  ++ proposal week_model
       (fun s => if named "D1" 1 0 s then Some "100" else None).

(** *** A prior table that ends on a Wednesday *)

Definition wednesday : date := 739924.

Definition prior_wednesday : list raw_prev :=
  [ {| rp_employee_id := "2097.0";
       rp_shift :=
         {| shift_id := 11; shift_name := "N"; shift_date := wednesday;
            week := 4; global_week := 0; day_of_week := 2;
            absolute_day := 23; start_time := hm 22 45;
            end_time := hm 7 0; duration_min := 495;
            qualification := [2]; is_night := true;
            day_key := (4, 2) |} |} ].

Definition after_wednesday : calendar_model :=
  preprocess_calendar today (Some prior_wednesday) 1.

(** *** Thirteen weeks, three nights every week *)

Definition night_worker : list raw_worker :=
  [staff "100" 2 "vast" (32 # 1) 5].

Definition quarter_model : model :=
  built (preprocess_data today current_date night_worker [] None None 13).

Definition three_nights_a_week : list assignment :=
  proposal quarter_model
    (fun s => if (is_night s && (day_of_week s <=? 2))%bool
              then Some "100" else None).

(** *** A fixed kitchen shift against a four-hour contract *)

Definition small_contract : list raw_worker :=
  [staff "100" 3 "vast" (4 # 1) 2].

Definition kitchen_monday : list raw_vast :=
  [ {| v_medewerker_id := "0100"; v_dag := "maandag"; v_dienst := "KOK";
       v_weekvolgnr := 1 |} ].

Definition kitchen_model : model :=
  built (preprocess_data today current_date small_contract []
           None (Some kitchen_monday) 4).

(** *** A 500-minute weekly cap over four weeks *)

Definition capped_worker : list raw_worker :=
  [staff "100" 23 "vast" (25 # 3) 5].

Definition month_model : model :=
  built (preprocess_data today current_date capped_worker [] None None 4).

(** Five A2 shifts of 420 minutes: two in week 1, one in each later
    week. *)
Definition five_late_shifts : list assignment :=
  proposal month_model
    (fun s => if (named "A2" 1 0 s || named "A2" 1 3 s || named "A2" 2 0 s
                  || named "A2" 3 0 s || named "A2" 4 0 s)%bool
              then Some "100" else None).

(** Two D1 shifts of 480 minutes, both in week 1; nothing else filled. *)
Definition two_early_shifts : list assignment :=
  proposal month_model
    (fun s => if (named "D1" 1 0 s || named "D1" 1 1 s)%bool
              then Some "100" else None).

(** *** Unavailability on the first Monday *)

Definition monday : date := 739929.



(** Worker 100 takes D1 (07:00 to 15:00) on that Monday. *)
Definition monday_early (m : model) : list assignment :=
  proposal m (fun s => if named "D1" 1 0 s then Some "100" else None).

(** *** Raw rows that exercise the worker normalizer *)

Definition mixed_workers : list raw_worker :=
  [staff "007" 7 "vast" (24 # 1) 4;
   staff "0123-a" 35 "vast" (24 # 1) 4;
   staff "300" 12 "oproep" (20 # 1) 3;
   staff "400" 2 "vast" (0 # 1) 2].

Definition mixed_model : model :=
  built (preprocess_data today current_date mixed_workers [] None None 1).

(** The first and the on-call worker of that model, as returned. *)
Definition worker_7 : worker :=
  {| medewerker_id := "7"; deskundigheid := [7; 3];
     max_days_per_week := 4; contract_hours := 24 # 1;
     contract_minutes := 1440; leeftijd := 36 |}.




End Scenarios.



(** ** Notions used to state the properties *)

Module Statements.
Import Py Calendar Preprocessing Validate.

(** The dated records of a run, each with its [global_week]: prior
    rows first, then the horizon. *)
Definition dated_records (cm : calendar_model) : list (date * Z) :=
  map (fun p => (shift_date (pa_shift p), global_week (pa_shift p)))
      (cm_prev_assignments cm)
  ++ map (fun s => (shift_date s, global_week s)) (cm_shifts cm).

(** The week of a date, counted from the epoch Monday. *)
Definition epoch_week (global_start_date d : date) : Z :=
  (d - global_start_date) / 7.

(** The number of weeks of the horizon. *)
Definition horizon_weeks (m : model) : Z :=
  nunique Z.eqb (map week (shifts m)).

(** All minutes assigned to [emp]. *)
Definition minutes_of (emp : string) (df : list assignment) : Z :=
  sum (map a_duration_min (filter (of_employee emp) df)).

Definition is_contract_hours (emp : string) (v : violation) : bool :=
  match v with
  | ContractHours e _ _ _ => String.eqb e emp
  | _ => false
  end.

(** How many contract-hours violations name [emp]. *)
Definition count_contract_hours (emp : string) (errs : list violation)
  : nat :=
  List.length (filter (is_contract_hours emp) errs).



(** What the fixed roster takes off the contract minutes of [emp]. *)
Definition fixed_minutes (shifts_constant : list shift)
    (consts : list const_unavail) (emp : string) : Z :=
  if memS emp (map cu_medewerker_id consts)
  then hours_to_subtract shifts_constant consts emp
  else 0.

(** The rows of [df_const_unavail] of a run. *)
Definition consts_of (today : date) (prev : option (list raw_prev))
    (df_vastrooster : option (list raw_vast)) (num_weeks : Z)
  : list const_unavail :=
  let cal := preprocess_calendar today prev num_weeks in
  map (const_unavail_of (cm_start_date cal) (cm_shifts_constant cal))
      (vast_supplied df_vastrooster).


Definition flags_contract_hours (emp : string) (errs : list violation)
  : Prop :=
  exists total allowed num_weeks,
    In (ContractHours emp total allowed num_weeks) errs.

(** The statement that the contract cap is scaled by the length of
    the horizon. *)
Definition contract_rule_per_horizon : Prop :=
  forall data result errs emp cap,
    collected_errors data result = Ok errs ->
    In emp (map employee_id (dropna result)) ->
    worker_cell (workers data) emp contract_minutes = Ok cap ->
    (flags_contract_hours emp errs <->
     cap * horizon_weeks data < minutes_of emp (dropna result)).

(** The half-open overlap test between a shift from [s] to [e] and an
    unavailable interval from [su] to [eu]. *)
Definition half_open_overlap (s e su eu : time) : bool :=
  ((su <? e) && (s <? eu))%bool.



(** The record blocks the shift: a full day blocks every shift, a time
    window blocks the shifts it overlaps. *)
Definition blocks (r : onb_record) (sr : assignment) : bool :=
  match Beschikbaarheid_tijd_vanaf r, Beschikbaarheid_tijd_tm r with
  | Some su, Some eu =>
      half_open_overlap (a_start_time sr) (a_end_time sr) su eu
  | _, _ => true
  end.




End Statements.



(** ** Further notions and runs used to state properties *)

Module Coverage.
Import Py Calendar Preprocessing Validate Index Upload.

(** The dated records of a returned model, each with its [global_week]:
    prior rows first, then the horizon. *)
Definition model_dated_records (m : model) : list (date * Z) :=
  map (fun p => (shift_date (pa_shift p), global_week (pa_shift p)))
      (prev_assignments m)
  ++ map (fun s => (shift_date s, global_week s)) (shifts m).

(** A one-week run after a prior table that ends on a Wednesday. *)
Definition prior_model : model :=
  Scenarios.built
    (preprocess_data Scenarios.today Scenarios.current_date
       Scenarios.two_workers [] (Some Scenarios.prior_wednesday) None 1).

(** The first shift of the one-week model, as returned. *)
Definition first_shift : shift :=
  {| shift_id := 0; shift_name := "D1"; shift_date := 739929; week := 1;
     global_week := 1; day_of_week := 0; absolute_day := 0;
     start_time := hm 7 0; end_time := hm 15 0; duration_min := 480;
     qualification := [1; 2]; is_night := false; day_key := (1, 0) |}.

(** The Monday day shift of a week's template. *)
Definition monday_day_shift : requirement :=
  {| r_shift_name := "D1"; r_day_of_week := 0; r_start_time := hm 7 0;
     r_end_time := hm 15 0; r_qualification := [1; 2];
     r_duration := 8 # 1 |}.



(** The first character of a text is the digit 0. *)
Definition leading_zero (s : string) : bool :=
  match String.get 0 s with
  | Some c => Ascii.eqb c "0"%char
  | None => false
  end.

(** Month and day of the first date are not after those of the second. *)
Definition not_after_in_year (x y : ymd) : Prop :=
  month x < month y \/ (month x = month y /\ day x <= day y).

(** The birth date moved on by [k] years is not after the given date. *)
Definition has_turned (k : Z) (birth current_date : ymd) : Prop :=
  year birth + k < year current_date
  \/ (year birth + k = year current_date
      /\ not_after_in_year birth current_date).

(** A raw row born on 17 May 1990 and the day of the run. *)
Definition born_1990 : ymd := {| year := 1990; month := 5; day := 17 |}.

(** The kitchen roster with its Monday row repeated for week 2. *)
Definition kitchen_monday_again : raw_vast :=
  {| v_medewerker_id := "100"; v_dag := "maandag"; v_dienst := "KOK";
     v_weekvolgnr := 2 |}.

Definition kitchen_model_again : model :=
  Scenarios.built
    (preprocess_data Scenarios.today Scenarios.current_date
       Scenarios.small_contract [] None
       (Some (Scenarios.kitchen_monday ++ [kitchen_monday_again])) 4).

(** An unavailability row whose worker id keeps a leading zero. *)
Definition zero_padded_record : onb_record :=
  {| Medewerker_id := "0100"; Datum := Some Scenarios.monday;
     Beschikbaarheid := "Niet beschikbaar";
     Beschikbaarheid_tijd_vanaf := None;
     Beschikbaarheid_tijd_tm := None |}.

(** The shift ids that the roster rows of [emp] resolve to. *)
Definition shift_ids_of (consts : list const_unavail) (emp : string)
  : list Z :=
  flat_map (fun c => match cu_shift_id c with
                     | Some i => [i]
                     | None => []
                     end)
    (filter (fun c => String.eqb (cu_medewerker_id c) emp) consts).

(** [shifts_lookup.index.is_unique]: no two shifts share an id, so that
    [shifts_lookup.loc[sid]] is one row. *)
Definition is_unique (shifts : list shift) : bool :=
  len (unique Z.eqb (map shift_id shifts)) =? len shifts.

(** Every filled row names a worker of the table and a shift of the
    horizon. *)
Definition resolves (data : model) (result : list assignment) : Prop :=
  forall a, In a (dropna result) ->
    memS (employee_id a) (map medewerker_id (workers data)) = true
    /\ memZ (a_shift_id a) (map shift_id (shifts data)) = true.

(** The one-week proposal with one more row, for a worker nobody knows. *)
Definition stranger_row : list assignment :=
  map (Scenarios.assign "999")
      (filter (Scenarios.named "D2" 1 0) (shifts Scenarios.week_model))
  ++ Scenarios.monday_early Scenarios.week_model.

(** The shift a coverage violation is about. *)
Definition violation_shift (v : violation) : Z :=
  match v with
  | MultipleEmployees sid _ => sid
  | _ => 0
  end.

(** The employees that rule 9 has a constraint for. *)
Definition custom_employees : list string :=
  ["2097"; "2653"; "3888"; "601011"; "603722"; "602859"; "627311";
   "602056"].

(** A night on the first Monday followed by a day shift on the Tuesday. *)
Definition night_then_day : list assignment :=
  Scenarios.proposal Scenarios.week_model
    (fun s => if (Scenarios.named "N" 1 0 s || Scenarios.named "D1" 1 1 s)%bool
              then Some "100" else None).

(** Worker 100, who holds qualification 2 only, on the D3 shift of the
    first Monday, which asks for qualification 3. *)
Definition unqualified_day : list assignment :=
  Scenarios.proposal Scenarios.week_model
    (fun s => if Scenarios.named "D3" 1 0 s then Some "100" else None).

(** Each date of the list is the day after the one before it. *)
Fixpoint consecutive (b : list date) : Prop :=
  match b with
  | x :: ((y :: _) as rest) => y = x + 1 /\ consecutive rest
  | _ => True
  end.

(** No block starts on the day after the block before it ends. *)
Fixpoint separated (blocks : list (list date)) : Prop :=
  match blocks with
  | b1 :: ((b2 :: _) as rest) => hd 0 b2 <> last b1 0 + 1 /\ separated rest
  | _ => True
  end.

(** The blocks of a state of the block loop, the open block included. *)
Definition close_blocks (st : list (list date) * list date)
  : list (list date) :=
  match snd st with
  | [] => fst st
  | _ :: _ => fst st ++ [snd st]
  end.

(** The cap of rule 7.1 for an employee. *)
Definition night_cap (emp : string) : Z :=
  if memS emp COA_7_1_exempt then 7 else 5.

(** The dates [d], [d + 1], ... of a run of [k] nights. *)
Definition run_of_nights (d : date) (k : Z) : list date :=
  map (fun i => d + i) (range 0 k).

(** Worker 100 on the night shift of all seven days of the week. *)
Definition week_of_nights : list assignment :=
  Scenarios.proposal Scenarios.week_model
    (fun s => if is_night s then Some "100" else None).

End Coverage.









(** ** Facts about the primitives *)

Module PyFacts.
Import Py.

Section Membership.
Context {A : Type} (eqb : A -> A -> bool).
Hypothesis eqb_spec : forall a b, eqb a b = true <-> a = b.

Lemma eqb_refl_of a : eqb a a = true.
Proof. now apply eqb_spec. Qed.

Lemma in_unique x xs : In x (unique eqb xs) <-> In x xs.
Proof.
  induction xs as [|y ys IH]; simpl; [tauto|].
  rewrite filter_In, IH. split.
  - intros [->|[H _]]; auto.
  - intros [->|H]; auto.
    destruct (eqb y x) eqn:E.
    + left. now apply eqb_spec.
    + right. split; auto.
Qed.

Lemma nodup_unique xs : NoDup (unique eqb xs).
Proof.
  induction xs as [|y ys IH]; simpl; constructor.
  - rewrite filter_In. intros [_ H]. now rewrite eqb_refl_of in H.
  - now apply NoDup_filter.
Qed.
End Membership.

Section Sorting.
Context {A : Type} (leb : A -> A -> bool).

Lemma in_insert x y xs : In x (insert leb y xs) <-> x = y \/ In x xs.
Proof.
  induction xs as [|z zs IH]; simpl.
  - intuition.
  - destruct (leb y z); simpl; rewrite ?IH; intuition.
Qed.

Lemma in_sort x xs : In x (sort leb xs) <-> In x xs.
Proof.
  unfold sort. induction xs as [|y ys IH]; simpl; [tauto|].
  rewrite in_insert, IH. intuition.
Qed.

Lemma nodup_insert y xs : ~ In y xs -> NoDup xs -> NoDup (insert leb y xs).
Proof.
  induction xs as [|z zs IH]; simpl; intros Hy Hxs.
  - constructor; auto.
  - destruct (leb y z).
    + constructor; simpl; auto.
    + inversion Hxs; subst. constructor.
      * rewrite in_insert. intuition.
      * apply IH; auto.
Qed.

Lemma nodup_sort xs : NoDup xs -> NoDup (sort leb xs).
Proof.
  unfold sort. induction 1 as [|y ys Hy Hys IH]; simpl; [constructor|].
  apply nodup_insert; auto. fold (sort leb ys). now rewrite in_sort.
Qed.
End Sorting.

Section Groups.
Context {R K : Type} (leb eqb : K -> K -> bool) (key : R -> K).
Hypothesis eqb_spec : forall a b, eqb a b = true <-> a = b.

(** A group is a key of the frame with all rows of that key. *)
Lemma in_groupby g rows :
  In g (groupby leb eqb key rows) <->
  (exists r, In r rows /\ key r = fst g)
  /\ snd g = filter (fun r => eqb (key r) (fst g)) rows.
Proof.
  unfold groupby. rewrite in_map_iff. split.
  - intros (k & <- & Hk). simpl.
    rewrite in_sort, (in_unique eqb eqb_spec), in_map_iff in Hk.
    destruct Hk as (r & <- & Hr). split; eauto.
  - intros [(r & Hr & Hk) Hs]. exists (fst g). split.
    + destruct g; simpl in *; now subst.
    + rewrite in_sort, (in_unique eqb eqb_spec), in_map_iff. eauto.
Qed.

Lemma groupby_keys_nodup rows :
  NoDup (map fst (groupby leb eqb key rows)).
Proof.
  unfold groupby. rewrite map_map. simpl. rewrite map_id.
  apply nodup_sort, (nodup_unique eqb eqb_spec).
Qed.
End Groups.

Lemma filter_none {A} (f : A -> bool) xs :
  (forall x, In x xs -> f x = false) -> filter f xs = [].
Proof.
  induction xs as [|x xs IH]; simpl; intros H; [reflexivity|].
  rewrite (H x (or_introl eq_refl)). apply IH. intros y Hy. apply H. now right.
Qed.

(** [nunique] counts the distinct values, whatever their order and
    multiplicity. *)
Lemma nunique_same_values (xs ys : list Z) :
  (forall x, In x xs <-> In x ys) ->
  nunique Z.eqb xs = nunique Z.eqb ys.
Proof.
  intros H. unfold nunique, len. f_equal. apply Permutation_length.
  apply NoDup_Permutation; try (apply nodup_unique, Z.eqb_eq).
  intros x. rewrite !(in_unique Z.eqb Z.eqb_eq). apply H.
Qed.

Lemma memZ_true x xs : memZ x xs = true <-> In x xs.
Proof.
  unfold memZ. rewrite existsb_exists. split.
  - intros (y & Hy & E). apply Z.eqb_eq in E. now subst.
  - intros H. exists x. split; auto. apply Z.eqb_refl.
Qed.

Lemma memS_true x xs : memS x xs = true <-> In x xs.
Proof.
  unfold memS. rewrite existsb_exists. split.
  - intros (y & Hy & E). apply String.eqb_eq in E. now subst.
  - intros H. exists x. split; auto. apply String.eqb_refl.
Qed.

(** What a completed loop returned, body by body. *)
Lemma for_each_ok {A B} (body : A -> res (list B)) xs out :
  for_each body xs = Ok out ->
  exists outs,
    Forall2 (fun x o => body x = Ok o) xs outs /\ out = List.concat outs.
Proof.
  revert out. induction xs as [|x xs IH]; simpl; intros out H.
  - inversion H. exists []. split; [constructor | reflexivity].
  - destruct (body x) as [here|] eqn:Hx; simpl in H; [|discriminate].
    destruct (for_each body xs) as [rest|]; simpl in H; [|discriminate].
    inversion H; subst. destruct (IH rest eq_refl) as (outs & HF & ->).
    exists (here :: outs). split; [constructor; auto | reflexivity].
Qed.

Lemma for_each_ok_in {A B} (body : A -> res (list B)) xs out x :
  for_each body xs = Ok out -> In x xs ->
  exists o, body x = Ok o /\ incl o out.
Proof.
  revert out. induction xs as [|y ys IH]; simpl; intros out H Hin; [easy|].
  destruct (body y) as [here|] eqn:Hy; simpl in H; [|discriminate].
  destruct (for_each body ys) as [rest|]; simpl in H; [|discriminate].
  inversion H; subst. destruct Hin as [->|Hin].
  - exists here. split; auto. apply incl_appl, incl_refl.
  - destruct (IH rest eq_refl Hin) as (o & Ho & Hincl).
    exists o. split; auto. now apply incl_appr.
Qed.

Lemma for_each_in_out {A B} (body : A -> res (list B)) xs out v :
  for_each body xs = Ok out -> In v out ->
  exists x o, In x xs /\ body x = Ok o /\ In v o.
Proof.
  revert out. induction xs as [|y ys IH]; simpl; intros out H Hin.
  - inversion H; subst. destruct Hin.
  - destruct (body y) as [here|] eqn:Hy; simpl in H; [|discriminate].
    destruct (for_each body ys) as [rest|]; simpl in H; [|discriminate].
    inversion H; subst. apply in_app_or in Hin. destruct Hin as [Hin|Hin].
    + exists y, here. auto.
    + destruct (IH rest eq_refl Hin) as (x & o & ? & ? & ?).
      exists x, o. auto.
Qed.

Lemma in_range i a b : In i (range a b) <-> a <= i < b.
Proof.
  unfold range. rewrite in_map_iff. split.
  - intros (n & <- & Hn). apply in_seq in Hn. lia.
  - intros H. exists (Z.to_nat (i - a)). split; [lia|].
    apply in_seq. lia.
Qed.

Lemma range_nil a b : b <= a -> range a b = [].
Proof.
  intros H. unfold range. replace (Z.to_nat (b - a)) with 0%nat by lia.
  reflexivity.
Qed.

Lemma in_with_index {A} (set : Z -> A -> A) xs y :
  In y (with_index set xs) -> exists i x, In x xs /\ y = set i x.
Proof.
  unfold with_index, enumerate. rewrite in_map_iff.
  intros ([i x] & <- & Hin). apply in_combine_r in Hin. eauto.
Qed.

Lemma fold_max_upper y ys :
  y <= fold_right Z.max y ys
  /\ forall x, In x ys -> x <= fold_right Z.max y ys.
Proof.
  induction ys as [|z zs [IH1 IH2]]; simpl.
  - split; [lia | tauto].
  - split; [lia|]. intros x [->|Hin]; [lia|]. specialize (IH2 x Hin). lia.
Qed.

Lemma fold_min_lower y ys :
  fold_right Z.min y ys <= y
  /\ forall x, In x ys -> fold_right Z.min y ys <= x.
Proof.
  induction ys as [|z zs [IH1 IH2]]; simpl.
  - split; [lia | tauto].
  - split; [lia|]. intros x [->|Hin]; [lia|]. specialize (IH2 x Hin). lia.
Qed.

Lemma maximum_upper xs m x : maximum xs = Some m -> In x xs -> x <= m.
Proof.
  destruct xs as [|y ys]; simpl; [discriminate|].
  intros H. inversion H; subst; clear H.
  destruct (fold_max_upper y ys) as [H1 H2]. intros [->|Hin]; auto.
Qed.

Lemma minimum_lower xs m x : minimum xs = Some m -> In x xs -> m <= x.
Proof.
  destruct xs as [|y ys]; simpl; [discriminate|].
  intros H. inversion H; subst; clear H.
  destruct (fold_min_lower y ys) as [H1 H2]. intros [->|Hin]; auto.
Qed.

Lemma maximum_none xs : maximum xs = None -> xs = [].
Proof. destruct xs; simpl; [reflexivity | discriminate]. Qed.

Lemma minimum_none xs : minimum xs = None -> xs = [].
Proof. destruct xs; simpl; [reflexivity | discriminate]. Qed.



End PyFacts.

(** ** Facts about the calendar expander and the look-back *)

Module CalendarFacts.
Import Py Calendar Preprocessing Statements PyFacts.

Lemma requirement_weekday row :
  In row shift_requirements -> 0 <= r_day_of_week row <= 6.
Proof.
  assert (H : forallb (fun r => ((0 <=? r_day_of_week r)
                                 && (r_day_of_week r <=? 6))%bool)
                shift_requirements = true) by (vm_compute; reflexivity).
  rewrite forallb_forall in H. intros Hin. specialize (H row Hin).
  apply andb_prop in H. destruct H as [H1 H2]. lia.
Qed.

(** Where and when an expanded shift instance lies. *)
Lemma in_all_shift_instances sd gsd n s :
  In s (all_shift_instances sd gsd n) ->
  exists wk off,
    0 <= wk < n /\ 0 <= off <= 6
    /\ shift_date s = sd + (wk * 7 + off)
    /\ week s = wk + 1
    /\ global_week s = (shift_date s - gsd) / 7 + 1.
Proof.
  unfold all_shift_instances. intros H.
  apply in_with_index in H. destruct H as (i & x & Hx & ->).
  apply in_flat_map in Hx. destruct Hx as (wk & Hwk & Hx).
  apply in_map_iff in Hx. destruct Hx as (row & <- & Hrow).
  apply in_range in Hwk. exists wk, (r_day_of_week row). simpl.
  pose proof (requirement_weekday row Hrow). repeat split; lia.
Qed.

Lemma in_shifts_of all s :
  In s (shifts_of all) ->
  exists i x, In x all /\ s = set_shift_id i x.
Proof.
  unfold shifts_of. intros H. apply in_with_index in H.
  destruct H as (i & x & Hx & ->). apply filter_In in Hx. exists i, x. tauto.
Qed.

Lemma in_cm_shifts today prev n s :
  In s (cm_shifts (preprocess_calendar today prev n)) ->
  exists wk off,
    0 <= wk < n /\ 0 <= off <= 6
    /\ shift_date s = start_date_of today prev + (wk * 7 + off)
    /\ week s = wk + 1
    /\ global_week s
       = (shift_date s - global_start_date_of today prev) / 7 + 1.
Proof.
  unfold preprocess_calendar. cbn [cm_shifts].
  intros H. apply in_shifts_of in H. destruct H as (i & x & Hx & ->).
  apply in_all_shift_instances in Hx. exact Hx.
Qed.

(** No shift of the horizon is dated before the horizon starts. *)
Lemma horizon_not_before_start today prev n s :
  In s (cm_shifts (preprocess_calendar today prev n)) ->
  start_date_of today prev <= shift_date s.
Proof.
  intros H. apply in_cm_shifts in H.
  destruct H as (wk & off & ? & ? & -> & _). lia.
Qed.

(** Without a prior table the look-back is empty, whatever the day of
    the run and the length of the horizon: the copied rows keep their
    horizon dates, and none of those precedes [start_date]. *)
Lemma synthesized_lookback_empty today prev n :
  prev_supplied prev = [] ->
  cm_prev_assignments (preprocess_calendar today prev n) = [].
Proof.
  intros Hprev. unfold preprocess_calendar at 1.
  cbn [cm_prev_assignments]. unfold prev_assignments_of. rewrite Hprev. unfold synthesized_prev.
  rewrite (filter_none (fun s => shift_date s <? start_date_of today prev)).
  - reflexivity.
  - intros s Hs.
    pose proof (horizon_not_before_start today prev n s Hs) as Hle.
    apply Z.ltb_ge. exact Hle.
Qed.

(** The rows of a supplied prior table. *)
Lemma in_real_prev today prev n p :
  prev_supplied prev <> [] ->
  In p (cm_prev_assignments (preprocess_calendar today prev n)) ->
  exists r,
    In r (prev_supplied prev)
    /\ shift_date (pa_shift p) = shift_date (rp_shift r)
    /\ global_week (pa_shift p)
       = (shift_date (pa_shift p) - global_start_date_of today prev) / 7.
Proof.
  intros Hne. unfold preprocess_calendar.
  cbn [cm_prev_assignments]. unfold prev_assignments_of.
  destruct (prev_supplied prev) as [|r0 rows] eqn:E; [congruence|].
  unfold real_prev. rewrite in_map_iff. intros (r & <- & Hr).
  exists r. cbn [pa_shift set_global_week shift_date global_week]. auto.
Qed.

Lemma prior_before_start today prev r :
  In r (prev_supplied prev) ->
  shift_date (rp_shift r) < start_date_of today prev.
Proof.
  intros Hr. unfold start_date_of.
  destruct (maximum (prev_dates (prev_supplied prev))) as [m|] eqn:E.
  - assert (shift_date (rp_shift r) <= m).
    { apply (maximum_upper _ _ _ E). unfold prev_dates.
      apply in_map_iff. eauto. }
    lia.
  - apply maximum_none in E. unfold prev_dates in E.
    apply map_eq_nil in E. rewrite E in Hr. destruct Hr.
Qed.

(** [global_week] never decreases with the calendar date, across prior
    rows and horizon rows alike. *)
Lemma global_week_monotone today prev n a b :
  In a (dated_records (preprocess_calendar today prev n)) ->
  In b (dated_records (preprocess_calendar today prev n)) ->
  fst a <= fst b -> snd a <= snd b.
Proof.
  unfold dated_records. rewrite !in_app_iff, !in_map_iff.
  destruct (prev_supplied prev) as [|r0 rows] eqn:E.
  - rewrite (synthesized_lookback_empty today prev n E).
    intros [(? & _ & [])|(s1 & <- & H1)] [(? & _ & [])|(s2 & <- & H2)].
    cbn [fst snd]. intros Hle.
    apply in_cm_shifts in H1. destruct H1 as (_ & _ & _ & _ & _ & _ & ->).
    apply in_cm_shifts in H2. destruct H2 as (_ & _ & _ & _ & _ & _ & ->).
    apply Z.add_le_mono_r, Z.div_le_mono; lia.
  - assert (Hne : prev_supplied prev <> []) by (rewrite E; discriminate).
    intros [(p1 & <- & H1)|(s1 & <- & H1)] [(p2 & <- & H2)|(s2 & <- & H2)];
      cbn [fst snd]; intros Hle.
    + apply (in_real_prev _ _ _ _ Hne) in H1. destruct H1 as (_ & _ & _ & ->).
      apply (in_real_prev _ _ _ _ Hne) in H2. destruct H2 as (_ & _ & _ & ->).
      apply Z.div_le_mono; lia.
    + apply (in_real_prev _ _ _ _ Hne) in H1. destruct H1 as (_ & _ & _ & ->).
      apply in_cm_shifts in H2. destruct H2 as (_ & _ & _ & _ & _ & _ & ->).
      assert ((shift_date (pa_shift p1) - global_start_date_of today prev) / 7
              <= (shift_date s2 - global_start_date_of today prev) / 7)
        by (apply Z.div_le_mono; lia).
      lia.
    + apply (in_real_prev _ _ _ _ Hne) in H2.
      destruct H2 as (r & Hr & Hd & _).
      pose proof (prior_before_start today prev r Hr).
      pose proof (horizon_not_before_start today prev n s1 H1). lia.
    + apply in_cm_shifts in H1. destruct H1 as (_ & _ & _ & _ & _ & _ & ->).
      apply in_cm_shifts in H2. destruct H2 as (_ & _ & _ & _ & _ & _ & ->).
      apply Z.add_le_mono_r, Z.div_le_mono; lia.
Qed.

(** A prior row and a horizon row that fall in the same week counted
    from the epoch Monday get indices one apart. *)
Lemma global_week_boundary_offset today prev n p s :
  prev_supplied prev <> [] ->
  In p (cm_prev_assignments (preprocess_calendar today prev n)) ->
  In s (cm_shifts (preprocess_calendar today prev n)) ->
  (shift_date (pa_shift p) - global_start_date_of today prev) / 7
  = (shift_date s - global_start_date_of today prev) / 7 ->
  global_week s = global_week (pa_shift p) + 1.
Proof.
  intros Hne Hp Hs Hweek.
  apply (in_real_prev _ _ _ _ Hne) in Hp. destruct Hp as (_ & _ & _ & ->).
  apply in_cm_shifts in Hs. destruct Hs as (_ & _ & _ & _ & _ & _ & ->).
  lia.
Qed.

(** C2.  A run without prior assignments is to return a non-empty
    four-week look-back dated just before the horizon.  On Tuesday
    2026-11-03, with no prior table and a four-week horizon, the model
    is built, it has 268 assignable shifts starting on Monday
    2026-11-09, and the returned [prev_assignments] has no row at all. *)
Theorem lookback_without_history_has_no_rows :
  preprocess_data Scenarios.today Scenarios.current_date
    Scenarios.capped_worker [] None None 4 = Ok Scenarios.month_model
  /\ len (shifts Scenarios.month_model) = 268
  /\ minimum (map shift_date (shifts Scenarios.month_model)) = Some 739929
  /\ prev_assignments Scenarios.month_model = [].
Proof. vm_compute. repeat split; reflexivity. Qed.

(** C3.  Records of one epoch-anchored week are to share one
    [global_week] across the boundary between prior rows and horizon.
    A prior table ending on Wednesday 2026-11-04 makes the horizon
    start on the Thursday of the same week: the Wednesday row has
    [global_week] 0, the Thursday shift has [global_week] 1. *)
Theorem global_week_splits_the_boundary_week :
  global_start_date_of Scenarios.today (Some Scenarios.prior_wednesday)
  = 739922
  /\ In (Scenarios.wednesday, 0) (dated_records Scenarios.after_wednesday)
  /\ In (Scenarios.wednesday + 1, 1)
        (dated_records Scenarios.after_wednesday)
  /\ epoch_week 739922 Scenarios.wednesday
     = epoch_week 739922 (Scenarios.wednesday + 1).
Proof.
  split; [vm_compute; reflexivity|].
  split; [vm_compute; left; reflexivity|].
  split; [vm_compute; right; left; reflexivity|].
  vm_compute; reflexivity.
Qed.

End CalendarFacts.

(** ** Facts about the worker normalizer and the fixed roster *)

Module WorkerFacts.
Import Py Calendar Preprocessing Statements PyFacts.

(** Every normalized worker comes from a planned raw row whose
    unpacked codes passed the exclusion filter. *)
Lemma in_normalize_workers current_date df ws w :
  normalize_workers current_date df = Ok ws -> In w ws ->
  exists r quals,
    In r df /\ planned r = true
    /\ unpack (rw_deskundigheid r) = Ok quals
    /\ excluded quals = false
    /\ w = worker_of current_date r quals.
Proof.
  unfold normalize_workers. intros H Hw.
  destruct (for_each _ _) as [rows|] eqn:Hrows; simpl in H; [|discriminate].
  inversion H; subst; clear H.
  apply in_map_iff in Hw. destruct Hw as ([r quals] & <- & Hp).
  apply filter_In in Hp. destruct Hp as [Hp Hex]. simpl in *.
  destruct (for_each_in_out _ _ _ _ Hrows Hp) as (x & o & Hx & Ho & Hin).
  apply filter_In in Hx. destruct Hx as [Hx Hplanned].
  destruct (unpack (rw_deskundigheid x)) as [q|] eqn:Hq; simpl in Ho;
    [|discriminate].
  inversion Ho; subst; clear Ho. destruct Hin as [Heq|[]].
  inversion Heq; subst. exists r, quals. repeat split; auto.
  now apply negb_true_iff.
Qed.

Lemma set_contract_minutes_same w :
  set_contract_minutes (contract_minutes w - 0) w = w.
Proof. destruct w. unfold set_contract_minutes. simpl. f_equal. lia. Qed.

Lemma memS_unique x xs : memS x (unique String.eqb xs) = memS x xs.
Proof.
  apply eq_true_iff_eq. rewrite !memS_true.
  apply in_unique. apply String.eqb_eq.
Qed.

Section FixedRoster.
Variable shifts_constant : list shift.
Variable consts : list const_unavail.

Let taken (emps : list string) (w : worker) : worker :=
  set_contract_minutes
    (contract_minutes w
     - (if memS (medewerker_id w) emps
        then hours_to_subtract shifts_constant consts (medewerker_id w)
        else 0))
    w.

(** One pass per distinct roster employee: each worker loses the
    minutes of that employee once, and nothing else changes. *)
Lemma fold_subtract_for emps workers :
  NoDup emps ->
  fold_left (subtract_for shifts_constant consts) emps workers
  = map (taken emps) workers.
Proof.
  intros Hnd. revert workers.
  induction Hnd as [|e emps He Hnd IH]; intros workers; simpl.
  - unfold taken. simpl. rewrite <- (map_id workers) at 1.
    apply map_ext. intros w. now rewrite set_contract_minutes_same.
  - rewrite IH. unfold subtract_for. rewrite map_map.
    apply map_ext. intros [id quals days hours minutes age].
    unfold taken, set_contract_minutes, memS. simpl.
    destruct (String.eqb_spec id e) as [->|Hne]; simpl.
    + assert (Hm : existsb (String.eqb e) emps = false).
      { destruct (existsb (String.eqb e) emps) eqn:E; auto.
        apply (memS_true e emps) in E. contradiction. }
      rewrite Hm. f_equal. lia.
    + reflexivity.
Qed.

Lemma subtract_constant_spec workers :
  subtract_constant shifts_constant consts workers
  = map (fun w =>
           set_contract_minutes
             (contract_minutes w
              - fixed_minutes shifts_constant consts (medewerker_id w))
             w)
        workers.
Proof.
  unfold subtract_constant. rewrite fold_subtract_for.
  - apply map_ext. intros w. unfold taken, fixed_minutes.
    now rewrite memS_unique.
  - apply nodup_unique. apply String.eqb_eq.
Qed.
End FixedRoster.

(** The workers of the returned model. *)
Lemma in_model_workers today current_date df_werknemers df_onb prev
    df_vastrooster num_weeks data w :
  preprocess_data today current_date df_werknemers df_onb prev
    df_vastrooster num_weeks = Ok data ->
  In w (workers data) ->
  exists r quals,
    In r df_werknemers /\ planned r = true
    /\ unpack (rw_deskundigheid r) = Ok quals
    /\ excluded quals = false
    /\ w = set_contract_minutes
             (contract_minutes_of r
              - fixed_minutes (shifts_constant data)
                  (consts_of today prev df_vastrooster num_weeks)
                  (clean_id (rw_medewerker_id r)))
             (worker_of current_date r quals).
Proof.
  unfold preprocess_data. intros H Hw.
  destruct (num_weeks <=? 0); [discriminate|].
  destruct (normalize_workers current_date df_werknemers) as [ws|] eqn:Hn;
    simpl in H; [|discriminate].
  inversion H; subst; clear H. simpl in *.
  rewrite subtract_constant_spec in Hw.
  apply in_map_iff in Hw. destruct Hw as (w0 & <- & Hw0).
  destruct (in_normalize_workers _ _ _ _ Hn Hw0)
    as (r & quals & Hr & Hp & Hu & He & ->).
  exists r, quals. repeat split; auto.
Qed.






(** C9.  Every worker of the returned model stems from a raw row whose
    unpacked codes held neither 5 nor 6, so its qualification list
    holds neither, and it holds 3 whenever it holds 7. *)
Theorem qualification_invariant today current_date df_werknemers df_onb
    prev df_vastrooster num_weeks data w :
  preprocess_data today current_date df_werknemers df_onb prev
    df_vastrooster num_weeks = Ok data ->
  In w (workers data) ->
  (exists r quals,
      In r df_werknemers /\ unpack (rw_deskundigheid r) = Ok quals
      /\ ~ In 5 quals /\ ~ In 6 quals
      /\ deskundigheid w = imply_3 quals)
  /\ ~ In 5 (deskundigheid w)
  /\ ~ In 6 (deskundigheid w)
  /\ (In 7 (deskundigheid w) -> In 3 (deskundigheid w)).
Proof.
  intros H Hw.
  destruct (in_model_workers _ _ _ _ _ _ _ _ _ H Hw)
    as (r & quals & Hr & _ & Hu & He & ->).
  unfold excluded in He. apply orb_false_elim in He. destruct He as [H5 H6].
  assert (N5 : ~ In 5 quals) by (rewrite <- memZ_true; congruence).
  assert (N6 : ~ In 6 quals) by (rewrite <- memZ_true; congruence).
  simpl. split; [exists r, quals; auto|].
  unfold imply_3.
  destruct (memZ 7 quals) eqn:H7; destruct (memZ 3 quals) eqn:H3; simpl;
    rewrite ?in_app_iff; simpl; repeat split;
    try (intros [?|[?|[]]]; (contradiction || discriminate));
    try (apply memZ_true in H3); auto.
  intros H7'. apply memZ_true in H7'. congruence.
Qed.

Lemma qualification_invariant_witness :
  preprocess_data Scenarios.today Scenarios.current_date
    Scenarios.mixed_workers [] None None 1 = Ok Scenarios.mixed_model
  /\ In Scenarios.worker_7 (workers Scenarios.mixed_model)
  /\ ~ In 5 (deskundigheid Scenarios.worker_7)
  /\ ~ In 6 (deskundigheid Scenarios.worker_7)
  /\ (In 7 (deskundigheid Scenarios.worker_7)
      -> In 3 (deskundigheid Scenarios.worker_7)).
Proof.
  assert (H1 : preprocess_data Scenarios.today Scenarios.current_date
                 Scenarios.mixed_workers [] None None 1
               = Ok Scenarios.mixed_model) by (vm_compute; reflexivity).
  assert (H2 : In Scenarios.worker_7 (workers Scenarios.mixed_model))
    by (vm_compute; left; reflexivity).
  split; [exact H1|]. split; [exact H2|].
  exact (proj2 (qualification_invariant _ _ _ _ _ _ _ _ _ H1 H2)).
Defined.






End WorkerFacts.

(** ** Facts about the validator *)

Module ValidateFacts.
Import Py Calendar Preprocessing Validate Web Statements PyFacts.

(** *** What the caller receives *)

Lemma validate_returns_none data result v :
  validate_auto_rooster data result = Ok v -> v = PyNone.
Proof.
  unfold validate_auto_rooster.
  destruct (collected_errors data result); simpl; intros H;
    [inversion H; reflexivity | discriminate].
Qed.

Lemma generate_schedule_never_rejects data result errors :
  generate_schedule data result <> ValidationFailed errors.
Proof.
  unfold generate_schedule.
  destruct (validate_auto_rooster data result) as [v|e] eqn:E;
    [|discriminate].
  apply validate_returns_none in E. subst. simpl. discriminate.
Qed.

(** C1.  The validator is to return every violation, and an empty
    list exactly for a compliant proposal.  With shift 0 given to two
    workers the rule engine collects one violation, yet the call
    returns [None] and the caller reports success. *)
Theorem collected_violations_are_not_returned :
  preprocess_data Scenarios.today Scenarios.current_date
    Scenarios.two_workers [] None None 1 = Ok Scenarios.week_model
  /\ collected_errors Scenarios.week_model Scenarios.double_booked
     = Ok [MultipleEmployees 0 ["200"; "100"]]
  /\ validate_auto_rooster Scenarios.week_model Scenarios.double_booked
     = Ok PyNone
  /\ generate_schedule Scenarios.week_model Scenarios.double_booked
     = Success.
Proof. vm_compute. repeat split; reflexivity. Qed.

(** *** Rule 7.3 *)

Lemma for_each_all_nil {A B} (body : A -> res (list B)) xs :
  (forall x, In x xs -> body x = Ok []) -> for_each body xs = Ok [].
Proof.
  induction xs as [|x xs IH]; simpl; intros H; [reflexivity|].
  rewrite (H x (or_introl eq_refl)). simpl.
  rewrite IH; [reflexivity|]. intros y Hy. apply H. now right.
Qed.

(** On a horizon of at most 13 weeks no window is examined at all. *)
Lemma rule7_3_short_horizon shifts df lo hi :
  minimum (map week shifts) = Some lo ->
  maximum (map week shifts) = Some hi ->
  hi - lo <= 12 ->
  rule7_3 shifts df = Ok [].
Proof.
  intros Hlo Hhi Hspan. unfold rule7_3. apply for_each_all_nil.
  intros g _. unfold start_weeks. rewrite Hlo, Hhi.
  rewrite range_nil by lia. reflexivity.
Qed.

(** The windows that are examined start no later than 13 weeks before
    the last week, and a reported window does hold more than 35
    nights of that worker. *)
Lemma rule7_3_sound shifts df errs emp n start_week end_week lo hi :
  rule7_3 shifts df = Ok errs ->
  minimum (map week shifts) = Some lo ->
  maximum (map week shifts) = Some hi ->
  In (NightsIn13Weeks emp n start_week end_week) errs ->
  lo <= start_week <= hi - 13
  /\ end_week = start_week + 12
  /\ 35 < n
  /\ n = len (nights_in_window
                (filter a_is_night
                   (filter (fun a => String.eqb (employee_id a) emp) df))
                start_week).
Proof.
  intros H Hlo Hhi Hin. unfold rule7_3 in H.
  destruct (for_each_in_out _ _ _ _ H Hin) as (g & o & Hg & Ho & Hv).
  unfold start_weeks in Ho. rewrite Hlo, Hhi in Ho. simpl in Ho.
  inversion Ho; subst; clear Ho.
  apply in_flat_map in Hv. destruct Hv as (sw & Hsw & Hv).
  apply in_range in Hsw.
  destruct (35 <? len _) eqn:E; [|destruct Hv].
  destruct Hv as [Hv|[]]. inversion Hv; subst; clear Hv.
  apply (in_groupby String.leb String.eqb employee_id String.eqb_eq)
    in Hg. destruct Hg as [_ Hg]. rewrite Hg in *.
  apply Z.ltb_lt in E. repeat split; try lia.
Qed.

(** C4.  A window of 13 weeks with more than 35 nights is to be
    reported, the last window included.  On a 13-week horizon with
    worker 100 on the night shift every Monday, Tuesday and Wednesday,
    weeks 1 to 13 hold 39 nights, and no violation is collected. *)
Theorem last_13_week_window_is_not_checked :
  preprocess_data Scenarios.today Scenarios.current_date
    Scenarios.night_worker [] None None 13 = Ok Scenarios.quarter_model
  /\ horizon_weeks Scenarios.quarter_model = 13
  /\ len (nights_in_window
            (filter a_is_night
               (filter (of_employee "100")
                  (dropna Scenarios.three_nights_a_week)))
            1) = 39
  /\ start_weeks (shifts Scenarios.quarter_model) = Ok []
  /\ rule7_3 (shifts Scenarios.quarter_model)
       (dropna Scenarios.three_nights_a_week) = Ok []
  /\ collected_errors Scenarios.quarter_model Scenarios.three_nights_a_week
     = Ok [].
Proof. vm_compute. repeat split; reflexivity. Qed.

(** *** Rule 5 *)

Lemma of_employee_key a emp :
  is_some (a_employee_id a) = true ->
  String.eqb (employee_id a) emp = of_employee emp a.
Proof.
  unfold employee_id, of_employee. destruct (a_employee_id a); simpl;
    [reflexivity | discriminate].
Qed.

Lemma of_employee_id a emp :
  of_employee emp a = true -> employee_id a = emp.
Proof.
  unfold employee_id, of_employee. destruct (a_employee_id a); simpl;
    [apply String.eqb_eq | discriminate].
Qed.

(** The rows of a group are the rows of that employee. *)
Lemma group_rows result emp :
  filter (fun a => String.eqb (employee_id a) emp) (dropna result)
  = filter (of_employee emp) (dropna result).
Proof.
  apply filter_ext_in. intros a Ha. apply of_employee_key.
  unfold dropna in Ha. apply filter_In in Ha. tauto.
Qed.

Lemma in_by_employee result g :
  In g (by_employee (dropna result)) <->
  In (fst g) (map employee_id (dropna result))
  /\ snd g = filter (of_employee (fst g)) (dropna result).
Proof.
  unfold by_employee.
  rewrite (in_groupby String.leb String.eqb employee_id String.eqb_eq).
  rewrite group_rows, in_map_iff. split.
  - intros [(r & Hr & Hk) Hs]. split; eauto.
  - intros [(r & Hk & Hr) Hs]. split; eauto.
Qed.

Lemma worker_cell_known {A} workers emp (col : worker -> A) c :
  worker_cell workers emp col = Ok c ->
  memS emp (map medewerker_id workers) = true.
Proof.
  unfold worker_cell.
  destruct (filter _ workers) as [|w ws] eqn:E; [discriminate|].
  intros _. assert (Hw : In w (filter
    (fun w => String.eqb (medewerker_id w) emp) workers))
    by (rewrite E; now left).
  apply filter_In in Hw. destruct Hw as [Hw He].
  apply String.eqb_eq in He. subst. apply memS_true.
  apply in_map_iff. eauto.
Qed.

Section ContractHours.
Variable workers : list worker.
Variable result : list assignment.
Variable emp : string.
Variable cap : Z.
Hypothesis cap_of_emp :
  worker_cell workers emp contract_minutes = Ok cap.

Let df := dropna result.
Let body (g : string * list assignment) : res (list violation) :=
  cap_minutes <- worker_cell workers (fst g) contract_minutes ;;
  let total_minutes := sum (map a_duration_min (snd g)) in
  let allowed_total := cap_minutes * num_weeks_of df in
  Ok (if allowed_total <? total_minutes
      then [ContractHours (fst g) total_minutes allowed_total
              (num_weeks_of df)]
      else []).

Lemma count_app (xs ys : list violation) :
  count_contract_hours emp (xs ++ ys)
  = (count_contract_hours emp xs + count_contract_hours emp ys)%nat.
Proof.
  unfold count_contract_hours. now rewrite filter_app, length_app.
Qed.

Lemma count_groups groups outs :
  Forall2 (fun g o => body g = Ok o) groups outs ->
  NoDup (map fst groups) ->
  (forall g, In g groups -> snd g = filter (of_employee (fst g)) df) ->
  count_contract_hours emp (List.concat outs)
  = if (memS emp (map fst groups)
        && (cap * num_weeks_of df <? minutes_of emp df))%bool
    then 1%nat else 0%nat.
Proof.
  induction 1 as [|g o groups outs Hg HF IH]; intros Hnd Hrows.
  - reflexivity.
  - simpl in Hnd. inversion Hnd as [|k ks Hk Hnd']; subst.
    cbn [List.concat map]. rewrite count_app.
    rewrite IH by (auto; intros g' Hg'; apply Hrows; now right).
    unfold body in Hg.
    destruct (worker_cell workers (fst g) contract_minutes) as [c|] eqn:Hc;
      simpl in Hg; [|discriminate].
    inversion Hg; subst; clear Hg.
    unfold memS at 2. cbn [existsb].
    destruct (String.eqb_spec emp (fst g)) as [->|Hne].
    + rewrite cap_of_emp in Hc. inversion Hc; subst c.
      assert (Hm : memS (fst g) (map fst groups) = false).
      { destruct (memS (fst g) (map fst groups)) eqn:E; auto.
        apply memS_true in E. contradiction. }
      rewrite Hm. cbn [andb orb].
      rewrite (Hrows g (or_introl eq_refl)). fold (minutes_of (fst g) df).
      destruct (cap * num_weeks_of df <? minutes_of (fst g) df);
        [|reflexivity].
      unfold count_contract_hours. simpl. now rewrite String.eqb_refl.
    + cbn [orb]. fold (memS emp (map fst groups)).
      assert (E : String.eqb (fst g) emp = false)
        by (apply String.eqb_neq; congruence).
      destruct (c * num_weeks_of df <? sum (map a_duration_min (snd g)));
        unfold count_contract_hours; simpl; rewrite ?E; reflexivity.
Qed.

(** The employee is reported once if the minutes exceed the cap
    times the number of distinct weeks among the filled rows, and
    not at all otherwise. *)
Lemma rule5_count errs :
  rule5 workers df = Ok errs ->
  In emp (map employee_id df) ->
  count_contract_hours emp errs
  = if cap * num_weeks_of df <? minutes_of emp df then 1%nat else 0%nat.
Proof.
  intros H Hemp. unfold rule5 in H. fold body in H.
  destruct (for_each_ok _ _ _ H) as (outs & HF & ->).
  rewrite (count_groups _ _ HF).
  - assert (Hm : memS emp (map fst (by_employee df)) = true).
    { apply memS_true, in_map_iff.
      exists (emp, filter (of_employee emp) df). split; [reflexivity|].
      apply in_by_employee. auto. }
    now rewrite Hm.
  - apply groupby_keys_nodup, String.eqb_eq.
  - intros g Hg. now apply in_by_employee in Hg.
Qed.

Lemma rule5_content errs total allowed n :
  rule5 workers df = Ok errs ->
  In (ContractHours emp total allowed n) errs ->
  total = minutes_of emp df /\ allowed = cap * n /\ n = num_weeks_of df.
Proof.
  intros H Hin. unfold rule5 in H.
  destruct (for_each_in_out _ _ _ _ H Hin) as (g & o & Hg & Ho & Hv).
  destruct (worker_cell workers (fst g) contract_minutes) as [c|] eqn:Hc;
    simpl in Ho; [|discriminate].
  inversion Ho; subst; clear Ho.
  destruct (_ <? _); [|destruct Hv]. destruct Hv as [Hv|[]].
  inversion Hv; subst. rewrite cap_of_emp in Hc. inversion Hc; subst.
  apply in_by_employee in Hg. destruct Hg as [_ Hg]. rewrite Hg.
  auto.
Qed.
End ContractHours.

(** C7, as stated, fails: on a four-week horizon, two shifts of 480
    minutes in week 1 and nothing else filled are reported against
    500 minutes, although 960 does not exceed 4 times 500. *)
Lemma contract_cap_counts_filled_weeks_only :
  ~ contract_rule_per_horizon.
Proof.
  intros claim.
  assert (H1 : collected_errors Scenarios.month_model
                 Scenarios.two_early_shifts
               = Ok [ContractHours "100" 960 500 1])
    by (vm_compute; reflexivity).
  assert (H2 : In "100" (map employee_id
                           (dropna Scenarios.two_early_shifts)))
    by (vm_compute; left; reflexivity).
  assert (H3 : worker_cell (workers Scenarios.month_model) "100"
                 contract_minutes = Ok 500) by (vm_compute; reflexivity).
  destruct (claim _ _ _ _ _ H1 H2 H3) as [Hflag _].
  assert (Hlt : 500 * horizon_weeks Scenarios.month_model
                < minutes_of "100" (dropna Scenarios.two_early_shifts)).
  { apply Hflag. exists 960, 500, 1. now left. }
  vm_compute in Hlt. discriminate Hlt.
Qed.

(** C7, amended.  A worker of the proposal is reported by rule 5 once
    if the assigned minutes exceed the contract minutes times the
    number of distinct weeks among the filled rows, and not at all
    otherwise; the message carries those minutes, that product and
    that number of weeks, which is the length of the horizon when every
    week of the horizon has a filled row and no filled row lies outside
    it.  With a cap of 500 and 2100 minutes spread
    over the four weeks of the horizon, the validator collects exactly
    one violation, reporting 2100 against 2000. *)
Theorem contract_hours_rule :
  (forall workers result errs emp cap,
      rule5 workers (dropna result) = Ok errs ->
      In emp (map employee_id (dropna result)) ->
      worker_cell workers emp contract_minutes = Ok cap ->
      count_contract_hours emp errs
      = (if cap * num_weeks_of (dropna result)
            <? minutes_of emp (dropna result)
         then 1%nat else 0%nat)
      /\ forall total allowed n,
           In (ContractHours emp total allowed n) errs ->
           total = minutes_of emp (dropna result)
           /\ allowed = cap * n
           /\ n = num_weeks_of (dropna result))
  /\ (forall data result,
         (forall w, In w (map a_week (dropna result)) <->
                    In w (map week (shifts data))) ->
         num_weeks_of (dropna result) = horizon_weeks data)
  /\ collected_errors Scenarios.month_model Scenarios.five_late_shifts
     = Ok [ContractHours "100" 2100 2000 4]
  /\ render_contract_hours "100" 2100 2000 4
     = "Employee 100 exceeds average contract hours: 2100 min worked > 2000 min allowed over 4 weeks".
Proof.
  split.
  - intros workers result errs emp cap H Hemp Hcap. split.
    + exact (rule5_count workers result emp cap Hcap errs H Hemp).
    + intros total allowed n.
      exact (rule5_content workers result emp cap Hcap errs total allowed n
               H).
  - split.
    + intros data result Hweeks. now apply nunique_same_values.
    + vm_compute. split; reflexivity.
Qed.

Lemma contract_hours_rule_witness :
  rule5 (workers Scenarios.month_model)
    (dropna Scenarios.five_late_shifts)
  = Ok [ContractHours "100" 2100 2000 4]
  /\ In "100" (map employee_id (dropna Scenarios.five_late_shifts))
  /\ worker_cell (workers Scenarios.month_model) "100" contract_minutes
     = Ok 500
  /\ count_contract_hours "100" [ContractHours "100" 2100 2000 4]
     = (if 500 * num_weeks_of (dropna Scenarios.five_late_shifts)
           <? minutes_of "100" (dropna Scenarios.five_late_shifts)
        then 1%nat else 0%nat).
Proof.
  assert (H1 : rule5 (workers Scenarios.month_model)
                 (dropna Scenarios.five_late_shifts)
               = Ok [ContractHours "100" 2100 2000 4])
    by (vm_compute; reflexivity).
  assert (H2 : In "100" (map employee_id
                           (dropna Scenarios.five_late_shifts)))
    by (vm_compute; left; reflexivity).
  assert (H3 : worker_cell (workers Scenarios.month_model) "100"
                 contract_minutes = Ok 500) by (vm_compute; reflexivity).
  split; [exact H1|]. split; [exact H2|]. split; [exact H3|].
  exact (proj1 (proj1 contract_hours_rule _ _ _ _ _ H1 H2 H3)).
Defined.

(** *** Rule 6 *)


Lemma flat_map_nothing {A B} (xs : list A) :
  flat_map (fun _ : A => @nil B) xs = [].
Proof. induction xs; simpl; auto. Qed.







(** Once rule 4 has run to its end, every employee of the proposal has
    a worker record. *)
Lemma rule4_known workers result e4 a :
  rule4 workers (dropna result) = Ok e4 ->
  In a (dropna result) ->
  memS (employee_id a) (map medewerker_id workers) = true.
Proof.
  intros H Ha. unfold rule4 in H.
  assert (Hg : In (employee_id a,
                   filter (of_employee (employee_id a)) (dropna result))
                  (by_employee (dropna result))).
  { apply in_by_employee. simpl. split; [|reflexivity].
    apply in_map_iff. eauto. }
  destruct (for_each_ok_in _ _ _ _ H Hg) as (o & Ho & _). simpl in Ho.
  destruct (worker_cell workers (employee_id a) max_days_per_week)
    as [c|] eqn:Hc; [|discriminate].
  now apply worker_cell_known in Hc.
Qed.

Lemma collected_errors_rule4 data result errs :
  collected_errors data result = Ok errs ->
  exists e4, rule4 (workers data) (dropna result) = Ok e4.
Proof.
  unfold collected_errors.
  destruct (rule4 (workers data) (dropna result)) as [e4|]; simpl;
    [eauto | discriminate].
Qed.




End ValidateFacts.

(** ** Facts about the horizon of a run *)

Module HorizonFacts.
Import Py Calendar Preprocessing Validate Statements Coverage PyFacts
  CalendarFacts.

Lemma combine_fst {A B} (xs : list A) (ys : list B) :
  List.length xs = List.length ys -> map fst (combine xs ys) = xs.
Proof.
  revert ys. induction xs as [|x xs IH]; intros [|y ys] H; simpl in *;
    try discriminate; [reflexivity|]. f_equal. apply IH. lia.
Qed.

Lemma combine_snd {A B} (xs : list A) (ys : list B) :
  List.length xs = List.length ys -> map snd (combine xs ys) = ys.
Proof.
  revert ys. induction xs as [|x xs IH]; intros [|y ys] H; simpl in *;
    try discriminate; [reflexivity|]. f_equal. apply IH. lia.
Qed.

Lemma length_range a b : List.length (range a b) = Z.to_nat (b - a).
Proof. unfold range. now rewrite length_map, length_seq. Qed.

Lemma length_enumerate {A} (xs : list A) :
  List.length (range 0 (Z.of_nat (List.length xs))) = List.length xs.
Proof. rewrite length_range. lia. Qed.

Lemma nodup_range a b : NoDup (range a b).
Proof.
  unfold range. generalize (seq_NoDup (Z.to_nat (b - a)) 0).
  generalize (seq 0 (Z.to_nat (b - a))). intros l.
  induction 1 as [|x xs Hx Hxs IH]; simpl; constructor; auto.
  rewrite in_map_iff. intros (y & Hy & Hin).
  assert (y = x) by lia. now subst.
Qed.

Lemma length_with_index {A} (set : Z -> A -> A) xs :
  List.length (with_index set xs) = List.length xs.
Proof.
  unfold with_index, enumerate.
  rewrite length_map, length_combine, length_enumerate. lia.
Qed.

(** Renumbering gives the ids 0, 1, 2, ... in row order. *)
Lemma with_index_ids xs :
  map shift_id (with_index set_shift_id xs) = range 0 (len xs).
Proof.
  unfold with_index, enumerate, len. rewrite map_map.
  rewrite <- (combine_fst (range 0 (Z.of_nat (List.length xs))) xs)
    at 2 by apply length_enumerate.
  apply map_ext. now intros [i x].
Qed.

(** Renumbering leaves every other column as it was. *)
Lemma with_index_rows {B} xs (f : shift -> B) :
  (forall i x, f (set_shift_id i x) = f x) ->
  map f (with_index set_shift_id xs) = map f xs.
Proof.
  intros Hf. unfold with_index, enumerate. rewrite map_map.
  transitivity
    (map f (map snd (combine (range 0 (Z.of_nat (List.length xs))) xs))).
  - rewrite map_map. apply map_ext. intros [i x]. apply Hf.
  - now rewrite combine_snd by apply length_enumerate.
Qed.

Lemma nth_error_combine {A B} (xs : list A) (ys : list B) n x y :
  nth_error xs n = Some x -> nth_error ys n = Some y ->
  nth_error (combine xs ys) n = Some (x, y).
Proof.
  revert xs ys. induction n as [|n IH]; intros [|a xs] [|b ys]; simpl;
    try discriminate.
  - congruence.
  - apply IH.
Qed.

Lemma in_with_index_inv {A} (set : Z -> A -> A) xs x :
  In x xs -> exists i, In (set i x) (with_index set xs).
Proof.
  unfold with_index, enumerate. intros Hx.
  destruct (In_nth_error _ _ Hx) as (n & Hn).
  assert (Hlen : (n < List.length xs)%nat)
    by (apply nth_error_Some; congruence).
  exists (Z.of_nat n). apply in_map_iff. exists (Z.of_nat n, x). split; auto.
  apply (nth_error_In _ n). apply nth_error_combine; auto.
  unfold range. rewrite nth_error_map, nth_error_seq.
  replace (Z.to_nat (Z.of_nat (List.length xs) - 0)) with (List.length xs)
    by lia.
  destruct (Nat.ltb_spec n (List.length xs)); [|lia]. simpl. f_equal.
Qed.

(** The calendar half of a model that was returned. *)
Lemma model_calendar today current_date df_werknemers df_onb prev
    df_vastrooster num_weeks data :
  preprocess_data today current_date df_werknemers df_onb prev
    df_vastrooster num_weeks = Ok data ->
  0 < num_weeks
  /\ shifts data = cm_shifts (preprocess_calendar today prev num_weeks)
  /\ shifts_constant data
     = cm_shifts_constant (preprocess_calendar today prev num_weeks)
  /\ prev_assignments data
     = cm_prev_assignments (preprocess_calendar today prev num_weeks).
Proof.
  unfold preprocess_data. intros H.
  destruct (Z.leb_spec num_weeks 0); [discriminate|].
  destruct (normalize_workers current_date df_werknemers); simpl in H;
    [|discriminate].
  inversion H; subst; clear H. cbn [shifts shifts_constant prev_assignments].
  auto.
Qed.

Lemma lookup_unique (shifts : list shift) s :
  NoDup (map shift_id shifts) -> In s shifts ->
  shifts_lookup shifts (shift_id s) = Ok s.
Proof.
  unfold shifts_lookup. induction shifts as [|x xs IH]; simpl; [easy|].
  intros Hnd Hin. inversion Hnd as [|? ? Hx Hxs]; subst.
  destruct Hin as [->|Hin].
  - now rewrite Z.eqb_refl.
  - destruct (Z.eqb_spec (shift_id x) (shift_id s)) as [E|E].
    + exfalso. apply Hx. rewrite E. now apply in_map.
    + now apply IH.
Qed.

Lemma model_shift_ids today current_date df_werknemers df_onb prev
    df_vastrooster num_weeks data :
  preprocess_data today current_date df_werknemers df_onb prev
    df_vastrooster num_weeks = Ok data ->
  map shift_id (shifts data) = range 0 (len (shifts data)).
Proof.
  intros H. destruct (model_calendar _ _ _ _ _ _ _ _ H) as (_ & Hs & _).
  rewrite Hs. unfold preprocess_calendar. cbn [cm_shifts]. unfold shifts_of.
  rewrite with_index_ids. unfold len. now rewrite length_with_index.
Qed.

(** X1.  In every returned model the assignable shifts carry the ids
    0, 1, 2, ... in row order, and so do the administrative shifts, each
    population on its own; looking an assignable shift up by its id
    gives that shift back. *)
Theorem shift_ids_are_dense today current_date df_werknemers df_onb prev
    df_vastrooster num_weeks data :
  preprocess_data today current_date df_werknemers df_onb prev
    df_vastrooster num_weeks = Ok data ->
  map shift_id (shifts data) = range 0 (len (shifts data))
  /\ map shift_id (shifts_constant data)
     = range 0 (len (shifts_constant data))
  /\ forall s, In s (shifts data) ->
       shifts_lookup (shifts data) (shift_id s) = Ok s.
Proof.
  intros H. destruct (model_calendar _ _ _ _ _ _ _ _ H) as (_ & Hs & Hc & _).
  pose proof (model_shift_ids _ _ _ _ _ _ _ _ H) as Hids.
  split; [exact Hids|]. split.
  - rewrite Hc. unfold preprocess_calendar. cbn [cm_shifts_constant].
    unfold shifts_constant_of. rewrite with_index_ids. unfold len.
    now rewrite length_with_index.
  - intros s Hin. apply lookup_unique; auto. rewrite Hids. apply nodup_range.
Qed.

Lemma shift_ids_are_dense_witness :
  preprocess_data Scenarios.today Scenarios.current_date
    Scenarios.two_workers [] None None 1 = Ok Scenarios.week_model
  /\ map shift_id (shifts Scenarios.week_model)
     = range 0 (len (shifts Scenarios.week_model)).
Proof.
  assert (H : preprocess_data Scenarios.today Scenarios.current_date
                Scenarios.two_workers [] None None 1
              = Ok Scenarios.week_model) by (vm_compute; reflexivity).
  split; [exact H|].
  exact (proj1 (shift_ids_are_dense _ _ _ _ _ _ _ _ H)).
Defined.

(** Every assignable shift is an expanded template row, renumbered. *)
Lemma in_shifts_instance today prev n s :
  In s (cm_shifts (preprocess_calendar today prev n)) ->
  exists i wk row,
    s = set_shift_id i
          (shift_instance (start_date_of today prev)
             (global_start_date_of today prev) wk row)
    /\ 0 <= wk < n /\ In row shift_requirements
    /\ administrative s = false.
Proof.
  unfold preprocess_calendar. cbn [cm_shifts]. unfold shifts_of.
  intros H. apply in_with_index in H. destruct H as (i & x & Hx & ->).
  apply filter_In in Hx. destruct Hx as [Hx Hadm].
  unfold all_shift_instances in Hx.
  apply in_with_index in Hx. destruct Hx as (j & y & Hy & ->).
  apply in_flat_map in Hy. destruct Hy as (wk & Hwk & Hy).
  apply in_map_iff in Hy. destruct Hy as (row & <- & Hrow).
  apply in_range in Hwk. exists i, wk, row. repeat split; auto; try lia.
  now apply negb_true_iff in Hadm.
Qed.

Lemma requirement_facts row :
  In row shift_requirements ->
  0 <= r_day_of_week row <= 6
  /\ 0 < round_half_even (r_duration row * 60)
  /\ In (r_shift_name row) Shifts.
Proof.
  assert (H : forallb
                (fun r => ((0 <=? r_day_of_week r) && (r_day_of_week r <=? 6)
                           && (0 <? round_half_even (r_duration r * 60))
                           && memS (r_shift_name r) Shifts)%bool)
                shift_requirements = true) by (vm_compute; reflexivity).
  rewrite forallb_forall in H. intros Hin. specialize (H row Hin).
  rewrite !andb_true_iff in H. destruct H as [[[H1 H2] H3] H4].
  apply memS_true in H4. repeat split; auto; lia.
Qed.

Lemma length_filter_flat_map {A B} (p : B -> bool) (f : A -> list B) l c :
  (forall x, List.length (filter p (f x)) = c) ->
  List.length (filter p (flat_map f l)) = (c * List.length l)%nat.
Proof.
  intros H. induction l as [|x xs IH]; simpl; [lia|].
  rewrite filter_app, length_app, H, IH. lia.
Qed.

Lemma length_filter_with_index (p : shift -> bool) xs :
  (forall i x, p (set_shift_id i x) = p x) ->
  List.length (filter p (with_index set_shift_id xs))
  = List.length (filter p xs).
Proof.
  intros Hp. unfold with_index, enumerate.
  rewrite filter_map_swap, length_map.
  transitivity
    (List.length
       (filter p (map snd (combine (range 0 (Z.of_nat (List.length xs)))
                             xs)))).
  - rewrite filter_map_swap, length_map. f_equal.
    apply filter_ext. intros [i x]. apply Hp.
  - now rewrite combine_snd by apply length_enumerate.
Qed.

Lemma count_instances (p : shift -> bool) (q : requirement -> bool) c sd gsd n :
  (forall i x, p (set_shift_id i x) = p x) ->
  (forall wk row, p (shift_instance sd gsd wk row) = q row) ->
  List.length (filter q shift_requirements) = c ->
  0 <= n ->
  len (with_index set_shift_id (filter p (all_shift_instances sd gsd n)))
  = Z.of_nat c * n.
Proof.
  intros Hp Hq Hc Hn. unfold len. rewrite length_with_index.
  unfold all_shift_instances. rewrite length_filter_with_index by exact Hp.
  rewrite (length_filter_flat_map _ _ _ c).
  - rewrite length_range. lia.
  - intros wk. rewrite filter_map_swap, length_map. rewrite <- Hc. f_equal.
    apply filter_ext. intros row. apply Hq.
Qed.

(** X2.  In every returned model the KOK and FM shifts are kept apart
    from the assignable ones: no assignable shift is called KOK or FM,
    every administrative shift is, and a horizon of [num_weeks] weeks
    has 67 assignable and 11 administrative shifts per week. *)
Theorem administrative_shifts_are_set_apart today current_date
    df_werknemers df_onb prev df_vastrooster num_weeks data :
  preprocess_data today current_date df_werknemers df_onb prev
    df_vastrooster num_weeks = Ok data ->
  (forall s, In s (shifts data) ->
     shift_name s <> "KOK" /\ shift_name s <> "FM")
  /\ (forall s, In s (shifts_constant data) ->
        shift_name s = "KOK" \/ shift_name s = "FM")
  /\ len (shifts data) = 67 * num_weeks
  /\ len (shifts_constant data) = 11 * num_weeks.
Proof.
  intros H.
  destruct (model_calendar _ _ _ _ _ _ _ _ H) as (Hn & Hs & Hc & _).
  rewrite Hs, Hc. unfold preprocess_calendar.
  cbn [cm_shifts cm_shifts_constant]. unfold shifts_of, shifts_constant_of.
  split; [|split; [|split]].
  - intros s Hin. apply in_with_index in Hin.
    destruct Hin as (i & x & Hx & ->). apply filter_In in Hx.
    destruct Hx as [_ Hx]. apply negb_true_iff in Hx.
    unfold administrative in Hx. cbn [shift_name set_shift_id].
    split; intros E; rewrite E in Hx; discriminate Hx.
  - intros s Hin. apply in_with_index in Hin.
    destruct Hin as (i & x & Hx & ->). apply filter_In in Hx.
    destruct Hx as [_ Hx]. unfold administrative in Hx.
    apply memS_true in Hx. cbn [shift_name set_shift_id].
    destruct Hx as [E|[E|[]]]; auto.
  - apply (count_instances _
             (fun row => negb (memS (r_shift_name row) ["KOK"; "FM"])) 67);
      auto; try lia.
  - apply (count_instances _
             (fun row => memS (r_shift_name row) ["KOK"; "FM"]) 11);
      auto; try lia.
Qed.

Lemma administrative_shifts_are_set_apart_witness :
  preprocess_data Scenarios.today Scenarios.current_date
    Scenarios.capped_worker [] None None 4 = Ok Scenarios.month_model
  /\ len (shifts Scenarios.month_model) = 67 * 4
  /\ len (shifts_constant Scenarios.month_model) = 11 * 4.
Proof.
  assert (H : preprocess_data Scenarios.today Scenarios.current_date
                Scenarios.capped_worker [] None None 4
              = Ok Scenarios.month_model) by (vm_compute; reflexivity).
  split; [exact H|].
  exact (proj2 (proj2 (administrative_shifts_are_set_apart _ _ _ _ _ _ _ _
                         H))).
Defined.

Lemma in_model_shifts today current_date df_werknemers df_onb prev
    df_vastrooster num_weeks data s :
  preprocess_data today current_date df_werknemers df_onb prev
    df_vastrooster num_weeks = Ok data ->
  In s (shifts data) ->
  exists i wk row,
    s = set_shift_id i
          (shift_instance (start_date_of today prev)
             (global_start_date_of today prev) wk row)
    /\ 0 <= wk < num_weeks /\ In row shift_requirements.
Proof.
  intros H Hin.
  destruct (model_calendar _ _ _ _ _ _ _ _ H) as (_ & Hs & _).
  rewrite Hs in Hin. apply in_shifts_instance in Hin.
  destruct Hin as (i & wk & row & Hs' & Hwk & Hrow & _).
  exists i, wk, row. auto.
Qed.

Lemma moved_weekday start wk off :
  weekday (start + (wk * 7 + off)) = (weekday start + off) mod 7.
Proof.
  unfold weekday.
  replace (start + (wk * 7 + off) - 1) with (start - 1 + off + wk * 7)
    by lia.
  rewrite Z.mod_add by lia. now rewrite Z.add_mod_idemp_l by lia.
Qed.

(** X3.  Every assignable shift of a returned model lies in one of the
    weeks 1 to [num_weeks] and on one of the offsets 0 to 6; its date is
    the start date plus [absolute_day], which is seven times the weeks
    before it plus [day_of_week]; [day_key] pairs week and
    [day_of_week]; the shift is a night shift exactly when it is called
    N; its duration is a positive number of minutes; and its calendar
    weekday is the weekday of the start date moved on by [day_of_week]. *)
Theorem shift_instance_invariants today current_date df_werknemers df_onb
    prev df_vastrooster num_weeks data s :
  preprocess_data today current_date df_werknemers df_onb prev
    df_vastrooster num_weeks = Ok data ->
  In s (shifts data) ->
  1 <= week s <= num_weeks
  /\ 0 <= day_of_week s <= 6
  /\ absolute_day s = (week s - 1) * 7 + day_of_week s
  /\ shift_date s = start_date_of today prev + absolute_day s
  /\ day_key s = (week s, day_of_week s)
  /\ is_night s = String.eqb (shift_name s) "N"
  /\ 0 < duration_min s
  /\ In (shift_name s) Shifts
  /\ weekday (shift_date s)
     = (weekday (start_date_of today prev) + day_of_week s) mod 7.
Proof.
  intros H Hin.
  destruct (in_model_shifts _ _ _ _ _ _ _ _ _ H Hin)
    as (i & wk & row & -> & Hwk & Hrow).
  destruct (requirement_facts row Hrow) as (Hd & Hdur & Hname).
  cbn [set_shift_id shift_instance week day_of_week absolute_day shift_date
       day_key is_night shift_name duration_min].
  repeat split; auto; try lia.
  apply moved_weekday.
Qed.

Lemma shift_instance_invariants_witness :
  preprocess_data Scenarios.today Scenarios.current_date
    Scenarios.two_workers [] None None 1 = Ok Scenarios.week_model
  /\ In first_shift (shifts Scenarios.week_model)
  /\ 1 <= week first_shift <= 1
  /\ shift_date first_shift
     = start_date_of Scenarios.today None + absolute_day first_shift.
Proof.
  assert (H : preprocess_data Scenarios.today Scenarios.current_date
                Scenarios.two_workers [] None None 1
              = Ok Scenarios.week_model) by (vm_compute; reflexivity).
  assert (Hin : In first_shift (shifts Scenarios.week_model))
    by (vm_compute; left; reflexivity).
  split; [exact H|]. split; [exact Hin|].
  destruct (shift_instance_invariants _ _ _ _ _ _ _ _ _ H Hin)
    as (Hw & _ & _ & Hd & _).
  split; [exact Hw | exact Hd].
Defined.

(** X4.  Within a returned model [global_week] never decreases with the
    calendar date: of two dated records, prior rows and horizon shifts
    alike, the one on the later date has no smaller [global_week]. *)
Theorem model_global_week_is_monotone today current_date df_werknemers
    df_onb prev df_vastrooster num_weeks data a b :
  preprocess_data today current_date df_werknemers df_onb prev
    df_vastrooster num_weeks = Ok data ->
  In a (model_dated_records data) ->
  In b (model_dated_records data) ->
  fst a <= fst b -> snd a <= snd b.
Proof.
  intros H.
  destruct (model_calendar _ _ _ _ _ _ _ _ H) as (_ & Hs & _ & Hp).
  unfold model_dated_records. rewrite Hs, Hp.
  apply (global_week_monotone today prev num_weeks a b).
Qed.

Lemma model_global_week_is_monotone_witness :
  preprocess_data Scenarios.today Scenarios.current_date
    Scenarios.two_workers [] (Some Scenarios.prior_wednesday) None 1
  = Ok prior_model
  /\ In (Scenarios.wednesday, 0) (model_dated_records prior_model)
  /\ In (Scenarios.wednesday + 1, 1) (model_dated_records prior_model)
  /\ fst (Scenarios.wednesday, 0) <= fst (Scenarios.wednesday + 1, 1)
  /\ snd (Scenarios.wednesday, 0) <= snd (Scenarios.wednesday + 1, 1).
Proof.
  assert (H : preprocess_data Scenarios.today Scenarios.current_date
                Scenarios.two_workers [] (Some Scenarios.prior_wednesday)
                None 1
              = Ok prior_model) by (vm_compute; reflexivity).
  assert (Ha : In (Scenarios.wednesday, 0) (model_dated_records prior_model))
    by (vm_compute; left; reflexivity).
  assert (Hb : In (Scenarios.wednesday + 1, 1)
                  (model_dated_records prior_model))
    by (vm_compute; right; left; reflexivity).
  assert (Hle : fst (Scenarios.wednesday, 0)
                <= fst (Scenarios.wednesday + 1, 1))
    by (vm_compute; discriminate).
  split; [exact H|]. split; [exact Ha|]. split; [exact Hb|].
  split; [exact Hle|].
  exact (model_global_week_is_monotone _ _ _ _ _ _ _ _ _ _ H Ha Hb Hle).
Defined.

Lemma next_monday today :
  let start := today + (7 - weekday today) mod 7 in
  weekday start = 0 /\ today <= start < today + 7
  /\ (weekday today = 0 -> start = today).
Proof.
  unfold weekday. cbv zeta.
  pose proof (Z.mod_pos_bound (today - 1) 7 ltac:(lia)) as Hw.
  pose proof (Z.mod_pos_bound (7 - (today - 1) mod 7) 7 ltac:(lia)) as Hs.
  pose proof (Z.div_mod (today - 1) 7 ltac:(lia)) as Hd.
  pose proof (Z.div_mod (7 - (today - 1) mod 7) 7 ltac:(lia)) as Hd'.
  set (w := (today - 1) mod 7) in *.
  set (q := (today - 1) / 7) in *.
  set (k := (7 - w) mod 7) in *.
  set (q' := (7 - w) / 7) in *.
  assert (Hk : (w = 0 /\ k = 0) \/ (0 < w /\ k = 7 - w)) by lia.
  split; [|split; [lia | lia]].
  replace (today + k - 1) with ((w + k) + q * 7) by lia.
  rewrite Z.mod_add by lia.
  destruct Hk as [[-> ->]|[Hw' ->]]; [reflexivity|].
  replace (w + (7 - w)) with 7 by lia. reflexivity.
Qed.

(** X5.  When no prior table is supplied, the horizon starts on the
    first Monday that is not before the day of the run (that day itself
    if it is a Monday); then [day_of_week] is the calendar weekday of
    every shift and [global_week] is its week of the horizon. *)
Theorem horizon_without_prior_table today current_date df_werknemers
    df_onb prev df_vastrooster num_weeks data :
  preprocess_data today current_date df_werknemers df_onb prev
    df_vastrooster num_weeks = Ok data ->
  prev_supplied prev = [] ->
  weekday (start_date_of today prev) = 0
  /\ today <= start_date_of today prev < today + 7
  /\ (weekday today = 0 -> start_date_of today prev = today)
  /\ forall s, In s (shifts data) ->
       weekday (shift_date s) = day_of_week s
       /\ global_week s = week s.
Proof.
  intros H Hprev.
  assert (Hstart : start_date_of today prev
                   = today + (7 - weekday today) mod 7).
  { unfold start_date_of. now rewrite Hprev. }
  assert (Hgsd : global_start_date_of today prev = start_date_of today prev).
  { unfold global_start_date_of. now rewrite Hprev. }
  destruct (next_monday today) as (Hmon & Hrange & Htoday).
  rewrite <- Hstart in Hmon, Hrange, Htoday.
  repeat split; auto; try lia.
  - destruct (in_model_shifts _ _ _ _ _ _ _ _ _ H H0)
      as (i & wk & row & -> & Hwk & Hrow).
    destruct (requirement_facts row Hrow) as (Hd & _).
    cbn [set_shift_id shift_instance day_of_week shift_date].
    rewrite moved_weekday, Hmon. apply Z.mod_small. lia.
  - destruct (model_calendar _ _ _ _ _ _ _ _ H) as (_ & Hs & _).
    rewrite Hs in H0. apply in_cm_shifts in H0.
    destruct H0 as (wk & off & Hwk & Hoff & Hdate & Hweek & Hgw).
    rewrite Hgw, Hweek, Hgsd, Hdate.
    replace (start_date_of today prev + (wk * 7 + off)
             - start_date_of today prev) with (off + wk * 7) by lia.
    rewrite Z.div_add by lia. rewrite Z.div_small by lia. lia.
Qed.

Lemma horizon_without_prior_table_witness :
  preprocess_data Scenarios.today Scenarios.current_date
    Scenarios.two_workers [] None None 1 = Ok Scenarios.week_model
  /\ prev_supplied (@None (list raw_prev)) = []
  /\ weekday (start_date_of Scenarios.today None) = 0
  /\ Scenarios.today <= start_date_of Scenarios.today None
     < Scenarios.today + 7.
Proof.
  assert (H : preprocess_data Scenarios.today Scenarios.current_date
                Scenarios.two_workers [] None None 1
              = Ok Scenarios.week_model) by (vm_compute; reflexivity).
  assert (Hp : prev_supplied (@None (list raw_prev)) = []) by reflexivity.
  split; [exact H|]. split; [exact Hp|].
  destruct (horizon_without_prior_table _ _ _ _ _ _ _ _ H Hp)
    as (Hm & Hr & _).
  split; [exact Hm | exact Hr].
Defined.

Lemma maximum_in xs m : maximum xs = Some m -> In m xs.
Proof.
  destruct xs as [|y ys]; simpl; [discriminate|].
  intros H. inversion H; subst; clear H.
  induction ys as [|z zs IH]; simpl; [now left|].
  destruct (Z.max_spec z (fold_right Z.max y zs)) as [[_ ->]|[_ ->]].
  - destruct IH as [IH|IH]; auto.
  - auto.
Qed.

Lemma minimum_in xs m : minimum xs = Some m -> In m xs.
Proof.
  destruct xs as [|y ys]; simpl; [discriminate|].
  intros H. inversion H; subst; clear H.
  induction ys as [|z zs IH]; simpl; [now left|].
  destruct (Z.min_spec z (fold_right Z.min y zs)) as [[_ ->]|[_ ->]].
  - auto.
  - destruct IH as [IH|IH]; auto.
Qed.

Lemma monday_before d :
  weekday (d - weekday d) = 0 /\ d - 6 <= d - weekday d <= d.
Proof.
  unfold weekday.
  pose proof (Z.mod_pos_bound (d - 1) 7 ltac:(lia)) as Hw.
  pose proof (Z.div_mod (d - 1) 7 ltac:(lia)) as Hd.
  split; [|lia].
  replace (d - (d - 1) mod 7 - 1) with (0 + (d - 1) / 7 * 7) by lia.
  now rewrite Z.mod_add by lia.
Qed.

(** X6.  When a prior table is supplied, the epoch is the Monday of the
    week of its earliest date and the horizon starts on the day after
    its latest date: every prior row is returned in its place with its
    date, dated from the epoch week on and before the start, with the
    number of whole weeks since the epoch as [global_week]; the earliest
    row has [global_week] 0, and every horizon shift is dated after
    every prior row. *)
Theorem horizon_after_prior_table today current_date df_werknemers df_onb
    prev df_vastrooster num_weeks data :
  preprocess_data today current_date df_werknemers df_onb prev
    df_vastrooster num_weeks = Ok data ->
  prev_supplied prev <> [] ->
  weekday (global_start_date_of today prev) = 0
  /\ map (fun p => shift_date (pa_shift p)) (prev_assignments data)
     = prev_dates (prev_supplied prev)
  /\ In (start_date_of today prev - 1) (prev_dates (prev_supplied prev))
  /\ (exists p, In p (prev_assignments data)
                /\ global_week (pa_shift p) = 0)
  /\ (forall p, In p (prev_assignments data) ->
        global_start_date_of today prev <= shift_date (pa_shift p)
        /\ shift_date (pa_shift p) < start_date_of today prev
        /\ global_week (pa_shift p)
           = epoch_week (global_start_date_of today prev)
               (shift_date (pa_shift p))
        /\ 0 <= global_week (pa_shift p)
        /\ forall s, In s (shifts data) ->
             shift_date (pa_shift p) < shift_date s).
Proof.
  intros H Hne.
  destruct (model_calendar _ _ _ _ _ _ _ _ H) as (_ & Hs & _ & Hp).
  assert (Hprev : prev_assignments data
                  = real_prev (global_start_date_of today prev)
                      (prev_supplied prev)).
  { rewrite Hp. unfold preprocess_calendar. cbn [cm_prev_assignments].
    unfold prev_assignments_of.
    destruct (prev_supplied prev); [congruence | reflexivity]. }
  destruct (minimum (prev_dates (prev_supplied prev))) as [lo|] eqn:Hlo.
  2:{ apply minimum_none in Hlo. unfold prev_dates in Hlo.
      apply map_eq_nil in Hlo. congruence. }
  destruct (maximum (prev_dates (prev_supplied prev))) as [hi|] eqn:Hhi.
  2:{ apply maximum_none in Hhi. unfold prev_dates in Hhi.
      apply map_eq_nil in Hhi. congruence. }
  assert (Hgsd : global_start_date_of today prev = lo - weekday lo)
    by (unfold global_start_date_of; now rewrite Hlo).
  assert (Hstart : start_date_of today prev = hi + 1)
    by (unfold start_date_of; now rewrite Hhi).
  destruct (monday_before lo) as (Hmon & Hlo6).
  split; [now rewrite Hgsd|]. split.
  { rewrite Hprev. unfold real_prev, prev_dates. rewrite map_map.
    apply map_ext. reflexivity. }
  split.
  { rewrite Hstart. replace (hi + 1 - 1) with hi by lia.
    now apply maximum_in. }
  split.
  { pose proof (minimum_in _ _ Hlo) as Hin. unfold prev_dates in Hin.
    apply in_map_iff in Hin. destruct Hin as (r & Hr & Hin).
    exists {| pa_employee_id := Some (prev_employee_id (rp_employee_id r));
              pa_shift :=
                set_global_week
                  ((shift_date (rp_shift r) - global_start_date_of today prev)
                   / 7) (rp_shift r) |}.
    split.
    - rewrite Hprev. unfold real_prev. apply in_map_iff. exists r. auto.
    - cbn [pa_shift set_global_week global_week]. rewrite Hr, Hgsd.
      apply Z.div_small. lia. }
  intros p Hin. rewrite Hprev in Hin. unfold real_prev in Hin.
  apply in_map_iff in Hin. destruct Hin as (r & <- & Hr).
  cbn [pa_shift set_global_week global_week shift_date].
  assert (Hd : In (shift_date (rp_shift r)) (prev_dates (prev_supplied prev)))
    by (unfold prev_dates; apply in_map_iff; eauto).
  pose proof (minimum_lower _ _ _ Hlo Hd) as Hge.
  pose proof (maximum_upper _ _ _ Hhi Hd) as Hle.
  unfold epoch_week. repeat split; try lia.
  - apply Z.div_pos; lia.
  - intros s Hin. rewrite Hs in Hin.
    pose proof (horizon_not_before_start _ _ _ _ Hin). lia.
Qed.

Lemma horizon_after_prior_table_witness :
  preprocess_data Scenarios.today Scenarios.current_date
    Scenarios.two_workers [] (Some Scenarios.prior_wednesday) None 1
  = Ok prior_model
  /\ prev_supplied (Some Scenarios.prior_wednesday) <> []
  /\ weekday (global_start_date_of Scenarios.today
                (Some Scenarios.prior_wednesday)) = 0.
Proof.
  assert (H : preprocess_data Scenarios.today Scenarios.current_date
                Scenarios.two_workers [] (Some Scenarios.prior_wednesday)
                None 1
              = Ok prior_model) by (vm_compute; reflexivity).
  assert (Hp : prev_supplied (Some Scenarios.prior_wednesday) <> [])
    by discriminate.
  split; [exact H|]. split; [exact Hp|].
  exact (proj1 (horizon_after_prior_table _ _ _ _ _ _ _ _ H Hp)).
Defined.

End HorizonFacts.

(** ** Facts about the helper dictionaries *)

Module IndexFacts.
Import Py Calendar Preprocessing Validate Index Statements Coverage PyFacts
  CalendarFacts HorizonFacts.

Lemma insert_sorted x xs :
  StronglySorted Z.le xs -> StronglySorted Z.le (insert Z.leb x xs).
Proof.
  induction 1 as [|y ys Hys IH Hy]; simpl.
  - repeat constructor.
  - destruct (Z.leb_spec x y).
    + constructor; [constructor; auto|]. constructor; [lia|].
      rewrite Forall_forall in *. intros z Hz. specialize (Hy z Hz). lia.
    + constructor; auto. rewrite Forall_forall in *. intros z Hz.
      apply in_insert in Hz. destruct Hz as [->|Hz]; [lia | auto].
Qed.

Lemma sort_sorted xs : StronglySorted Z.le (sort Z.leb xs).
Proof.
  unfold sort. induction xs as [|x xs IH]; simpl; [constructor|].
  now apply insert_sorted.
Qed.

(** A sorted list without repetition is determined by its values. *)
Lemma sorted_nodup_unique xs ys :
  StronglySorted Z.le xs -> NoDup xs ->
  StronglySorted Z.le ys -> NoDup ys ->
  (forall z, In z xs <-> In z ys) -> xs = ys.
Proof.
  intros Hxs. revert ys.
  induction Hxs as [|x xs Hxs IH Hx]; intros ys Hnx Hys Hny Hsame.
  - destruct ys as [|y ys]; [reflexivity|].
    exfalso. apply (Hsame y). now left.
  - destruct Hys as [|y ys Hys Hy].
    + exfalso. apply (Hsame x). now left.
    + inversion Hnx as [|? ? Hx' Hnx']; subst.
      inversion Hny as [|? ? Hy' Hny']; subst.
      rewrite Forall_forall in Hx, Hy.
      assert (x = y).
      { assert (Hxy : In x (y :: ys)) by (apply Hsame; now left).
        assert (Hyx : In y (x :: xs)) by (apply Hsame; now left).
        destruct Hxy as [E|Hxy]; [auto|]. destruct Hyx as [E|Hyx]; [auto|].
        specialize (Hx y Hyx). specialize (Hy x Hxy). lia. }
      subst y. f_equal. apply IH; auto. intros z. split; intros Hz.
      * assert (Hz' : In z (x :: ys)) by (apply Hsame; now right).
        destruct Hz' as [<-|Hz']; [contradiction | auto].
      * assert (Hz' : In z (x :: xs)) by (apply Hsame; now right).
        destruct Hz' as [<-|Hz']; [contradiction | auto].
Qed.

Lemma range_sorted a b : StronglySorted Z.le (range a b).
Proof.
  unfold range. generalize (Z.to_nat (b - a)) as n. intros n.
  generalize 0%nat as k. induction n as [|n IH]; intros k; simpl.
  - constructor.
  - constructor; [apply IH|]. rewrite Forall_forall. intros z Hz.
    apply in_map_iff in Hz. destruct Hz as (i & <- & Hi).
    apply in_seq in Hi. lia.
Qed.

Lemma in_monday_day_shift : In monday_day_shift shift_requirements.
Proof. vm_compute. left. reflexivity. Qed.

(** Every week of the horizon has an assignable shift. *)
Lemma week_has_shift today prev n wk :
  0 <= wk < n ->
  exists s, In s (cm_shifts (preprocess_calendar today prev n))
            /\ week s = wk + 1.
Proof.
  intros Hwk. unfold preprocess_calendar. cbn [cm_shifts].
  unfold shifts_of, all_shift_instances.
  set (x := shift_instance (start_date_of today prev)
              (global_start_date_of today prev) wk monday_day_shift).
  assert (Hx : In x
    (flat_map
       (fun wk0 => map (shift_instance (start_date_of today prev)
                          (global_start_date_of today prev) wk0)
                       shift_requirements)
       (range 0 n))).
  { apply in_flat_map. exists wk. split; [apply in_range; lia|].
    apply in_map. apply in_monday_day_shift. }
  destruct (in_with_index_inv set_shift_id _ _ Hx) as (j & Hj).
  assert (Hf : In (set_shift_id j x)
                 (filter (fun s => negb (administrative s))
                    (with_index set_shift_id
                       (flat_map
                          (fun wk0 =>
                             map (shift_instance (start_date_of today prev)
                                    (global_start_date_of today prev) wk0)
                                 shift_requirements)
                          (range 0 n)))))
    by (apply filter_In; split; [exact Hj | reflexivity]).
  destruct (in_with_index_inv set_shift_id _ _ Hf) as (i & Hi).
  exists (set_shift_id i (set_shift_id j x)). split; [exact Hi | reflexivity].
Qed.

Lemma model_weeks today current_date df_werknemers df_onb prev
    df_vastrooster num_weeks data w :
  preprocess_data today current_date df_werknemers df_onb prev
    df_vastrooster num_weeks = Ok data ->
  In w (map week (shifts data)) <-> In w (range 1 (num_weeks + 1)).
Proof.
  intros H. destruct (model_calendar _ _ _ _ _ _ _ _ H) as (_ & Hs & _).
  rewrite in_range, in_map_iff. split.
  - intros (s & <- & Hin).
    destruct (in_model_shifts _ _ _ _ _ _ _ _ _ H Hin)
      as (i & wk & row & -> & Hwk & _).
    cbn [set_shift_id shift_instance week]. lia.
  - intros Hw.
    destruct (week_has_shift today prev num_weeks (w - 1)) as (s & Hin & Hwk);
      [lia|].
    exists s. rewrite Hs. split; [lia | exact Hin].
Qed.

(** X7.  The horizon of a returned model has exactly [num_weeks] weeks:
    the distinct values of the week column are 1 to [num_weeks], and
    the [weeks] entry lists them in that order. *)
Theorem weeks_of_the_horizon today current_date df_werknemers df_onb prev
    df_vastrooster num_weeks data :
  preprocess_data today current_date df_werknemers df_onb prev
    df_vastrooster num_weeks = Ok data ->
  horizon_weeks data = num_weeks
  /\ weeks (build_indices data) = range 1 (num_weeks + 1).
Proof.
  intros H. destruct (model_calendar _ _ _ _ _ _ _ _ H) as (Hn & _).
  assert (Hweeks : weeks (build_indices data) = range 1 (num_weeks + 1)).
  { cbn [weeks build_indices]. unfold weeks_of.
    apply sorted_nodup_unique.
    - apply sort_sorted.
    - apply nodup_sort, nodup_unique, Z.eqb_eq.
    - apply range_sorted.
    - apply nodup_range.
    - intros w. rewrite in_sort, (in_unique Z.eqb Z.eqb_eq).
      apply (model_weeks _ _ _ _ _ _ _ _ _ H). }
  split; [|exact Hweeks].
  unfold horizon_weeks, nunique.
  assert (Hperm : Permutation (unique Z.eqb (map week (shifts data)))
                    (range 1 (num_weeks + 1))).
  { apply NoDup_Permutation.
    - apply nodup_unique, Z.eqb_eq.
    - apply nodup_range.
    - intros w. rewrite (in_unique Z.eqb Z.eqb_eq).
      apply (model_weeks _ _ _ _ _ _ _ _ _ H). }
  unfold len. rewrite (Permutation_length Hperm), length_range. lia.
Qed.

Lemma weeks_of_the_horizon_witness :
  preprocess_data Scenarios.today Scenarios.current_date
    Scenarios.capped_worker [] None None 4 = Ok Scenarios.month_model
  /\ horizon_weeks Scenarios.month_model = 4
  /\ weeks (build_indices Scenarios.month_model) = range 1 (4 + 1).
Proof.
  assert (H : preprocess_data Scenarios.today Scenarios.current_date
                Scenarios.capped_worker [] None None 4
              = Ok Scenarios.month_model) by (vm_compute; reflexivity).
  split; [exact H|].
  exact (weeks_of_the_horizon _ _ _ _ _ _ _ _ H).
Defined.

Section Dictionaries.
Context {K V : Type} (eqb : K -> K -> bool).
Hypothesis eqb_spec : forall a b, eqb a b = true <-> a = b.

Lemma dict_get_set_same (d : dict K V) k v :
  dict_get eqb (dict_set eqb d k v) k = Some v.
Proof.
  induction d as [|[k' v'] d IH]; simpl.
  - now rewrite (eqb_refl_of eqb eqb_spec).
  - destruct (eqb k' k) eqn:E; simpl; rewrite E; auto.
Qed.

Lemma dict_get_set_other (d : dict K V) k v k' :
  k <> k' -> dict_get eqb (dict_set eqb d k v) k' = dict_get eqb d k'.
Proof.
  intros Hne. induction d as [|[k0 v0] d IH]; simpl.
  - destruct (eqb k k') eqn:E; [|reflexivity].
    apply eqb_spec in E. contradiction.
  - destruct (eqb k0 k) eqn:E; simpl.
    + apply eqb_spec in E. subst k0.
      destruct (eqb k k') eqn:E'; [|reflexivity].
      apply eqb_spec in E'. contradiction.
    + now rewrite IH.
Qed.

Lemma find_app {A} (p : A -> bool) xs ys :
  find p (xs ++ ys)
  = match find p xs with Some x => Some x | None => find p ys end.
Proof.
  induction xs as [|x xs IH]; simpl; [reflexivity|]. now destruct (p x).
Qed.

(** Reading a dictionary built item by item gives the value of the last
    item with that key. *)
Lemma dict_get_fold (items : list (K * V)) d k :
  dict_get eqb
    (fold_left (fun d kv => dict_set eqb d (fst kv) (snd kv)) items d) k
  = match find (fun kv => eqb (fst kv) k) (rev items) with
    | Some kv => Some (snd kv)
    | None => dict_get eqb d k
    end.
Proof.
  revert d. induction items as [|[k0 v0] items IH]; intros d; simpl;
    [reflexivity|].
  rewrite IH, find_app. destruct (find _ (rev items)); [reflexivity|].
  simpl. destruct (eqb k0 k) eqn:E.
  - apply eqb_spec in E. subst. apply dict_get_set_same.
  - apply dict_get_set_other. intros ->.
    now rewrite (eqb_refl_of eqb eqb_spec) in E.
Qed.
End Dictionaries.

Lemma shifts_by_week_fold (shifts : list shift) d w :
  dict_get Z.eqb
    (fold_left (fun d r => setdefault_append d (week r) (shift_id r))
       shifts d) w
  = match map shift_id (filter (fun s => week s =? w) shifts) with
    | [] => dict_get Z.eqb d w
    | ids => Some (fillna [] (dict_get Z.eqb d w) ++ ids)
    end.
Proof.
  revert d. induction shifts as [|s shifts IH]; intros d; simpl;
    [reflexivity|].
  rewrite IH. unfold setdefault_append.
  destruct (Z.eqb_spec (week s) w) as [->|Hne]; simpl.
  - rewrite (dict_get_set_same Z.eqb Z.eqb_eq). simpl.
    destruct (map shift_id (filter _ shifts)); simpl;
      [reflexivity | now rewrite <- app_assoc].
  - now rewrite (dict_get_set_other Z.eqb Z.eqb_eq) by exact Hne.
Qed.

(** X8.  For every shift table, [shifts_by_week] holds under a week the
    ids of the shifts of that week in row order, and holds nothing
    under a week without shifts. *)
Theorem shifts_by_week_lookup (shifts : list shift) (w : Z) :
  dict_get Z.eqb (shifts_by_week_of shifts) w
  = match map shift_id (filter (fun s => week s =? w) shifts) with
    | [] => None
    | ids => Some ids
    end.
Proof. unfold shifts_by_week_of. now rewrite shifts_by_week_fold. Qed.

Lemma nodup_map_inj {A B} (f : A -> B) xs x y :
  NoDup (map f xs) -> In x xs -> In y xs -> f x = f y -> x = y.
Proof.
  induction xs as [|z zs IH]; simpl; [easy|].
  intros Hnd Hx Hy E. inversion Hnd as [|? ? Hz Hzs]; subst.
  destruct Hx as [->|Hx], Hy as [->|Hy]; auto.
  - exfalso. apply Hz. rewrite E. now apply in_map.
  - exfalso. apply Hz. rewrite <- E. now apply in_map.
Qed.

(** X9.  In every returned model [dur_min] agrees with the shift table:
    under the id of an assignable shift it holds that shift's duration
    in minutes, and under any other number it holds nothing. *)
Theorem dur_min_lookup today current_date df_werknemers df_onb prev
    df_vastrooster num_weeks data :
  preprocess_data today current_date df_werknemers df_onb prev
    df_vastrooster num_weeks = Ok data ->
  (forall s, In s (shifts data) ->
     dict_get Z.eqb (dur_min (build_indices data)) (shift_id s)
     = Some (duration_min s))
  /\ (forall sid, ~ In sid (map shift_id (shifts data)) ->
        dict_get Z.eqb (dur_min (build_indices data)) sid = None).
Proof.
  intros H.
  pose proof (model_shift_ids _ _ _ _ _ _ _ _ H) as Hids.
  assert (Hnd : NoDup (map shift_id (shifts data)))
    by (rewrite Hids; apply nodup_range).
  cbn [dur_min build_indices]. unfold dur_min_of, dict_of.
  split.
  - intros s Hin. rewrite (dict_get_fold Z.eqb Z.eqb_eq).
    destruct (find _ _) as [[k v]|] eqn:E.
    + apply find_some in E. destruct E as [E Hk]. simpl in Hk.
      apply Z.eqb_eq in Hk. apply in_rev, in_map_iff in E.
      destruct E as (s' & E & Hs'). inversion E; subst.
      simpl. f_equal. f_equal.
      apply (nodup_map_inj shift_id (shifts data)); auto.
    + exfalso.
      assert (Hitem : In (shift_id s, duration_min s)
                (rev (map (fun s => (shift_id s, duration_min s))
                        (shifts data))))
        by (apply in_rev; rewrite rev_involutive; apply in_map_iff; eauto).
      pose proof (find_none _ _ E _ Hitem) as Hf. simpl in Hf.
      rewrite Z.eqb_refl in Hf. discriminate.
  - intros sid Hsid. rewrite (dict_get_fold Z.eqb Z.eqb_eq).
    destruct (find _ _) as [[k v]|] eqn:E; [|reflexivity].
    apply find_some in E. destruct E as [E Hk]. simpl in Hk.
    apply Z.eqb_eq in Hk. apply in_rev, in_map_iff in E.
    destruct E as (s' & E & Hs'). inversion E; subst.
    exfalso. apply Hsid. now apply in_map.
Qed.

Lemma dur_min_lookup_witness :
  preprocess_data Scenarios.today Scenarios.current_date
    Scenarios.two_workers [] None None 1 = Ok Scenarios.week_model
  /\ In first_shift (shifts Scenarios.week_model)
  /\ dict_get Z.eqb (dur_min (build_indices Scenarios.week_model))
       (shift_id first_shift) = Some (duration_min first_shift).
Proof.
  assert (H : preprocess_data Scenarios.today Scenarios.current_date
                Scenarios.two_workers [] None None 1
              = Ok Scenarios.week_model) by (vm_compute; reflexivity).
  assert (Hin : In first_shift (shifts Scenarios.week_model))
    by (vm_compute; left; reflexivity).
  split; [exact H|]. split; [exact Hin|].
  exact (proj1 (dur_min_lookup _ _ _ _ _ _ _ _ H) _ Hin).
Defined.

Lemma in_enumerate {A} (xs : list A) i x :
  In (i, x) (enumerate xs) <->
  0 <= i /\ nth_error xs (Z.to_nat i) = Some x.
Proof.
  unfold enumerate, range.
  replace (Z.to_nat (Z.of_nat (List.length xs) - 0)) with (List.length xs)
    by lia.
  assert (G : forall k, In (i, x)
                (combine (map (fun j => 0 + Z.of_nat j)
                           (seq k (List.length xs))) xs) <->
              Z.of_nat k <= i /\ nth_error xs (Z.to_nat i - k) = Some x).
  { induction xs as [|y ys IH]; intros k; simpl.
    - split; [easy|]. intros [_ Hn]. now destruct (Z.to_nat i - k)%nat.
    - rewrite IH. split.
      + intros [E|[Hle Hn]].
        * inversion E; subst. split; [lia|].
          replace (Z.to_nat (Z.of_nat k) - k)%nat with 0%nat by lia.
          reflexivity.
        * split; [lia|].
          replace (Z.to_nat i - k)%nat with (S (Z.to_nat i - S k)) by lia.
          exact Hn.
      + intros [Hle Hn].
        destruct (Z.to_nat i - k)%nat as [|m] eqn:E.
        * left. inversion Hn; subst. f_equal. lia.
        * right. split; [lia|].
          replace (Z.to_nat i - S k)%nat with m by lia. exact Hn. }
  rewrite (G 0%nat). now rewrite Nat.sub_0_r.
Qed.

(** X10.  For every list of worker ids, [emp_index] holds under an id a
    position at which the list has that id, holds something under
    exactly the ids of the list, and, when no id occurs twice, holds
    under each id its one position. *)
Theorem emp_index_round_trip (emp_ids : list string) :
  (forall emp i,
      dict_get String.eqb (emp_index_of emp_ids) emp = Some i ->
      0 <= i /\ nth_error emp_ids (Z.to_nat i) = Some emp)
  /\ (forall emp,
         In emp emp_ids <->
         exists i, dict_get String.eqb (emp_index_of emp_ids) emp = Some i)
  /\ (NoDup emp_ids ->
      forall n emp,
        nth_error emp_ids n = Some emp ->
        dict_get String.eqb (emp_index_of emp_ids) emp
        = Some (Z.of_nat n)).
Proof.
  assert (Hget : forall emp i,
    dict_get String.eqb (emp_index_of emp_ids) emp = Some i ->
    0 <= i /\ nth_error emp_ids (Z.to_nat i) = Some emp).
  { intros emp i. unfold emp_index_of, dict_of.
    rewrite (dict_get_fold String.eqb String.eqb_eq).
    destruct (find _ _) as [[k v]|] eqn:E; [|discriminate].
    apply find_some in E. destruct E as [E Hk]. simpl in Hk.
    apply String.eqb_eq in Hk. subst k. simpl. intros Hv.
    inversion Hv; subst v. apply in_rev, in_map_iff in E.
    destruct E as ([j e] & E & Hin). simpl in E. inversion E; subst.
    now apply in_enumerate. }
  assert (Hsome : forall emp, In emp emp_ids ->
    exists i, dict_get String.eqb (emp_index_of emp_ids) emp = Some i).
  { intros emp Hin. unfold emp_index_of, dict_of.
    rewrite (dict_get_fold String.eqb String.eqb_eq).
    destruct (find _ _) as [[k v]|] eqn:E; [eauto|]. exfalso.
    destruct (In_nth_error _ _ Hin) as (n & Hn).
    assert (Hitem : In (emp, Z.of_nat n)
              (rev (map (fun p => (snd p, fst p)) (enumerate emp_ids)))).
    { apply in_rev. rewrite rev_involutive. apply in_map_iff.
      exists (Z.of_nat n, emp). split; [reflexivity|].
      apply in_enumerate. split; [lia|]. now rewrite Nat2Z.id. }
    pose proof (find_none _ _ E _ Hitem) as Hf. simpl in Hf.
    rewrite String.eqb_refl in Hf. discriminate. }
  split; [exact Hget|]. split.
  - intros emp. split; [apply Hsome|].
    intros (i & Hi). apply Hget in Hi. destruct Hi as [_ Hi].
    now apply nth_error_In in Hi.
  - intros Hnd n emp Hn.
    destruct (Hsome emp (nth_error_In _ _ Hn)) as (i & Hi).
    rewrite Hi. f_equal. destruct (Hget _ _ Hi) as [Hi0 Hnth].
    assert (Z.to_nat i = n).
    { apply (proj1 (NoDup_nth_error emp_ids) Hnd).
      - apply nth_error_Some. congruence.
      - congruence. }
    lia.
Qed.

Lemma emp_index_round_trip_witness :
  dict_get String.eqb (emp_index_of ["100"; "200"]) "200" = Some 1
  /\ 0 <= 1 /\ nth_error ["100"; "200"] (Z.to_nat 1) = Some "200".
Proof.
  assert (H : dict_get String.eqb (emp_index_of ["100"; "200"]) "200"
              = Some 1) by (vm_compute; reflexivity).
  split; [exact H|].
  exact (proj1 (emp_index_round_trip ["100"; "200"]) _ _ H).
Defined.

End IndexFacts.

(** ** Facts about normalization *)

Module NormalizerFacts.
Import Py Calendar Preprocessing Validate Statements Coverage PyFacts
  WorkerFacts.

Lemma lstrip0_unfold c s :
  lstrip0 (String c s) = if Ascii.eqb c "0"%char then lstrip0 s
                         else String c s.
Proof.
  destruct (Ascii.eqb_spec c "0"%char) as [->|Hne]; [reflexivity|].
  destruct c as [[] [] [] [] [] [] [] []]; try reflexivity.
  now contradiction Hne.
Qed.

Lemma lstrip0_no_leading_zero s : leading_zero (lstrip0 s) = false.
Proof.
  induction s as [|c s IH]; [reflexivity|].
  rewrite lstrip0_unfold. destruct (Ascii.eqb c "0"%char) eqn:E; [exact IH|].
  unfold leading_zero. simpl. exact E.
Qed.

Lemma lstrip0_fixed s : leading_zero s = false -> lstrip0 s = s.
Proof.
  destruct s as [|c s]; [reflexivity|]. intros E.
  rewrite lstrip0_unfold. unfold leading_zero in E. simpl in E.
  now rewrite E.
Qed.

Lemma before_without sep s : contains sep (before sep s) = false.
Proof.
  induction s as [|c s IH]; simpl; [reflexivity|].
  destruct (Ascii.eqb c sep) eqn:E; simpl; [reflexivity|].
  rewrite Ascii.eqb_sym, E. exact IH.
Qed.

Lemma before_fixed sep s : contains sep s = false -> before sep s = s.
Proof.
  induction s as [|c s IH]; simpl; [reflexivity|].
  intros H. apply orb_false_elim in H. destruct H as [H1 H2].
  rewrite Ascii.eqb_sym, H1. now rewrite IH.
Qed.

Lemma before_suffix sep s suffix :
  contains sep s = false -> before sep (s ++ String sep suffix) = s.
Proof.
  induction s as [|c s IH]; simpl.
  - intros _. now rewrite Ascii.eqb_refl.
  - intros H. apply orb_false_elim in H. destruct H as [H1 H2].
    rewrite Ascii.eqb_sym, H1. now rewrite IH.
Qed.

Lemma before_no_leading_zero sep s :
  leading_zero s = false -> leading_zero (before sep s) = false.
Proof.
  destruct s as [|c s]; [reflexivity|]. unfold leading_zero. simpl.
  intros E. destruct (Ascii.eqb c sep); [reflexivity | exact E].
Qed.

(** X11.  The canonical worker id has no leading zero and no hyphen,
    cleaning a canonical id changes nothing, and an id written with
    further leading zeros or with a suffix after a hyphen is cleaned to
    the same canonical id. *)
Theorem clean_id_is_canonical (x : string) :
  leading_zero (clean_id x) = false
  /\ contains "-"%char (clean_id x) = false
  /\ clean_id (clean_id x) = clean_id x
  /\ clean_id (String "0"%char x) = clean_id x
  /\ (forall suffix,
         clean_id (clean_id x ++ String "-"%char suffix) = clean_id x).
Proof.
  assert (Hz : leading_zero (clean_id x) = false)
    by (apply before_no_leading_zero, lstrip0_no_leading_zero).
  assert (Hh : contains "-"%char (clean_id x) = false)
    by apply before_without.
  repeat split; auto.
  - unfold clean_id at 1. rewrite lstrip0_fixed by exact Hz.
    now apply before_fixed.
  - intros suffix. unfold clean_id at 1.
    assert (Hl : leading_zero (clean_id x ++ String "-"%char suffix) = false).
    { revert Hz. generalize (clean_id x). intros [|c s]; [reflexivity|].
      unfold leading_zero. simpl. auto. }
    rewrite lstrip0_fixed by exact Hl.
    now apply before_suffix.
Qed.

Lemma for_each_all_ok {A B} (body : A -> res (list B)) (f : A -> list B) xs :
  (forall x, In x xs -> body x = Ok (f x)) ->
  for_each body xs = Ok (flat_map f xs).
Proof.
  induction xs as [|x xs IH]; simpl; intros H; [reflexivity|].
  rewrite (H x (or_introl eq_refl)). simpl.
  rewrite IH; [reflexivity|]. intros y Hy. apply H. now right.
Qed.

(** A loop whose bodies can raise only [e] raises [e] as soon as one
    body does. *)
Lemma for_each_raises {A B} (body : A -> res (list B)) xs e :
  (forall x e', In x xs -> body x = Raise e' -> e' = e) ->
  (exists x, In x xs /\ body x = Raise e) ->
  for_each body xs = Raise e.
Proof.
  induction xs as [|x xs IH]; simpl; intros Honly (y & Hy & Hraise);
    [destruct Hy|].
  destruct (body x) as [here|e'] eqn:Hx; simpl.
  - destruct Hy as [->|Hy]; [congruence|].
    rewrite IH; [reflexivity | | eauto].
    intros z e'' Hz. apply Honly. now right.
  - f_equal. apply (Honly x); auto.
Qed.








(** X14.  The age is the number of birthdays reached: the birth date
    moved on by that many years is not after the day of the run, moved
    on by one year more it is, and no other number has both properties. *)
Theorem age_counts_birthdays (current_date birth : ymd) :
  has_turned (leeftijd_of current_date birth) birth current_date
  /\ ~ has_turned (leeftijd_of current_date birth + 1) birth current_date
  /\ forall k,
       has_turned k birth current_date ->
       ~ has_turned (k + 1) birth current_date ->
       k = leeftijd_of current_date birth.
Proof.
  unfold leeftijd_of, before_birthday, has_turned, not_after_in_year.
  destruct (Z.ltb_spec (month current_date) (month birth));
    destruct (Z.eqb_spec (month current_date) (month birth));
    destruct (Z.ltb_spec (day current_date) (day birth)); simpl;
    repeat split; try lia; intros k Hk Hk'; lia.
Qed.

Lemma age_counts_birthdays_witness :
  has_turned 36 born_1990 Scenarios.current_date
  /\ ~ has_turned (36 + 1) born_1990 Scenarios.current_date
  /\ 36 = leeftijd_of Scenarios.current_date born_1990.
Proof.
  assert (H1 : has_turned 36 born_1990 Scenarios.current_date).
  { unfold has_turned, not_after_in_year. simpl. lia. }
  assert (H2 : ~ has_turned (36 + 1) born_1990 Scenarios.current_date).
  { unfold has_turned, not_after_in_year. simpl. lia. }
  split; [exact H1|]. split; [exact H2|].
  exact (proj2 (proj2 (age_counts_birthdays Scenarios.current_date
                         born_1990)) 36 H1 H2).
Defined.

Lemma memZ_same ids1 ids2 i :
  (forall j, In j ids1 <-> In j ids2) -> memZ i ids1 = memZ i ids2.
Proof.
  intros H. apply eq_true_iff_eq. rewrite !memZ_true. apply H.
Qed.

Lemma in_shift_ids_of consts emp i :
  In i (shift_ids_of consts emp) <->
  exists c, In c consts /\ cu_medewerker_id c = emp
            /\ cu_shift_id c = Some i.
Proof.
  unfold shift_ids_of. rewrite in_flat_map. split.
  - intros (c & Hc & Hi). apply filter_In in Hc. destruct Hc as [Hc He].
    apply String.eqb_eq in He. exists c. repeat split; auto.
    destruct (cu_shift_id c); [|destruct Hi].
    destruct Hi as [->|[]]. reflexivity.
  - intros (c & Hc & He & Hi). exists c. split.
    + apply filter_In. split; auto. now apply String.eqb_eq.
    + rewrite Hi. now left.
Qed.

Lemma hours_to_subtract_ids shifts_constant consts consts' emp :
  (forall i, In i (shift_ids_of consts emp)
             <-> In i (shift_ids_of consts' emp)) ->
  hours_to_subtract shifts_constant consts emp
  = hours_to_subtract shifts_constant consts' emp.
Proof.
  intros H. unfold hours_to_subtract. fold (shift_ids_of consts emp).
  fold (shift_ids_of consts' emp). f_equal. f_equal.
  apply filter_ext. intros s. now apply memZ_same.
Qed.

Lemma hours_to_subtract_none shifts_constant consts emp :
  memS emp (map cu_medewerker_id consts) = false ->
  hours_to_subtract shifts_constant consts emp = 0.
Proof.
  intros H. unfold hours_to_subtract.
  rewrite (filter_none (fun c => String.eqb (cu_medewerker_id c) emp)).
  - simpl. induction shifts_constant; simpl; auto.
  - intros c Hc. destruct (String.eqb_spec (cu_medewerker_id c) emp); auto.
    exfalso. assert (Hm : memS emp (map cu_medewerker_id consts) = true)
      by (apply memS_true, in_map_iff; eauto).
    congruence.
Qed.

(** A roster row that resolves to no shift, or that repeats the shift of
    another row of the same employee, takes nothing more off. *)
Lemma fixed_minutes_repeated shifts_constant consts c emp :
  cu_shift_id c = None
  \/ (exists c', In c' consts
                 /\ cu_medewerker_id c' = cu_medewerker_id c
                 /\ cu_shift_id c' = cu_shift_id c) ->
  fixed_minutes shifts_constant (consts ++ [c]) emp
  = fixed_minutes shifts_constant consts emp.
Proof.
  intros Hc.
  assert (Hids : forall i, In i (shift_ids_of (consts ++ [c]) emp)
                           <-> In i (shift_ids_of consts emp)).
  { intros i. rewrite !in_shift_ids_of. split.
    - intros (x & Hx & He & Hi). apply in_app_or in Hx.
      destruct Hx as [Hx|[<-|[]]]; [eauto|].
      destruct Hc as [Hnone|(c' & Hc' & He' & Hi')]; [congruence|].
      exists c'. repeat split; congruence.
    - intros (x & Hx & He & Hi). exists x. repeat split; auto.
      apply in_or_app. now left. }
  pose proof (hours_to_subtract_ids shifts_constant _ _ emp Hids) as Hh.
  unfold fixed_minutes. rewrite Hh.
  destruct (memS emp (map cu_medewerker_id consts)) eqn:Hold.
  - assert (Hnew : memS emp (map cu_medewerker_id (consts ++ [c])) = true).
    { apply memS_true. rewrite map_app. apply in_or_app. left.
      now apply memS_true. }
    now rewrite Hnew.
  - rewrite (hours_to_subtract_none _ _ _ Hold).
    destruct (memS emp (map cu_medewerker_id (consts ++ [c])));
      reflexivity.
Qed.

Lemma find_shift_id_same shifts_constant v v' :
  v_dag v' = v_dag v -> v_dienst v' = v_dienst v ->
  find_shift_id shifts_constant v' = find_shift_id shifts_constant v.
Proof. intros Hd Hs. unfold find_shift_id. now rewrite Hd, Hs. Qed.

(** X15.  A fixed-roster row counts once per employee, weekday and
    shift type, whatever its week number: adding a row that names the
    employee, weekday and shift type of a row already there, or a row
    that matches no administrative shift, leaves the worker table as it
    was. *)
Theorem repeated_roster_row_counts_once today current_date df_werknemers
    df_onb prev vast extra num_weeks data data' :
  preprocess_data today current_date df_werknemers df_onb prev
    (Some vast) num_weeks = Ok data ->
  preprocess_data today current_date df_werknemers df_onb prev
    (Some (vast ++ [extra])) num_weeks = Ok data' ->
  find_shift_id (shifts_constant data) extra = None
  \/ (exists v, In v vast
                /\ clean_id (v_medewerker_id v)
                   = clean_id (v_medewerker_id extra)
                /\ v_dag v = v_dag extra /\ v_dienst v = v_dienst extra) ->
  workers data' = workers data.
Proof.
  unfold preprocess_data. intros H H' Hextra.
  destruct (num_weeks <=? 0); [discriminate|].
  destruct (normalize_workers current_date df_werknemers) as [ws|];
    simpl in H, H'; [|discriminate].
  inversion H; subst; clear H. inversion H'; subst; clear H'.
  cbn [workers shifts_constant] in *. rewrite !subtract_constant_spec.
  apply map_ext. intros w. f_equal. f_equal. cbn [vast_supplied].
  rewrite map_app. cbn [map]. apply fixed_minutes_repeated.
  cbn [cu_shift_id cu_medewerker_id const_unavail_of].
  destruct Hextra as [Hnone|(v & Hv & Hid & Hdag & Hdienst)]; [now left|].
  right. exists (const_unavail_of
                   (cm_start_date (preprocess_calendar today prev num_weeks))
                   (cm_shifts_constant
                      (preprocess_calendar today prev num_weeks)) v).
  split; [now apply in_map|]. cbn [cu_shift_id cu_medewerker_id
                                    const_unavail_of].
  split; [exact Hid|]. apply find_shift_id_same; auto.
Qed.

Lemma repeated_roster_row_counts_once_witness :
  preprocess_data Scenarios.today Scenarios.current_date
    Scenarios.small_contract [] None (Some Scenarios.kitchen_monday) 4
  = Ok Scenarios.kitchen_model
  /\ preprocess_data Scenarios.today Scenarios.current_date
       Scenarios.small_contract [] None
       (Some (Scenarios.kitchen_monday ++ [kitchen_monday_again])) 4
     = Ok kitchen_model_again
  /\ workers kitchen_model_again = workers Scenarios.kitchen_model.
Proof.
  assert (H : preprocess_data Scenarios.today Scenarios.current_date
                Scenarios.small_contract [] None
                (Some Scenarios.kitchen_monday) 4
              = Ok Scenarios.kitchen_model) by (vm_compute; reflexivity).
  assert (H' : preprocess_data Scenarios.today Scenarios.current_date
                 Scenarios.small_contract [] None
                 (Some (Scenarios.kitchen_monday ++ [kitchen_monday_again]))
                 4
               = Ok kitchen_model_again) by (vm_compute; reflexivity).
  split; [exact H|]. split; [exact H'|].
  apply (repeated_roster_row_counts_once _ _ _ _ _ _ _ _ _ _ H H').
  right. eexists. split; [left; reflexivity|].
  repeat split; reflexivity.
Defined.

Lemma appended_record_is_idle workers df c :
  rule6_record workers df (onb_of (appended_onb c)) = [].
Proof.
  unfold rule6_record. destruct (memS _ _); simpl; [|reflexivity].
  unfold check_record. cbn [onb_of appended_onb Datum Medewerker_id
    Beschikbaarheid_tijd_vanaf Beschikbaarheid_tijd_tm
    ro_medewerker_id ro_datum_beschikbaarheid ro_tijd_vanaf ro_tijd_tm].
  generalize (filter (of_employee (cu_medewerker_id c)) df). intros l.
  induction l as [|a l IH]; simpl; auto.
Qed.

Lemma appended_records_are_idle workers df consts :
  flat_map (rule6_record workers df)
    (map (fun c => onb_of (appended_onb c)) consts) = [].
Proof.
  induction consts as [|c l IH]; simpl; [reflexivity|].
  now rewrite appended_record_is_idle.
Qed.

(** X16.  The records that the fixed roster adds to the unavailability
    table carry no date, so rule 6 never reports a shift against them:
    on a returned model rule 6 reports what it reports on the uploaded
    records alone. *)
Theorem fixed_roster_records_match_no_shift today current_date
    df_werknemers df_onb prev df_vastrooster num_weeks data df :
  preprocess_data today current_date df_werknemers df_onb prev
    df_vastrooster num_weeks = Ok data ->
  rule6 (workers data) (onb data) df
  = rule6 (workers data) (map onb_of df_onb) df
  /\ List.length (onb data)
     = (List.length df_onb + List.length (vast_supplied df_vastrooster))%nat.
Proof.
  unfold preprocess_data. intros H.
  destruct (num_weeks <=? 0); [discriminate|].
  destruct (normalize_workers current_date df_werknemers) as [ws|];
    simpl in H; [|discriminate].
  inversion H; subst; clear H. cbn [workers onb]. split.
  - unfold rule6. rewrite map_app, flat_map_app, map_map.
    rewrite appended_records_are_idle. apply app_nil_r.
  - now rewrite length_map, length_app, !length_map.
Qed.

Lemma fixed_roster_records_match_no_shift_witness :
  preprocess_data Scenarios.today Scenarios.current_date
    Scenarios.small_contract [] None (Some Scenarios.kitchen_monday) 4
  = Ok Scenarios.kitchen_model
  /\ rule6 (workers Scenarios.kitchen_model) (onb Scenarios.kitchen_model)
       [] = rule6 (workers Scenarios.kitchen_model) (map onb_of []) [].
Proof.
  assert (H : preprocess_data Scenarios.today Scenarios.current_date
                Scenarios.small_contract [] None
                (Some Scenarios.kitchen_monday) 4
              = Ok Scenarios.kitchen_model) by (vm_compute; reflexivity).
  split; [exact H|].
  exact (proj1 (fixed_roster_records_match_no_shift _ _ _ _ _ _ _ _ [] H)).
Defined.

(** X17.  The worker ids of the unavailability table are not cleaned:
    on a returned model a record whose id has a leading zero or a
    hyphen names no worker of the table and is passed over by rule 6,
    whatever its status and the proposal. *)
Theorem uncleaned_record_is_passed_over today current_date df_werknemers
    df_onb prev df_vastrooster num_weeks data df r :
  preprocess_data today current_date df_werknemers df_onb prev
    df_vastrooster num_weeks = Ok data ->
  leading_zero (Medewerker_id r) = true
  \/ contains "-"%char (Medewerker_id r) = true ->
  memS (Medewerker_id r) (map medewerker_id (workers data)) = false
  /\ rule6_record (workers data) df r = [].
Proof.
  intros H Hid.
  assert (Hm : memS (Medewerker_id r) (map medewerker_id (workers data))
               = false).
  { destruct (memS _ _) eqn:E; [|reflexivity]. exfalso.
    apply memS_true, in_map_iff in E. destruct E as (w & Hw & Hin).
    destruct (in_model_workers _ _ _ _ _ _ _ _ _ H Hin)
      as (raw & quals & _ & _ & _ & _ & ->).
    cbn [medewerker_id set_contract_minutes worker_of] in Hw.
    rewrite <- Hw in Hid.
    assert (Hz : leading_zero (clean_id (rw_medewerker_id raw)) = false)
      by (apply before_no_leading_zero, lstrip0_no_leading_zero).
    assert (Hh : contains "-"%char (clean_id (rw_medewerker_id raw)) = false)
      by apply before_without.
    destruct Hid; congruence. }
  split; [exact Hm|]. unfold rule6_record. now rewrite Hm.
Qed.

Lemma uncleaned_record_is_passed_over_witness :
  preprocess_data Scenarios.today Scenarios.current_date
    Scenarios.two_workers [] None None 1 = Ok Scenarios.week_model
  /\ (leading_zero (Medewerker_id zero_padded_record) = true
      \/ contains "-"%char (Medewerker_id zero_padded_record) = true)
  /\ rule6_record (workers Scenarios.week_model)
       (dropna (Scenarios.monday_early Scenarios.week_model))
       zero_padded_record = [].
Proof.
  assert (H : preprocess_data Scenarios.today Scenarios.current_date
                Scenarios.two_workers [] None None 1
              = Ok Scenarios.week_model) by (vm_compute; reflexivity).
  assert (Hid : leading_zero (Medewerker_id zero_padded_record) = true
                \/ contains "-"%char (Medewerker_id zero_padded_record)
                   = true) by (left; reflexivity).
  split; [exact H|]. split; [exact Hid|].
  exact (proj2 (uncleaned_record_is_passed_over _ _ _ _ _ _ _ _ _ _ H Hid)).
Defined.

End NormalizerFacts.

(** ** Facts about a run of the validator *)

Module RunFacts.
Import Py Calendar Preprocessing Validate Web Statements Coverage PyFacts
  ValidateFacts NormalizerFacts.

Lemma for_each_total {A B} (body : A -> res (list B)) xs :
  (forall x, In x xs -> exists o, body x = Ok o) ->
  exists out, for_each body xs = Ok out.
Proof.
  induction xs as [|x xs IH]; simpl; intros H; [eauto|].
  destruct (H x (or_introl eq_refl)) as (o & ->). simpl.
  destruct IH as (out & ->); [intros y Hy; apply H; now right|].
  simpl. eauto.
Qed.

Lemma worker_cell_total {A} workers emp (col : worker -> A) :
  memS emp (map medewerker_id workers) = true ->
  exists c, worker_cell workers emp col = Ok c.
Proof.
  intros H. apply memS_true, in_map_iff in H. destruct H as (w & <- & Hw).
  unfold worker_cell.
  destruct (filter _ workers) as [|w' ws] eqn:E; [|eauto].
  exfalso. assert (Hin : In w (filter
    (fun w0 => String.eqb (medewerker_id w0) (medewerker_id w)) workers)).
  { apply filter_In. split; auto. apply String.eqb_refl. }
  rewrite E in Hin. destruct Hin.
Qed.

Lemma shifts_lookup_total shifts sid :
  memZ sid (map shift_id shifts) = true ->
  exists s, shifts_lookup shifts sid = Ok s.
Proof.
  intros H. apply memZ_true, in_map_iff in H. destruct H as (s & <- & Hs).
  unfold shifts_lookup.
  destruct (filter _ shifts) as [|s' ss] eqn:E; [|eauto].
  exfalso. assert (Hin : In s (filter
    (fun s0 => shift_id s0 =? shift_id s) shifts)).
  { apply filter_In. split; auto. apply Z.eqb_refl. }
  rewrite E in Hin. destruct Hin.
Qed.

Lemma shifts_lookup_known shifts sid s :
  shifts_lookup shifts sid = Ok s ->
  memZ sid (map shift_id shifts) = true.
Proof.
  unfold shifts_lookup.
  destruct (filter _ shifts) as [|s' ss] eqn:E; [discriminate|]. intros _.
  assert (Hin : In s' (filter (fun s0 => shift_id s0 =? sid) shifts))
    by (rewrite E; now left).
  apply filter_In in Hin. destruct Hin as [Hin Hid].
  apply Z.eqb_eq in Hid. subst. apply memZ_true. now apply in_map.
Qed.

Lemma start_weeks_total (shifts : list shift) :
  shifts <> [] -> exists weeks, start_weeks shifts = Ok weeks.
Proof.
  destruct shifts as [|s ss]; [congruence|]. intros _.
  unfold start_weeks. simpl. eauto.
Qed.

Section Resolved.
Variable data : model.
Variable result : list assignment.
Hypothesis known : resolves data result.

Lemma group_employee_known g :
  In g (by_employee (dropna result)) ->
  memS (fst g) (map medewerker_id (workers data)) = true.
Proof.
  intros Hg. apply in_by_employee in Hg. destruct Hg as [Hk _].
  apply in_map_iff in Hk. destruct Hk as (a & <- & Ha).
  now apply known.
Qed.

Lemma shifts_present g :
  In g (by_employee (dropna result)) -> shifts data <> [].
Proof.
  intros Hg. apply in_by_employee in Hg. destruct Hg as [Hk _].
  apply in_map_iff in Hk. destruct Hk as (a & _ & Ha).
  destruct (known a Ha) as [_ Hs]. apply memZ_true in Hs.
  intros E. rewrite E in Hs. destruct Hs.
Qed.

Lemma rule4_total :
  exists out, rule4 (workers data) (dropna result) = Ok out.
Proof.
  unfold rule4. apply for_each_total. intros g Hg.
  destruct (worker_cell_total (workers data) (fst g) max_days_per_week
              (group_employee_known g Hg)) as (c & ->). simpl. eauto.
Qed.

Lemma rule5_total :
  exists out, rule5 (workers data) (dropna result) = Ok out.
Proof.
  unfold rule5. apply for_each_total. intros g Hg.
  destruct (worker_cell_total (workers data) (fst g) contract_minutes
              (group_employee_known g Hg)) as (c & ->). simpl. eauto.
Qed.

Lemma rule7_3_total :
  exists out, rule7_3 (shifts data) (dropna result) = Ok out.
Proof.
  unfold rule7_3. apply for_each_total. intros g Hg.
  destruct (start_weeks_total _ (shifts_present g Hg)) as (weeks & ->).
  simpl. eauto.
Qed.

Lemma rule7_4_total :
  exists out, rule7_4 (workers data) (dropna result) = Ok out.
Proof.
  unfold rule7_4. apply for_each_total. intros g Hg.
  destruct (memS (fst g) CAO_7_4_exempt); [eauto|].
  destruct (worker_cell_total (workers data) (fst g) leeftijd
              (group_employee_known g Hg)) as (c & ->). simpl. eauto.
Qed.

Lemma rule8_total :
  exists out,
    rule8 (shifts data) (workers data) (dropna result) = Ok out.
Proof.
  unfold rule8. apply for_each_total. intros a Ha.
  destruct (known a Ha) as [He Hs].
  destruct (shifts_lookup_total _ _ Hs) as (s & ->). simpl.
  destruct (worker_cell_total (workers data) (employee_id a) deskundigheid
              He) as (c & ->). simpl. eauto.
Qed.

Lemma rule9_8_total emp :
  exists out, rule9_8 (shifts data) (dropna result) emp = Ok out.
Proof.
  unfold rule9_8. apply for_each_total. intros wg Hwg.
  apply (in_groupby Z.leb Z.eqb a_week Z.eqb_eq) in Hwg.
  destruct Hwg as [_ Hrows].
  match goal with
  | |- exists o, bind (for_each ?body ?xs) _ = _ =>
      destruct (for_each_total body xs) as (late & Hlate)
  end.
  - intros a Ha. rewrite Hrows in Ha. apply filter_In in Ha.
    destruct Ha as [Ha _]. apply filter_In in Ha. destruct Ha as [Ha _].
    destruct (known a Ha) as [_ Hs].
    destruct (shifts_lookup_total _ _ Hs) as (s & ->). simpl. eauto.
  - rewrite Hlate. simpl. eauto.
Qed.

Lemma rule9_total :
  exists out, rule9 (shifts data) (dropna result) = Ok out.
Proof.
  unfold rule9. apply for_each_total. intros a Ha.
  destruct (known a Ha) as [_ Hs].
  unfold rule9_row. destruct (shifts_lookup_total _ _ Hs) as (s & ->).
  simpl. destruct (String.eqb (employee_id a) "602056").
  - destruct (rule9_8_total (employee_id a)) as (out & ->). simpl. eauto.
  - simpl. eauto.
Qed.

Lemma resolved_completes :
  exists errs, collected_errors data result = Ok errs.
Proof.
  unfold collected_errors.
  destruct rule4_total as (e4 & ->). destruct rule5_total as (e5 & ->).
  destruct rule7_3_total as (e73 & ->). destruct rule7_4_total as (e74 & ->).
  destruct rule8_total as (e8 & ->). destruct rule9_total as (e9 & ->).
  simpl. eauto.
Qed.
End Resolved.

Lemma rule8_known shifts workers df e8 a :
  rule8 shifts workers df = Ok e8 -> In a df ->
  memZ (a_shift_id a) (map shift_id shifts) = true.
Proof.
  intros H Ha. unfold rule8 in H.
  destruct (for_each_ok_in _ _ _ _ H Ha) as (o & Ho & _).
  destruct (shifts_lookup shifts (a_shift_id a)) as [s|] eqn:E;
    [|discriminate].
  now apply shifts_lookup_known in E.
Qed.

Lemma completes_resolved data result errs :
  collected_errors data result = Ok errs -> resolves data result.
Proof.
  intros H a Ha. split.
  - destruct (collected_errors_rule4 _ _ _ H) as (e4 & H4).
    apply (rule4_known _ _ _ _ H4 Ha).
  - unfold collected_errors in H.
    destruct (rule4 _ _); simpl in H; [|discriminate].
    destruct (rule5 _ _); simpl in H; [|discriminate].
    destruct (rule7_3 _ _); simpl in H; [|discriminate].
    destruct (rule7_4 _ _); simpl in H; [|discriminate].
    destruct (rule8 (shifts data) (workers data) (dropna result)) eqn:H8;
      simpl in H; [|discriminate].
    apply (rule8_known _ _ _ _ _ H8 Ha).
Qed.

Lemma rule4_raises workers result a :
  In a (dropna result) ->
  memS (employee_id a) (map medewerker_id workers) = false ->
  rule4 workers (dropna result)
  = Raise (IndexError "single positional indexer is out-of-bounds").
Proof.
  intros Ha Hunknown. unfold rule4. apply for_each_raises.
  - intros g e' _ Hg. unfold worker_cell in Hg.
    destruct (filter _ workers); simpl in Hg; [|discriminate].
    now inversion Hg.
  - exists (employee_id a,
            filter (of_employee (employee_id a)) (dropna result)).
    split.
    + apply in_by_employee. simpl. split; [|reflexivity].
      apply in_map_iff. eauto.
    + simpl.
      destruct (worker_cell workers (employee_id a) max_days_per_week)
        as [c|e] eqn:E.
      * apply worker_cell_known in E. congruence.
      * unfold worker_cell in E. destruct (filter _ workers);
          [now inversion E | discriminate].
Qed.

(** X18.  On a shift table without repeated ids, the validator runs to
    its end exactly when every filled row names a worker of the worker
    table and a shift of the shift table; a filled row for an unknown
    worker makes it raise an [IndexError], and a proposal without filled
    rows yields no violation. *)
Theorem validator_completes_when_rows_resolve data result :
  is_unique (shifts data) = true ->
  ((exists errs, collected_errors data result = Ok errs) <->
   resolves data result)
  /\ (forall a,
         In a (dropna result) ->
         memS (employee_id a) (map medewerker_id (workers data)) = false ->
         collected_errors data result
         = Raise (IndexError "single positional indexer is out-of-bounds"))
  /\ (dropna result = [] -> collected_errors data result = Ok []).
Proof.
  intros _. split; [|split].
  - split.
    + intros (errs & H). now apply completes_resolved in H.
    + apply resolved_completes.
  - intros a Ha Hunknown. unfold collected_errors.
    now rewrite (rule4_raises _ _ _ Ha Hunknown).
  - intros Hempty.
    assert (H6 : rule6 (workers data) (onb data) [] = []).
    { unfold rule6. induction (onb data) as [|r l IH]; simpl; [reflexivity|].
      rewrite IH. unfold rule6_record.
      destruct (memS _ _); simpl; [|reflexivity].
      now destruct (String.eqb _ _). }
    unfold collected_errors. rewrite Hempty, H6. reflexivity.
Qed.

Lemma validator_completes_when_rows_resolve_witness :
  is_unique (shifts Scenarios.week_model) = true
  /\ In (Scenarios.assign "999"
        (nth 7 (shifts Scenarios.week_model) first_shift))
     (dropna stranger_row)
  /\ memS "999" (map medewerker_id (workers Scenarios.week_model)) = false
  /\ collected_errors Scenarios.week_model stranger_row
     = Raise (IndexError "single positional indexer is out-of-bounds").
Proof.
  assert (Ha : In (Scenarios.assign "999"
                     (nth 7 (shifts Scenarios.week_model) first_shift))
                  (dropna stranger_row))
    by (vm_compute; left; reflexivity).
  assert (Hu : memS "999" (map medewerker_id (workers Scenarios.week_model))
               = false) by (vm_compute; reflexivity).
  assert (Hs : is_unique (shifts Scenarios.week_model) = true)
    by (vm_compute; reflexivity).
  split; [exact Hs|]. split; [exact Ha|]. split; [exact Hu|].
  exact (proj1 (proj2 (validator_completes_when_rows_resolve
                         Scenarios.week_model stranger_row Hs)) _ Ha Hu).
Defined.

(** X19.  The web handler never reports a failed validation: on a
    shift table without repeated ids it answers with success exactly
    when every filled row names a known worker and a known shift,
    whatever violations were collected, and with a server error
    carrying the exception otherwise. *)
Theorem handler_outcome data result :
  is_unique (shifts data) = true ->
  (generate_schedule data result = Success <-> resolves data result)
  /\ (forall e,
         generate_schedule data result = ServerError e <->
         collected_errors data result = Raise e)
  /\ (forall errors,
         generate_schedule data result <> ValidationFailed errors).
Proof.
  intros _. unfold generate_schedule, validate_auto_rooster.
  destruct (collected_errors data result) as [errs|e] eqn:E; simpl.
  - split; [|split].
    + split; [intros _; now apply completes_resolved in E | reflexivity].
    + intros e. split; discriminate.
    + discriminate.
  - split; [|split].
    + split; [discriminate|]. intros Hres.
      destruct (resolved_completes _ _ Hres) as (errs & H). congruence.
    + intros e'. split; intros H; now inversion H.
    + discriminate.
Qed.

Lemma handler_outcome_witness :
  is_unique (shifts Scenarios.week_model) = true
  /\ resolves Scenarios.week_model Scenarios.double_booked
  /\ generate_schedule Scenarios.week_model Scenarios.double_booked
     = Success.
Proof.
  assert (H : generate_schedule Scenarios.week_model Scenarios.double_booked
              = Success) by (vm_compute; reflexivity).
  assert (Hs : is_unique (shifts Scenarios.week_model) = true)
    by (vm_compute; reflexivity).
  split; [exact Hs|]. split; [|exact H].
  exact (proj1 (proj1 (handler_outcome Scenarios.week_model
                         Scenarios.double_booked Hs)) H).
Defined.

End RunFacts.

(** ** Facts about single rules *)

Module RuleFacts.
Import Py Calendar Preprocessing Validate Statements Coverage PyFacts
  ValidateFacts NormalizerFacts RunFacts.

Lemma nodup_flat_map_keyed {G V K} (key : G -> K) (tag : V -> K)
    (F : G -> list V) gs :
  NoDup (map key gs) ->
  (forall g v, In v (F g) -> tag v = key g) ->
  (forall g, NoDup (F g)) ->
  NoDup (flat_map F gs).
Proof.
  intros Hnd Htag HF. induction gs as [|g gs IH]; simpl; [constructor|].
  inversion Hnd as [|? ? Hg Hgs]; subst. apply NoDup_app; auto.
  intros v Hv Hv'. apply in_flat_map in Hv'. destruct Hv' as (g' & Hg' & Hv').
  apply Hg. apply in_map_iff. exists g'. split; auto.
  rewrite <- (Htag g' v Hv'). now apply Htag.
Qed.

(** X20.  Rule 1 reports a shift exactly when more than one filled row
    carries its id, and then once, listing the employees of those rows
    in row order; it reports nothing else. *)
Theorem rule1_reports_shared_shifts (df : list assignment) :
  (forall sid emps,
      In (MultipleEmployees sid emps) (rule1 df) <->
      emps = map employee_id (filter (fun a => a_shift_id a =? sid) df)
      /\ 1 < len emps)
  /\ (forall v, In v (rule1 df) ->
        exists sid emps, v = MultipleEmployees sid emps)
  /\ NoDup (rule1 df).
Proof.
  split; [|split].
  - intros sid emps. unfold rule1. rewrite in_flat_map. split.
    + intros (g & Hg & Hv).
      apply (in_groupby Z.leb Z.eqb a_shift_id Z.eqb_eq) in Hg.
      destruct Hg as [_ Hrows].
      destruct (1 <? len (snd g)) eqn:E; [|destruct Hv].
      destruct Hv as [Hv|[]]. inversion Hv; subst. rewrite Hrows.
      split; [reflexivity|]. apply Z.ltb_lt in E. rewrite Hrows in E.
      unfold len in *. now rewrite length_map.
    + intros [-> Hlen].
      exists (sid, filter (fun a => a_shift_id a =? sid) df). split.
      * apply (in_groupby Z.leb Z.eqb a_shift_id Z.eqb_eq). simpl.
        split; [|reflexivity].
        destruct (filter (fun a => a_shift_id a =? sid) df) as [|a l] eqn:E;
          [unfold len in Hlen; simpl in Hlen; lia|].
        assert (Ha : In a (filter (fun a => a_shift_id a =? sid) df))
          by (rewrite E; now left).
        apply filter_In in Ha. destruct Ha as [Ha Hid].
        apply Z.eqb_eq in Hid. eauto.
      * simpl. unfold len in *. rewrite length_map in Hlen.
        destruct (Z.ltb_spec 1 (Z.of_nat (List.length
          (filter (fun a => a_shift_id a =? sid) df)))); [now left | lia].
  - intros v Hv. unfold rule1 in Hv. apply in_flat_map in Hv.
    destruct Hv as (g & _ & Hv). destruct (1 <? len (snd g)); [|destruct Hv].
    destruct Hv as [<-|[]]. eauto.
  - unfold rule1. apply (nodup_flat_map_keyed fst violation_shift).
    + apply groupby_keys_nodup, Z.eqb_eq.
    + intros g v Hv. destruct (1 <? len (snd g)); [|destruct Hv].
      destruct Hv as [<-|[]]. reflexivity.
    + intros g. destruct (1 <? len (snd g)); repeat constructor. intros [].
Qed.

Lemma rule1_reports_shared_shifts_witness :
  1 < len ["200"; "100"]
  /\ In (MultipleEmployees 0 ["200"; "100"])
        (rule1 (dropna Scenarios.double_booked)).
Proof.
  assert (H : ["200"; "100"]
              = map employee_id
                  (filter (fun a => a_shift_id a =? 0)
                     (dropna Scenarios.double_booked))
              /\ 1 < len ["200"; "100"])
    by (vm_compute; split; reflexivity).
  split; [exact (proj2 H)|].
  exact (proj2 (proj1 (rule1_reports_shared_shifts
                         (dropna Scenarios.double_booked)) 0 _) H).
Defined.

(** X21.  Rule 3 reports a worker, a night and the day after it exactly
    when the worker has a night row on that date and a row that is not
    a night shift on the next date. *)
Theorem rule3_reports_day_after_night (result : list assignment)
    (emp : string) (next_day night : date) :
  In (DayAfterNight emp next_day night) (rule3 (dropna result)) <->
  next_day = night + 1
  /\ (exists ns, In ns (dropna result) /\ of_employee emp ns = true
                 /\ a_is_night ns = true /\ a_shift_date ns = night)
  /\ (exists a, In a (dropna result) /\ of_employee emp a = true
                /\ a_is_night a = false /\ a_shift_date a = night + 1).
Proof.
  unfold rule3. rewrite in_flat_map. split.
  - intros (g & Hg & Hv). apply in_by_employee in Hg.
    destruct Hg as [_ Hrows]. apply in_flat_map in Hv.
    destruct Hv as (ns & Hns & Hv). apply filter_In in Hns.
    destruct Hns as [Hns Hnight]. rewrite Hrows in Hns.
    apply filter_In in Hns. destruct Hns as [Hns Hemp].
    destruct (0 <? len _) eqn:E; [|destruct Hv]. destruct Hv as [Hv|[]].
    inversion Hv; subst. split; [reflexivity|]. split; [eauto|].
    apply Z.ltb_lt in E. unfold len in E.
    destruct (filter _ (filter _ (snd g))) as [|a l] eqn:Ef;
      [simpl in E; lia|].
    assert (Ha : In a (filter (fun a => negb (a_is_night a))
                         (filter (fun a => a_shift_date a
                                           =? a_shift_date ns + 1) (snd g))))
      by (rewrite Ef; now left).
    apply filter_In in Ha. destruct Ha as [Ha Hday].
    apply filter_In in Ha. destruct Ha as [Ha Hdate].
    rewrite Hrows in Ha. apply filter_In in Ha. destruct Ha as [Ha Hemp'].
    exists a. repeat split; auto.
    + now apply negb_true_iff.
    + now apply Z.eqb_eq.
  - intros (-> & (ns & Hns & Hemp & Hnight & <-)
               & (a & Ha & Hemp' & Hday & Hdate)).
    exists (emp, filter (of_employee emp) (dropna result)). split.
    + apply in_by_employee. simpl. split; [|reflexivity].
      apply in_map_iff. exists ns. split; auto.
      now apply of_employee_id.
    + simpl. apply in_flat_map. exists ns. split.
      * apply filter_In. split; auto. apply filter_In. auto.
      * assert (Hin : In a (filter (fun a => negb (a_is_night a))
                   (filter (fun a => a_shift_date a =? a_shift_date ns + 1)
                      (filter (of_employee emp) (dropna result))))).
        { apply filter_In. split; [|now rewrite Hday].
          apply filter_In. split; [|now apply Z.eqb_eq].
          apply filter_In. auto. }
        destruct (filter _ (filter _ (filter _ _))) as [|x l];
          [destruct Hin|]. now left.
Qed.

Lemma rule3_reports_day_after_night_witness :
  In (DayAfterNight "100" (Scenarios.monday + 1) Scenarios.monday)
     (rule3 (dropna night_then_day))
  /\ Scenarios.monday + 1 = Scenarios.monday + 1.
Proof.
  assert (H : In (DayAfterNight "100" (Scenarios.monday + 1)
                    Scenarios.monday)
                 (rule3 (dropna night_then_day)))
    by (vm_compute; left; reflexivity).
  split; [exact H|].
  exact (proj1 (proj1 (rule3_reports_day_after_night night_then_day "100"
                         (Scenarios.monday + 1) Scenarios.monday) H)).
Defined.

(** X22.  When rule 8 runs to its end on a shift table without
    repeated ids, it reports a filled row exactly when none of the
    qualifications that the shift of the row asks for is among those of
    the worker of the row. *)
Theorem rule8_reports_missing_qualification shifts workers df e8 emp
    required sid :
  is_unique shifts = true ->
  rule8 shifts workers df = Ok e8 ->
  (In (LacksQualification emp required sid) e8 <->
   exists a s quals,
     In a df /\ employee_id a = emp /\ a_shift_id a = sid
     /\ shifts_lookup shifts sid = Ok s /\ required = qualification s
     /\ worker_cell workers emp deskundigheid = Ok quals
     /\ forall q, In q required -> ~ In q quals).
Proof.
  intros _ H. unfold rule8 in H. split.
  - intros Hin.
    destruct (for_each_in_out _ _ _ _ H Hin) as (a & o & Ha & Ho & Hv).
    destruct (shifts_lookup shifts (a_shift_id a)) as [s|] eqn:Hs;
      simpl in Ho; [|discriminate].
    destruct (worker_cell workers (employee_id a) deskundigheid)
      as [quals|] eqn:Hq; simpl in Ho; [|discriminate].
    inversion Ho; subst; clear Ho.
    destruct (existsb _ (qualification s)) eqn:E; simpl in Hv;
      [destruct Hv|].
    destruct Hv as [Hv|[]]. inversion Hv; subst.
    exists a, s, quals. repeat split; auto.
    intros q Hq' Hin'.
    assert (Hex : existsb (fun q => memZ q quals) (qualification s) = true)
      by (apply existsb_exists; exists q; split; auto; now apply memZ_true).
    congruence.
  - intros (a & s & quals & Ha & <- & <- & Hs & -> & Hq & Hnone).
    destruct (for_each_ok_in _ _ _ _ H Ha) as (o & Ho & Hincl).
    rewrite Hs in Ho. simpl in Ho. rewrite Hq in Ho. simpl in Ho.
    inversion Ho; subst; clear Ho. apply Hincl.
    destruct (existsb _ (qualification s)) eqn:E; simpl; [|now left].
    apply existsb_exists in E. destruct E as (q & Hq1 & Hq2).
    apply memZ_true in Hq2. exfalso. now apply (Hnone q).
Qed.

Lemma rule8_reports_missing_qualification_witness :
  is_unique (shifts Scenarios.week_model) = true
  /\ rule8 (shifts Scenarios.week_model) (workers Scenarios.week_model)
    (dropna unqualified_day) = Ok [LacksQualification "100" [3] 14]
  /\ exists a s quals,
       In a (dropna unqualified_day) /\ employee_id a = "100"
       /\ a_shift_id a = 14
       /\ shifts_lookup (shifts Scenarios.week_model) 14 = Ok s
       /\ [3] = qualification s
       /\ worker_cell (workers Scenarios.week_model) "100" deskundigheid
          = Ok quals
       /\ forall q, In q [3] -> ~ In q quals.
Proof.
  assert (H : rule8 (shifts Scenarios.week_model)
                (workers Scenarios.week_model) (dropna unqualified_day)
              = Ok [LacksQualification "100" [3] 14])
    by (vm_compute; reflexivity).
  assert (Hs : is_unique (shifts Scenarios.week_model) = true)
    by (vm_compute; reflexivity).
  split; [exact Hs|]. split; [exact H|].
  exact (proj1 (rule8_reports_missing_qualification _ _ _ _ "100" [3] 14
                  Hs H)
           (or_introl eq_refl)).
Defined.

(** X23.  On a shift table without repeated ids, rule 9 reports
    nothing for a proposal in which none of the eight employees with a
    constraint of their own has a filled row, provided every filled row
    names a shift of the shift table. *)
Theorem rule9_is_silent_for_other_employees shifts df :
  is_unique shifts = true ->
  (forall a, In a df ->
     ~ In (employee_id a) custom_employees
     /\ memZ (a_shift_id a) (map shift_id shifts) = true) ->
  rule9 shifts df = Ok [].
Proof.
  intros _ H. unfold rule9.
  rewrite (for_each_all_ok _ (fun _ => [])).
  - f_equal. apply flat_map_nothing.
  - intros a Ha. destruct (H a Ha) as [Hcustom Hs].
    unfold rule9_row. destruct (shifts_lookup_total _ _ Hs) as (s & ->).
    simpl.
    assert (Hneq : forall id, In id custom_employees ->
                              String.eqb (employee_id a) id = false).
    { intros id Hid. apply String.eqb_neq. intros E. apply Hcustom.
      now rewrite E. }
    rewrite !Hneq by (unfold custom_employees; simpl; tauto).
    reflexivity.
Qed.

Lemma rule9_is_silent_for_other_employees_witness :
  is_unique (shifts Scenarios.month_model) = true
  /\ (forall a, In a (dropna Scenarios.five_late_shifts) ->
     ~ In (employee_id a) custom_employees
     /\ memZ (a_shift_id a) (map shift_id (shifts Scenarios.month_model))
        = true)
  /\ rule9 (shifts Scenarios.month_model)
       (dropna Scenarios.five_late_shifts) = Ok [].
Proof.
  assert (H : forall a, In a (dropna Scenarios.five_late_shifts) ->
     ~ In (employee_id a) custom_employees
     /\ memZ (a_shift_id a) (map shift_id (shifts Scenarios.month_model))
        = true).
  { assert (Hall : forallb
      (fun a => (negb (memS (employee_id a) custom_employees)
                 && memZ (a_shift_id a)
                      (map shift_id (shifts Scenarios.month_model)))%bool)
      (dropna Scenarios.five_late_shifts) = true)
      by (vm_compute; reflexivity).
    rewrite forallb_forall in Hall. intros a Ha. specialize (Hall a Ha).
    apply andb_prop in Hall. destruct Hall as [H1 H2]. split; [|exact H2].
    intros Hin. apply memS_true in Hin. rewrite Hin in H1. discriminate. }
  assert (Hs : is_unique (shifts Scenarios.month_model) = true)
    by (vm_compute; reflexivity).
  split; [exact Hs|]. split; [exact H|].
  exact (rule9_is_silent_for_other_employees _ _ Hs H).
Defined.

(** *** Block detection *)

Lemma consecutive_snoc b d :
  b <> [] -> consecutive b -> d = last b 0 + 1 -> consecutive (b ++ [d]).
Proof.
  induction b as [|x b IH]; [congruence|]. intros _ Hb Hd.
  destruct b as [|y b]; simpl in *; [split; auto|].
  destruct Hb as [Hy Hb]. split; [exact Hy|].
  apply IH; [discriminate | exact Hb | exact Hd].
Qed.

Lemma separated_replace_last bs c c' :
  hd 0 c' = hd 0 c -> separated (bs ++ [c]) -> separated (bs ++ [c']).
Proof.
  intros Hhd. induction bs as [|b bs IH]; simpl; [auto|].
  destruct bs as [|b2 bs]; simpl in *.
  - intros [H _]. split; [congruence | exact I].
  - intros [H Hs]. split; [exact H | now apply IH].
Qed.

Lemma separated_snoc bs c c' :
  hd 0 c' <> last c 0 + 1 -> separated (bs ++ [c]) ->
  separated ((bs ++ [c]) ++ [c']).
Proof.
  intros Hhd. induction bs as [|b bs IH]; simpl; [auto|].
  destruct bs as [|b2 bs]; simpl in *.
  - intros [H _]. auto.
  - intros [H Hs]. split; [exact H | now apply IH].
Qed.

Lemma hd_snoc (c : list date) d : c <> [] -> hd 0 (c ++ [d]) = hd 0 c.
Proof. destruct c; [congruence | reflexivity]. Qed.

(** What the block loop keeps true from one date to the next. *)
Lemma blocks_step_keeps st d :
  (snd st = [] -> fst st = []) ->
  Forall (fun b => b <> [] /\ consecutive b) (close_blocks st) ->
  separated (close_blocks st) ->
  (snd (blocks_step st d) = [] -> fst (blocks_step st d) = [])
  /\ Forall (fun b => b <> [] /\ consecutive b)
       (close_blocks (blocks_step st d))
  /\ separated (close_blocks (blocks_step st d))
  /\ List.concat (close_blocks (blocks_step st d))
     = List.concat (close_blocks st) ++ [d].
Proof.
  destruct st as [bs c]. unfold blocks_step, close_blocks. simpl.
  intros Hopen Hgood Hsep. destruct c as [|x c].
  - rewrite (Hopen eq_refl). simpl. repeat split; try discriminate.
    repeat constructor. discriminate.
  - destruct (Z.eqb_spec d (last (x :: c) 0 + 1)) as [Hd|Hd]; simpl.
    + split; [discriminate|]. split; [|split].
      * apply Forall_app in Hgood. destruct Hgood as [Hbs Hc].
        apply Forall_app. split; [exact Hbs|]. constructor; [|constructor].
        apply Forall_inv in Hc. destruct Hc as [_ Hcons].
        split; [discriminate|].
        change (x :: c ++ [d]) with ((x :: c) ++ [d]).
        apply consecutive_snoc; auto. discriminate.
      * apply (separated_replace_last bs (x :: c)); auto.
      * rewrite !concat_app. simpl. rewrite !app_nil_r.
        now rewrite <- app_assoc.
    + split; [discriminate|]. split; [|split].
      * apply Forall_app. split; [exact Hgood|].
        repeat constructor. discriminate.
      * apply separated_snoc; auto.
      * rewrite !concat_app. simpl. now rewrite !app_nil_r.
Qed.

Lemma blocks_fold_keeps ds st :
  (snd st = [] -> fst st = []) ->
  Forall (fun b => b <> [] /\ consecutive b) (close_blocks st) ->
  separated (close_blocks st) ->
  Forall (fun b => b <> [] /\ consecutive b)
    (close_blocks (fold_left blocks_step ds st))
  /\ separated (close_blocks (fold_left blocks_step ds st))
  /\ List.concat (close_blocks (fold_left blocks_step ds st))
     = List.concat (close_blocks st) ++ ds.
Proof.
  revert st. induction ds as [|d ds IH]; intros st Hopen Hgood Hsep; simpl.
  - rewrite app_nil_r. auto.
  - destruct (blocks_step_keeps st d Hopen Hgood Hsep)
      as (Hopen' & Hgood' & Hsep' & Hcat).
    destruct (IH _ Hopen' Hgood' Hsep') as (Hg & Hs & Hc).
    repeat split; auto. rewrite Hc, Hcat. now rewrite <- app_assoc.
Qed.

(** X24.  The block detection of rules 9.5 and 9.6 cuts a list of dates
    into its maximal runs: the blocks put together give the list back,
    no block is empty, within a block every date is the day after the
    one before it, and no block starts on the day after the block
    before it ends. *)
Theorem blocks_of_cuts_maximal_runs (ds : list date) :
  List.concat (blocks_of ds) = ds
  /\ Forall (fun b => b <> [] /\ consecutive b) (blocks_of ds)
  /\ separated (blocks_of ds).
Proof.
  assert (H : Forall (fun b => b <> [] /\ consecutive b)
                (close_blocks (fold_left blocks_step ds ([], [])))
              /\ separated (close_blocks (fold_left blocks_step ds ([], [])))
              /\ List.concat
                   (close_blocks (fold_left blocks_step ds ([], [])))
                 = List.concat (close_blocks ([], [])) ++ ds).
  { apply blocks_fold_keeps; simpl; auto. }
  destruct H as (Hg & Hs & Hc).
  change (blocks_of ds)
    with (close_blocks (fold_left blocks_step ds ([], []))).
  split; [exact Hc|]. split; [exact Hg | exact Hs].
Qed.

(** *** Rule 7.1 *)

Lemma firstn_seq n start len :
  (n <= len)%nat -> firstn n (seq start len) = seq start n.
Proof.
  revert start len. induction n as [|n IH]; intros start [|len] H; simpl;
    try reflexivity; try lia. f_equal. apply IH. lia.
Qed.

Lemma map_seq_from {A} (f : nat -> A) a n :
  map f (seq a n) = map (fun t => f (a + t)%nat) (seq 0 n).
Proof.
  revert f a. induction n as [|n IH]; intros f a; simpl; [reflexivity|].
  rewrite Nat.add_0_r. f_equal.
  rewrite (IH f (S a)), (IH (fun t => f (a + t)%nat) 1%nat).
  apply map_ext. intros t. f_equal. lia.
Qed.

(** A slice of a run of nights is a run of nights. *)
Lemma slice_run d k i n :
  0 <= i -> 0 <= n -> i + n <= k ->
  slice (run_of_nights d k) i n = run_of_nights (d + i) n.
Proof.
  intros Hi Hn Hk. unfold slice, run_of_nights, range.
  rewrite !map_map, skipn_map, firstn_map, skipn_seq, firstn_seq by lia.
  rewrite map_seq_from. replace (Z.to_nat (n - 0)) with (Z.to_nat n) by lia.
  apply map_ext. intros t. lia.
Qed.

Lemma run_span d n :
  0 <= n -> last (run_of_nights d (n + 1)) 0 - hd 0 (run_of_nights d (n + 1))
            = n.
Proof.
  intros Hn. unfold run_of_nights, range.
  replace (Z.to_nat (n + 1 - 0)) with (S (Z.to_nat n)) by lia.
  rewrite seq_S, !map_app. simpl. rewrite last_last.
  destruct (Z.to_nat n) eqn:E; simpl; lia.
Qed.

Lemma len_run d k : 0 <= k -> len (run_of_nights d k) = k.
Proof.
  intros Hk. unfold len, run_of_nights, range.
  rewrite !length_map, length_seq. lia.
Qed.

(** X25.  For a worker whose nights are [k] days in a row, rule 7.1
    reports one window of cap + 1 nights for every night beyond the cap
    (5 nights, 7 for the exempt worker): the reported windows are
    exactly the runs of cap + 1 nights that start on one of the first
    [k] - cap days of the run, so a run of [k] nights gives [k] - cap
    violations, not one. *)
Theorem rule7_1_reports_every_excess_night (result : list assignment)
    (emp : string) (d : date) (k : Z) :
  In emp (map employee_id (dropna result)) ->
  night_dates_of (filter (of_employee emp) (dropna result))
  = run_of_nights d k ->
  forall m window,
    In (ConsecutiveNights emp m window) (rule7_1 (dropna result)) <->
    m = night_cap emp
    /\ exists i, 0 <= i < k - night_cap emp
                 /\ window = run_of_nights (d + i) (night_cap emp + 1).
Proof.
  intros Hemp Hdates m window.
  assert (Hcap : 0 < night_cap emp)
    by (unfold night_cap; destruct (memS emp COA_7_1_exempt); lia).
  unfold rule7_1. rewrite in_flat_map. split.
  - intros (g & Hg & Hv). apply in_by_employee in Hg.
    destruct Hg as [_ Hrows]. apply in_flat_map in Hv.
    destruct Hv as (i & Hi & Hv). apply in_range in Hi.
    destruct (_ =? _) eqn:E in Hv; [|destruct Hv].
    destruct Hv as [Hv|[]]. inversion Hv as [[He Hm Hw]].
    rewrite He in *. rewrite Hrows, Hdates in *.
    fold (night_cap emp) in *. clear Hv.
    assert (Hk : i < k - night_cap emp).
    { destruct (Z.le_gt_cases 0 k) as [Hk|Hk].
      - rewrite len_run in Hi by exact Hk. lia.
      - unfold len, run_of_nights, range in Hi.
        rewrite !length_map, length_seq in Hi. lia. }
    split; [reflexivity|]. exists i. split; [lia|].
    apply slice_run; lia.
  - intros (-> & i & Hi & ->).
    exists (emp, filter (of_employee emp) (dropna result)). split.
    + apply in_by_employee. simpl. auto.
    + cbn [fst snd]. rewrite Hdates. fold (night_cap emp).
      apply in_flat_map.
      exists i. split.
      * apply in_range. rewrite len_run by lia. lia.
      * rewrite slice_run by lia. rewrite run_span by lia.
        rewrite Z.eqb_refl. now left.
Qed.

Lemma rule7_1_reports_every_excess_night_witness :
  In "100" (map employee_id (dropna week_of_nights))
  /\ night_dates_of (filter (of_employee "100") (dropna week_of_nights))
     = run_of_nights Scenarios.monday 7
  /\ In (ConsecutiveNights "100" 5 (run_of_nights (Scenarios.monday + 1) 6))
        (rule7_1 (dropna week_of_nights)).
Proof.
  assert (H1 : In "100" (map employee_id (dropna week_of_nights)))
    by (vm_compute; left; reflexivity).
  assert (H2 : night_dates_of
                 (filter (of_employee "100") (dropna week_of_nights))
               = run_of_nights Scenarios.monday 7)
    by (vm_compute; reflexivity).
  split; [exact H1|]. split; [exact H2|].
  apply (proj2 (rule7_1_reports_every_excess_night week_of_nights "100"
                  Scenarios.monday 7 H1 H2 5
                  (run_of_nights (Scenarios.monday + 1) 6))).
  split; [reflexivity|]. exists 1. split; [vm_compute; split; congruence|].
  reflexivity.
Defined.

End RuleFacts.

(** ** The upload filter *)

Module UploadFacts.
Import Py Upload.

Lemma contains_append c s t :
  contains c (String.append s t) = (contains c s || contains c t)%bool.
Proof.
  induction s as [|c' s IH]; simpl; [reflexivity|].
  rewrite IH. apply Bool.orb_assoc.
Qed.

Lemma contains_after_separator c s t :
  contains c (String.append s (String c t)) = true.
Proof.
  rewrite contains_append. simpl. rewrite Ascii.eqb_refl.
  apply Bool.orb_true_r.
Qed.

Lemma after_last_append c s t :
  contains c t = false ->
  after_last c (String.append s (String c t)) = t.
Proof.
  intros Ht. induction s as [|c' s IH]; simpl.
  - rewrite Ht, Ascii.eqb_refl. reflexivity.
  - rewrite contains_after_separator. exact IH.
Qed.

(** X26.  [allowed_file] looks at what follows the last dot only, and
    without regard to case: for an extension [ext] that holds no dot, the
    name [stem.ext] is allowed exactly when [ext], lowered, is csv or
    xlsx, whatever [stem] is (dots and allowed extensions inside [stem]
    change nothing). *)
Theorem allowed_file_reads_the_last_extension (stem ext : string) :
  contains "."%char ext = false ->
  allowed_file (String.append stem (String "."%char ext))
  = memS (lower ext) ALLOWED_EXT.
Proof.
  intros Hext. unfold allowed_file.
  rewrite contains_after_separator, after_last_append by exact Hext.
  reflexivity.
Qed.

Lemma allowed_file_reads_the_last_extension_witness :
  contains "."%char "XLSX" = false
  /\ allowed_file "rooster.csv.XLSX" = memS (lower "XLSX") ALLOWED_EXT.
Proof.
  assert (H : contains "."%char "XLSX" = false) by reflexivity.
  split; [exact H|].
  exact (allowed_file_reads_the_last_extension "rooster.csv" "XLSX" H).
Defined.

End UploadFacts.
